(** * Heading-inference pipeline of pdf_extractor: a shallow embedding

    The repository holds three successive iterations of one pipeline,
    [app/main1.py], [app/main2.py] and [app/main3.py].  They are embedded
    below as the modules [V1], [V2] and [V3]; what the three files share
    word for word lives in the module [Py] (Python primitives) and in
    [Shared] (the clustering loop).  [Layout], [LinesV1] and [LinesV2]
    embed [extract_text_elements] over the keys of a page dictionary
    that the code reads.  The module [Spec] holds the vocabulary in
    which the properties are stated, [Examples] the documents they are
    tried on; the lemmas follow, and the module [Claims] states the
    properties themselves.  Further lemmas about the line builders, the
    titles, the order of the outline, the merging of lines and the level
    dictionaries come after it, and the module [Behaviour] states what
    they give for the three pipelines.

    Modelling conventions.
    - A Python [float] is an exact rational ([Q]); comparisons are the
      boolean comparisons of [Q], [==] on floats is [Qeq_bool].  Where
      a float is compared with a count of occurrences, in the product
      [0.7 * num_pages] of the header and footer filters, the literal
      and the product are rounded to binary64 ([Py.binary64]): on
      integers the rounding decides the comparison.
    - A Python [int] is a [Z]; [len] returns a [nat].
    - A [str] is a [string] whose characters are code points below 256.
    - A raised exception is the [Raise] outcome of the [result] type.
    - The document handed to [process_pdf_file] is represented by what
      [extract_text_elements] returns for it (and its page count where
      the code reads [doc.page_count]); [Spec.run1], [Spec.run2] and
      [Spec.run3] start from the pages of the opened document. *)

From Stdlib Require Import List Bool Arith ZArith QArith Qabs Qround Lia Lqa.
From Stdlib Require Import String Ascii Permutation Sorted.
From Equations Require Import Equations.
From Equations.Prop Require Import Logic.
Import ListNotations.

Set Implicit Arguments.
Open Scope Q_scope.

(** ** Outcomes of Python code that may raise *)

Inductive exn : Type :=
| ValueError
| IndexError
| StatisticsError.

Inductive result (A : Type) : Type :=
| Ok (a : A)
| Raise (e : exn).

Arguments Ok {A} a.
Arguments Raise {A} e.

Definition bind {A B : Type} (m : result A) (f : A -> result B) : result B :=
  match m with
  | Ok a => f a
  | Raise e => Raise e
  end.

Notation "x <- m ;; k" := (bind m (fun x => k))
  (at level 61, m at next level, right associativity).

(** ** Python primitives *)

Module Py.

(** *** Numbers *)

Definition Qltb (a b : Q) : bool := negb (Qle_bool b a).
Definition Qgtb (a b : Q) : bool := Qltb b a.

Definition Q_of_nat (n : nat) : Q := inject_Z (Z.of_nat n).

(** [round(x)] to an integer, halves to the even neighbour. *)
Definition round_half_even (q : Q) : Z :=
  let f := Qfloor q in
  match Qcompare (q - inject_Z f) (1 # 2) with
  | Lt => f
  | Gt => (f + 1)%Z
  | Eq => if Z.even f then f else (f + 1)%Z
  end.

(** [round(x, ndigits)]. *)
Definition round (x : Q) (ndigits : nat) : Q :=
  let scale := inject_Z (10 ^ Z.of_nat ndigits) in
  inject_Z (round_half_even (x * scale)) / scale.

(** The largest [k] with [2 ^ k <= |x|], for [x] other than zero. *)
Definition ilog2 (x : Q) : Z :=
  let k := (Z.log2 (Z.abs (Qnum x)) - Z.log2 (Zpos (Qden x)))%Z in
  if Qle_bool (2 ^ k) (Qabs x) then k else (k - 1)%Z.

(** The binary64 number nearest to [x], halves to the even significand:
    what a float literal, the conversion of an [int] and a float
    operation answer for the exact value [x].  The exponent is not
    bounded; the quantities rounded below are page counts and their
    products with 0.7, far from overflow and underflow. *)
Definition binary64 (x : Q) : Q :=
  if Qeq_bool x 0 then 0
  else
    let ulp := 2 ^ (ilog2 x - 52) in
    inject_Z (round_half_even (x / ulp)) * ulp.

(** The literal [0.7]. *)
Definition float_07 : Q := binary64 (7 # 10).

(** [a * n] for a float [a] and an [int] [n]: [n] is converted to a
    float and the product is rounded. *)
Definition fmul_int (a : Q) (n : Z) : Q :=
  binary64 (a * binary64 (inject_Z n)).

Definition sum (l : list Q) : Q := fold_right Qplus 0 l.

(** [statistics.mean]: raises [StatisticsError] on an empty sequence. *)
Definition mean (l : list Q) : result Q :=
  match l with
  | [] => Raise StatisticsError
  | _ => Ok (sum l / Q_of_nat (List.length l))
  end.

(** [max] of a sequence of floats: raises [ValueError] when it is empty. *)
Definition Qmaxb (a b : Q) : Q := if Qltb a b then b else a.

Definition max_seq (l : list Q) : result Q :=
  match l with
  | [] => Raise ValueError
  | x :: r => Ok (fold_left Qmaxb r x)
  end.

Definition Zmax_seq (l : list Z) : result Z :=
  match l with
  | [] => Raise ValueError
  | x :: r => Ok (fold_left Z.max r x)
  end.

(** *** Lists *)

Section Sorting.
Variable A : Type.
(** [leb x y]: the key of [x] is at most the key of [y]. *)
Variable leb : A -> A -> bool.

Fixpoint insert (x : A) (l : list A) : list A :=
  match l with
  | [] => [x]
  | y :: r => if leb x y then x :: l else y :: insert x r
  end.

(** [sorted(l, key=...)]: the stable sort; an element goes in front of
    the later elements whose key is not smaller. *)
Definition sorted (l : list A) : list A := fold_right insert [] l.
End Sorting.

(** [sorted(l, reverse=True)] on floats. *)
Definition sorted_desc (l : list Q) : list Q := sorted (fun x y => Qle_bool y x) l.

(** [set(l)] on floats, listed by first occurrence. *)
Fixpoint setQ (l : list Q) : list Q :=
  match l with
  | [] => []
  | x :: r => x :: filter (fun y => negb (Qeq_bool x y)) (setQ r)
  end.

(** [l.remove(x)]: drops the first item equal to [x], raises
    [ValueError] when there is none. *)
Fixpoint remove (x : Q) (l : list Q) : result (list Q) :=
  match l with
  | [] => Raise ValueError
  | y :: r => if Qeq_bool y x then Ok r
              else (r' <- remove x r ;; Ok (y :: r'))
  end.

(** The first item of [l] with the least [f]: what [min(l, key=f)]
    returns, and what [l[diffs.index(min(diffs))]] selects when [diffs]
    lists [f] over [l]. *)
Fixpoint argmin_from {A : Type} (f : A -> Q) (best : A) (l : list A) : A :=
  match l with
  | [] => best
  | x :: r => argmin_from f (if Qltb (f x) (f best) then x else best) r
  end.

Definition argmin {A : Type} (f : A -> Q) (l : list A) : option A :=
  match l with
  | [] => None
  | x :: r => Some (argmin_from f x r)
  end.

(** [set(l)] on ints, and [x in l] on strings. *)
Definition setZ (l : list Z) : list Z := nodup Z.eq_dec l.
Definition mem_str (s : string) (l : list string) : bool :=
  existsb (String.eqb s) l.

(** [collections.Counter(l).items()]: each distinct text with the number
    of times it occurs, in order of first occurrence. *)
Definition Counter (l : list string) : list (string * nat) :=
  map (fun t => (t, count_occ string_dec l t)) (nodup string_dec l).

(** *** Dictionaries keyed by floats, in insertion order *)

Section Dict.
Variable V : Type.
Definition dict := list (Q * V).

Fixpoint dict_get (d : dict) (k : Q) : option V :=
  match d with
  | [] => None
  | (k', v) :: r => if Qeq_bool k' k then Some v else dict_get r k
  end.

(** [d[k] = v]: overwrites in place, or appends a new key. *)
Fixpoint dict_set (d : dict) (k : Q) (v : V) : dict :=
  match d with
  | [] => [(k, v)]
  | (k', v') :: r =>
      if Qeq_bool k' k then (k', v) :: r else (k', v') :: dict_set r k v
  end.

Definition dict_keys (d : dict) : list Q := map fst d.
End Dict.

(** *** Characters and strings *)

Definition code (c : ascii) : nat := nat_of_ascii c.

Definition in_range (lo hi : nat) (c : ascii) : bool :=
  (lo <=? code c)%nat && (code c <=? hi)%nat.

(** [\d] and [str.isdigit] below 256. *)
Definition is_digit (c : ascii) : bool := in_range 48 57 c.

(** [str.isspace] and [\s] below 256: tab to carriage return, the four
    separators 28 to 31, space, NEL and the no-break space. *)
Definition is_space (c : ascii) : bool :=
  in_range 9 13 c || in_range 28 32 c
  || (code c =? 133)%nat || (code c =? 160)%nat.

(** [str.isupper] of one character below 256. *)
Definition is_upper (c : ascii) : bool :=
  in_range 65 90 c
  || (in_range 192 222 c && negb (code c =? 215)%nat).

Definition lower_char (c : ascii) : ascii :=
  if is_upper c then ascii_of_nat (code c + 32) else c.

Fixpoint lower (s : string) : string :=
  match s with
  | EmptyString => EmptyString
  | String c r => String (lower_char c) (lower r)
  end.

Definition is_empty (s : string) : bool :=
  match s with EmptyString => true | _ => false end.

Fixpoint lstrip (s : string) : string :=
  match s with
  | EmptyString => EmptyString
  | String c r => if is_space c then lstrip r else s
  end.

Fixpoint rstrip (s : string) : string :=
  match s with
  | EmptyString => EmptyString
  | String c r =>
      let r' := rstrip r in
      if is_space c && is_empty r' then EmptyString else String c r'
  end.

Definition strip (s : string) : string := rstrip (lstrip s).

Definition len (s : string) : nat := String.length s.

(** [sub in s]. *)
Fixpoint contains (sub s : string) : bool :=
  String.prefix sub s ||
  match s with
  | EmptyString => false
  | String _ r => contains sub r
  end.

(** [s.endswith(c)] for a one-character suffix. *)
Fixpoint endswith (c : ascii) (s : string) : bool :=
  match s with
  | EmptyString => false
  | String d EmptyString => Ascii.eqb d c
  | String _ r => endswith c r
  end.

(** [s.count(c)] for a one-character pattern. *)
Fixpoint count (c : ascii) (s : string) : nat :=
  match s with
  | EmptyString => 0
  | String d r => (if Ascii.eqb d c then 1 else 0) + count c r
  end.

(** [len(s.split())]: the number of maximal runs of non-space
    characters; [in_word] tells whether the previous character was part
    of a run. *)
Fixpoint count_words (in_word : bool) (s : string) : nat :=
  match s with
  | EmptyString => 0
  | String c r =>
      if is_space c then count_words false r
      else (if in_word then 0 else 1) + count_words true r
  end.

Definition split_len (s : string) : nat := count_words false s.

(** [sep.join(l)]. *)
Fixpoint join (sep : string) (l : list string) : string :=
  match l with
  | [] => EmptyString
  | [s] => s
  | s :: r => (s ++ sep ++ join sep r)%string
  end.

(** [s[0].isupper()]; raises [IndexError] on the empty string. *)
Definition first_isupper (s : string) : result bool :=
  match s with
  | EmptyString => Raise IndexError
  | String c _ => Ok (is_upper c)
  end.

(** *** Regular expressions

    The patterns of the three files use character classes, greedy
    repetition of a class, sequencing, the greedy optional group, one
    capturing group and the end anchor.  [rmatch] is the backtracking
    matcher of [re.match]: it tries the greedy choice first and falls
    back when the continuation fails.  The continuation gets the rest of
    the subject; the answer is the text of group 1 (empty when the
    pattern has no group). *)

Inductive regex : Type :=
| Eps
| Chr (p : ascii -> bool)
| Star (p : ascii -> bool)
| Seq (r1 r2 : regex)
| Opt (r : regex)
| Grp (r : regex)
| Eos.

Definition Plus (p : ascii -> bool) : regex := Seq (Chr p) (Star p).

(** [r{0,2}]. *)
Definition Upto2 (r : regex) : regex := Opt (Seq r (Opt r)).

Definition orelse {A : Type} (a b : option A) : option A :=
  match a with
  | Some _ => a
  | None => b
  end.

Fixpoint star {A : Type} (p : ascii -> bool) (s : string)
    (k : string -> option A) : option A :=
  match s with
  | String c r => if p c then orelse (star p r k) (k s) else k s
  | EmptyString => k s
  end.

(** The part of [s] in front of its suffix [rest]. *)
Definition consumed (s rest : string) : string :=
  String.substring 0 (String.length s - String.length rest) s.

Fixpoint rmatch (r : regex) (s : string) (k : string -> option string)
    : option string :=
  match r with
  | Eps => k s
  | Chr p =>
      match s with
      | String c s' => if p c then k s' else None
      | EmptyString => None
      end
  | Star p => star p s k
  | Seq r1 r2 => rmatch r1 s (fun s1 => rmatch r2 s1 k)
  | Opt r1 => orelse (rmatch r1 s k) (k s)
  | Grp r1 =>
      rmatch r1 s (fun rest =>
        match k rest with
        | Some _ => Some (consumed s rest)
        | None => None
        end)
  | Eos =>
      match s with
      | EmptyString => k s
      | String c EmptyString => if (code c =? 10)%nat then k s else None
      | _ => None
      end
  end.

(** [re.match(r, s)]: [Some g] is a match object whose [group(1)] is
    [g]; [None] is Python's [None]. *)
Definition re_match (r : regex) (s : string) : option string :=
  rmatch r s (fun _ => Some EmptyString).

Definition is_char (c : ascii) : ascii -> bool := Ascii.eqb c.
Definition not_newline (c : ascii) : bool := negb (code c =? 10)%nat.

End Py.

(** ** What the three files share *)

Module Shared.
Import Py.

(** Heading levels and the entries of the outline. *)
Inductive level : Type := H1 | H2 | H3.

Definition level_eqb (a b : level) : bool :=
  match a, b with
  | H1, H1 | H2, H2 | H3, H3 => true
  | _, _ => false
  end.

(** [{"H1": 1, "H2": 2, "H3": 3}]. *)
Definition level_order (l : level) : nat :=
  match l with H1 => 1 | H2 => 2 | H3 => 3 end.

Record OutlineEntry : Type := mkEntry {
  entry_level : level;
  entry_text : string;
  entry_page : Z
}.

Record Outcome : Type := mkOutcome {
  title : string;
  outline : list OutlineEntry
}.

(** [for s in cluster: sizes.remove(s)]. *)
Fixpoint remove_all (cluster sizes : list Q) : result (list Q) :=
  match cluster with
  | [] => Ok sizes
  | s :: r => sizes' <- remove s sizes ;; remove_all r sizes'
  end.

(** [abs(s - base) <= tolerance]. *)
Definition within (tolerance base s : Q) : bool :=
  Qle_bool (Qabs (s - base)) tolerance.

(** One round of the [while sizes:] loop on a non-empty [sizes]: the
    cluster of the first size, its mean, and the sizes that remain. *)
Definition cluster_round (tolerance : Q) (sizes : list Q)
    : result (list Q * Q * list Q) :=
  let base := hd 0 sizes in
  let cluster := filter (within tolerance base) sizes in
  m <- mean cluster ;;
  sizes' <- remove_all cluster sizes ;;
  Ok (cluster, m, sizes').

Lemma remove_length x l l' :
  remove x l = Ok l' -> List.length l = S (List.length l').
Proof.
  revert l'. induction l as [|y r IH]; simpl; intros l' H.
  - discriminate.
  - destruct (Qeq_bool y x).
    + injection H as <-. reflexivity.
    + destruct (remove x r) as [r'|e]; simpl in H; [|discriminate].
      injection H as <-. simpl. f_equal. apply IH. reflexivity.
Qed.

Lemma remove_all_length c l l' :
  remove_all c l = Ok l' ->
  List.length l = (List.length c + List.length l')%nat.
Proof.
  revert l l'. induction c as [|s r IH]; simpl; intros l l' H.
  - injection H as <-. reflexivity.
  - destruct (remove s l) as [l1|e] eqn:E; simpl in H; [|discriminate].
    apply remove_length in E. apply IH in H. lia.
Qed.

Lemma cluster_round_decreases tolerance sizes c m sizes' :
  cluster_round tolerance sizes = Ok (c, m, sizes') ->
  (List.length sizes' < List.length sizes)%nat.
Proof.
  unfold cluster_round. intros H.
  destruct (filter (within tolerance (hd 0 sizes)) sizes) as [|s r] eqn:F;
    simpl in H; [discriminate|].
  destruct (remove s sizes) as [l1|e] eqn:E1; simpl in H; [|discriminate].
  destruct (remove_all r l1) as [l2|e] eqn:E2; simpl in H; [|discriminate].
  injection H as _ _ <-.
  apply remove_length in E1. apply remove_all_length in E2. lia.
Qed.

(** The [while sizes:] loop of [cluster_font_sizes].  Each round is
    recorded as the pair of the cluster it absorbed and the mean that
    the code appends to [clusters]; the second components, in order, are
    the list [clusters] at the end of the loop. *)
Equations? cluster_loop (tolerance : Q) (sizes : list Q)
    : result (list (list Q * Q)) by wf (List.length sizes) lt :=
cluster_loop tolerance [] := Ok [];
cluster_loop tolerance (base :: rest)
  with inspect (cluster_round tolerance (base :: rest)) := {
  | exist _ (Raise e) _ := Raise e;
  | exist _ (Ok (cluster, m, sizes')) Hround :=
      later <- cluster_loop tolerance sizes' ;;
      Ok ((cluster, m) :: later)
  }.
Proof.
  apply cluster_round_decreases in Hround. exact Hround.
Qed.

End Shared.

(** ** First iteration: [app/main1.py] *)

Module V1.
Import Py Shared.

(** [class TextElement]. *)
Record TextElement : Type := mkTextElement {
  text : string;
  font_size : Q;
  font_name : string;
  is_bold : bool;
  is_italic : bool;
  x0 : Q;
  y0 : Q;
  page_num : Z
}.

(** [TextElement.__init__]: the text is stored stripped. *)
Definition TextElement_init (t : string) (fs : Q) (fn : string)
    (b i : bool) (x y : Q) (pg : Z) : TextElement :=
  mkTextElement (strip t) fs fn b i x y pg.

(** [sorted(set([round(el.font_size, nd) for el in text_elements]),
    reverse=True)]. *)
Definition observed_sizes (nd : nat) (text_elements : list TextElement)
    : list Q :=
  sorted_desc (setQ (map (fun el => round (font_size el) nd) text_elements)).

(** [cluster_font_sizes(text_elements, tolerance)]. *)
Definition cluster_font_sizes (text_elements : list TextElement)
    (tolerance : Q) : result (list Q) :=
  rounds <- cluster_loop tolerance (observed_sizes 2 text_elements) ;;
  Ok (sorted_desc (map snd rounds)).

(** [key=score] of [detect_title]. *)
Definition score (el : TextElement) : Q :=
  let page_width := 595 in
  let center_x := page_width / 2 in
  y0 el + Qabs (x0 el - center_x) * (5 # 10).

(** [detect_title(text_elements)]. *)
Definition detect_title (text_elements : list TextElement) : result string :=
  let first_page_elements :=
    filter (fun el => (page_num el =? 1)%Z) text_elements in
  match first_page_elements with
  | [] => Ok EmptyString
  | _ =>
      max_font_size <- max_seq (map font_size first_page_elements) ;;
      let candidates :=
        filter (fun el => Qltb (Qabs (font_size el - max_font_size)) (2 # 10))
               first_page_elements in
      match sorted (fun a b => Qle_bool (score a) (score b)) candidates with
      | [] => Raise IndexError
      | c :: _ => Ok (text c)
      end
  end.

(** The texts that [Counter] counts more than [0.7 * num_pages] times;
    the product is a float, the count an [int]. *)
Definition frequent (texts : list string) (num_pages : nat) : list string :=
  map fst
    (filter (fun tc =>
               Qgtb (Q_of_nat (snd tc))
                    (fmul_int float_07 (Z.of_nat num_pages)))
            (Counter texts)).

(** [remove_header_footer(text_elements, y_threshold_top,
    y_threshold_bottom)]. *)
Definition remove_header_footer (text_elements : list TextElement)
    (y_threshold_top y_threshold_bottom : Q) : list TextElement :=
  let top_texts :=
    map text (filter (fun el => Qltb (y0 el) y_threshold_top) text_elements) in
  let bottom_texts :=
    map text (filter (fun el => Qgtb (y0 el) y_threshold_bottom) text_elements) in
  let num_pages := List.length (setZ (map page_num text_elements)) in
  let header_candidates := frequent top_texts num_pages in
  let footer_candidates := frequent bottom_texts num_pages in
  filter (fun el =>
            negb (Qltb (y0 el) y_threshold_top
                  && mem_str (text el) header_candidates)
            && negb (Qgtb (y0 el) y_threshold_bottom
                     && mem_str (text el) footer_candidates))
         text_elements.

(** The class [[ \t\-:]]. *)
Definition is_sep (c : ascii) : bool :=
  (code c =? 32)%nat || (code c =? 9)%nat
  || (code c =? 45)%nat || (code c =? 58)%nat.

Definition dot : regex := Chr (is_char "."%char).

(** [(\d+(\.\d+){0,2})]. *)
Definition numbering_path : regex :=
  Grp (Seq (Plus is_digit) (Upto2 (Seq dot (Plus is_digit)))).

(** [r'^(\d+(\.\d+){0,2})[ \t\-:]*']. *)
Definition numbering_re : regex := Seq numbering_path (Star is_sep).

(** [level = numbering.count(".") + 1], at most 3. *)
Definition level_of_numbering (numbering : string) : nat :=
  let level := (count "."%char numbering + 1)%nat in
  if (3 <? level)%nat then 3%nat else level.

(** [find_numbering_level(text)]. *)
Definition find_numbering_level (t : string) : option nat :=
  match re_match numbering_re (strip t) with
  | Some numbering => Some (level_of_numbering numbering)
  | None => None
  end.

(** The dictionary [font_size_to_level] that [assign_headings] builds. *)
Definition heading_font_sizes (font_clusters : list Q) (title_font_size : Q)
    : list Q :=
  sorted_desc
    (filter (fun fs => Qgtb (Qabs (fs - title_font_size)) (3 # 10))
            font_clusters).

Definition font_size_to_level (font_clusters : list Q) (title_font_size : Q)
    : dict level :=
  let hs := heading_font_sizes font_clusters title_font_size in
  let d0 : dict level := [] in
  let d1 := match nth_error hs 0 with Some fs => dict_set d0 fs H1 | None => d0 end in
  let d2 := match nth_error hs 1 with Some fs => dict_set d1 fs H2 | None => d1 end in
  match nth_error hs 2 with Some fs => dict_set d2 fs H3 | None => d2 end.

(** The override of the level by the numbering. *)
Definition override (num_level : option nat) (lv : level) : level :=
  match num_level with
  | Some n =>
      if (n =? 1)%nat then H1
      else if (n =? 2)%nat then H2
      else if (3 <=? n)%nat then H3
      else lv
  | None => lv
  end.

(** One round of the [for el in text_elements:] loop of
    [assign_headings]: the new [last_heading_level] and the level of the
    entry appended for [el], if one is. *)
Definition heading_step (font_clusters : list Q) (levels : dict level)
    (last_heading_level : nat) (el : TextElement) : nat * option level :=
  if (page_num el =? 1)%Z then (last_heading_level, None)
  else if (len (text el) <? 2)%nat then (last_heading_level, None)
  else
    match argmin (fun fs => Qabs (font_size el - fs)) font_clusters with
    | None => (last_heading_level, None)
    | Some closest_cluster =>
        match dict_get levels closest_cluster with
        | None => (last_heading_level, None)
        | Some lv0 =>
            let lv := override (find_numbering_level (text el)) lv0 in
            let current_level_order := level_order lv in
            if endswith "."%char (text el) then (current_level_order, None)
            else (current_level_order, Some lv)
        end
    end.

(** The loop; every appended entry is paired with the element it was
    made from. *)
Fixpoint heading_loop (font_clusters : list Q) (levels : dict level)
    (last_heading_level : nat) (els : list TextElement)
    : list (TextElement * OutlineEntry) :=
  match els with
  | [] => []
  | el :: r =>
      let '(last', emitted) :=
        heading_step font_clusters levels last_heading_level el in
      let later := heading_loop font_clusters levels last' r in
      match emitted with
      | Some lv => (el, mkEntry lv (text el) (page_num el)) :: later
      | None => later
      end
  end.

(** [key=lambda x: (x.page_num, x.y0, x.x0)]. *)
Definition reading_order (a b : TextElement) : bool :=
  (page_num a <? page_num b)%Z
  || ((page_num a =? page_num b)%Z
      && (Qltb (y0 a) (y0 b)
          || (Qeq_bool (y0 a) (y0 b) && Qle_bool (x0 a) (x0 b)))).

(** The emitted entries of [assign_headings], each with its element. *)
Definition emitted (text_elements : list TextElement)
    (font_clusters : list Q) (title_font_size : Q)
    : list (TextElement * OutlineEntry) :=
  heading_loop font_clusters
    (font_size_to_level font_clusters title_font_size) 0
    (sorted reading_order text_elements).

(** [assign_headings(text_elements, font_clusters, title_font_size)]. *)
Definition assign_headings (text_elements : list TextElement)
    (font_clusters : list Q) (title_font_size : Q) : list OutlineEntry :=
  map snd (emitted text_elements font_clusters title_font_size).

(** [max(font_clusters) if font_clusters else 0]. *)
Definition max_or_zero (l : list Q) : Q :=
  match max_seq l with
  | Ok m => m
  | Raise _ => 0
  end.

(** [process_pdf_file], from the extracted elements on. *)
Definition process_pdf_file (extracted : list TextElement) : result Outcome :=
  let text_els := remove_header_footer extracted 50 750 in
  title <- detect_title text_els ;;
  font_clusters <- cluster_font_sizes text_els (5 # 10) ;;
  let outline :=
    assign_headings text_els font_clusters (max_or_zero font_clusters) in
  Ok (mkOutcome title outline).

End V1.

(** ** Second iteration: [app/main2.py] *)

Module V2.
Import Py Shared.

(** [class TextElement], with the size of the box and the block and
    line numbers. *)
Record TextElement : Type := mkTextElement {
  text : string;
  font_size : Q;
  font_name : string;
  is_bold : bool;
  is_italic : bool;
  x0 : Q;
  y0 : Q;
  w : Q;
  h : Q;
  page_num : Z;
  block_no : Z;
  line_no : Z
}.

Definition TextElement_init (t : string) (fs : Q) (fn : string)
    (b i : bool) (x y wd ht : Q) (pg bl ln : Z) : TextElement :=
  mkTextElement (strip t) fs fn b i x y wd ht pg bl ln.

(** Truth value of a float. *)
Definition truthy (q : Q) : bool := negb (Qeq_bool q 0).

(** [sorted(set(round(el.font_size, 2) for el in text_elements
    if el.font_size), reverse=True)]. *)
Definition observed_sizes (text_elements : list TextElement) : list Q :=
  sorted_desc
    (setQ (map (fun el => round (font_size el) 2)
               (filter (fun el => truthy (font_size el)) text_elements))).

(** [cluster_font_sizes(text_elements, tolerance)]. *)
Definition cluster_font_sizes (text_elements : list TextElement)
    (tolerance : Q) : result (list Q) :=
  rounds <- cluster_loop tolerance (observed_sizes text_elements) ;;
  Ok (sorted_desc (map snd rounds)).

(** The texts counted more than [0.7 * num_pages] times; the product
    is a float, the count an [int]. *)
Definition frequent (texts : list string) (num_pages : Z) : list string :=
  map fst
    (filter (fun tc => Qgtb (Q_of_nat (snd tc)) (fmul_int float_07 num_pages))
            (Counter texts)).

(** [remove_header_footer(text_elements, per_page, y_top, y_bottom)];
    [per_page] is not read. *)
Definition remove_header_footer (text_elements : list TextElement)
    (y_top y_bottom : Q) : result (list TextElement) :=
  num_pages <- Zmax_seq (map page_num text_elements) ;;
  let header_texts :=
    frequent (map text (filter (fun el => Qltb (y0 el) y_top) text_elements))
             num_pages in
  let footer_texts :=
    frequent (map text (filter (fun el => Qgtb (y0 el) y_bottom) text_elements))
             num_pages in
  Ok (filter (fun el =>
                negb (mem_str (text el) header_texts && Qltb (y0 el) y_top)
                && negb (mem_str (text el) footer_texts
                         && Qgtb (y0 el) y_bottom))
             text_elements).

(** [key=lambda x: (x.page_num, x.block_no, x.line_no)]. *)
Definition block_order (a b : TextElement) : bool :=
  (page_num a <? page_num b)%Z
  || ((page_num a =? page_num b)%Z
      && ((block_no a <? block_no b)%Z
          || ((block_no a =? block_no b)%Z && (line_no a <=? line_no b)%Z))).

(** The test [close_same] of [merge_multiline_blocks]. *)
Definition close_same (el buf : TextElement) : bool :=
  (page_num el =? page_num buf)%Z
  && (block_no el =? block_no buf)%Z
  && Qltb (Qabs (font_size el - font_size buf)) (2 # 10)
  && String.eqb (font_name el) (font_name buf)
  && Bool.eqb (is_bold el) (is_bold buf)
  && Bool.eqb (is_italic el) (is_italic buf)
  && Qltb (Qabs (x0 el - x0 buf)) 2
  && Qltb 0 (y0 el - (y0 buf + h buf))
  && Qltb (y0 el - (y0 buf + h buf)) 15.

(** [buf.text += " " + el.text; buf.h += el.h]. *)
Definition absorb (buf el : TextElement) : TextElement :=
  mkTextElement (text buf ++ " " ++ text el)%string (font_size buf)
    (font_name buf) (is_bold buf) (is_italic buf) (x0 buf) (y0 buf) (w buf)
    (h buf + h el) (page_num buf) (block_no buf) (line_no buf).

Fixpoint merge_loop (buf : TextElement) (els : list TextElement)
    : list TextElement :=
  match els with
  | [] => [buf]
  | el :: r =>
      if close_same el buf then merge_loop (absorb buf el) r
      else buf :: merge_loop el r
  end.

(** [merge_multiline_blocks(text_elements)]. *)
Definition merge_multiline_blocks (text_elements : list TextElement)
    : list TextElement :=
  match sorted block_order text_elements with
  | [] => []
  | first :: r => merge_loop first r
  end.

(** [detect_title(text_elements, single_page)]: the title and the size
    of its font, [None] when there is none. *)
Definition detect_title (text_elements : list TextElement)
    (single_page : bool) : result (string * option Q) :=
  let page_elems := filter (fun el => (page_num el =? 1)%Z) text_elements in
  match page_elems with
  | [] => Ok (EmptyString, None)
  | _ =>
      max_size <- max_seq (map font_size page_elems) ;;
      let candidates :=
        filter (fun el => Qltb (Qabs (font_size el - max_size)) (2 # 10))
               page_elems in
      match candidates with
      | [] => Ok (EmptyString, None)
      | _ =>
          let top_candidates :=
            sorted (fun a b => Qle_bool (y0 a) (y0 b))
                   (filter (fun el => Qltb (y0 el) 250) candidates) in
          let title := strip (join " " (map text top_candidates)) in
          if is_empty title && single_page then Ok (EmptyString, Some max_size)
          else Ok (title, Some max_size)
      end
  end.

Definition is_sep (c : ascii) : bool := V1.is_sep c.

(** [r'^(\d+(\.\d+){0,2})[ \t\-:]+']. *)
Definition numbering_re : regex := Seq V1.numbering_path (Plus is_sep).

(** [find_numbering_level(text)]. *)
Definition find_numbering_level (t : string) : option nat :=
  match re_match numbering_re (strip t) with
  | Some numbering => Some (V1.level_of_numbering numbering)
  | None => None
  end.

(** [title_font_size and abs(fs - title_font_size) < 0.3]. *)
Definition is_title_size (title_font_size : option Q) (fs : Q) : bool :=
  match title_font_size with
  | Some t => truthy t && Qltb (Qabs (fs - t)) (3 # 10)
  | None => false
  end.

Definition heading_clusters (font_clusters : list Q)
    (title_font_size : option Q) : list Q :=
  filter (fun fs => negb (is_title_size title_font_size fs)) font_clusters.

(** [for tag in ["H1", "H2", "H3"]: if idx < len(heading_clusters): ...]. *)
Fixpoint assign_tags (tags : list level) (hs : list Q) (d : dict level)
    : dict level :=
  match tags, hs with
  | tag :: tags', fs :: hs' => assign_tags tags' hs' (dict_set d fs tag)
  | _, _ => d
  end.

(** The dictionary [levels]. *)
Definition levels_of (font_clusters : list Q) (title_font_size : option Q)
    : dict level :=
  assign_tags [H1; H2; H3] (heading_clusters font_clusters title_font_size) [].

Definition override (num_level : option nat) (lv : level) : level :=
  match num_level with
  | Some n =>
      if (n =? 1)%nat then H1
      else if (n =? 2)%nat then H2
      else if (n =? 3)%nat then H3
      else lv
  | None => lv
  end.

(** [logical_page] of an element. *)
Definition logical_page (page_offset : Z) (is_single_page : bool)
    (el : TextElement) : Z :=
  let page_idx := if negb is_single_page then (page_num el - 1)%Z else 0%Z in
  if is_single_page then 0%Z else (page_idx - page_offset)%Z.

(** One round of the loop of [assign_headings]: the new [last_level] and
    the level of the entry appended for [el], if one is. *)
Definition heading_step (levels : dict level) (title_lines : list string)
    (page_offset : Z) (is_single_page : bool)
    (last_level : nat) (el : TextElement) : nat * option level :=
  if (logical_page page_offset is_single_page el <? 0)%Z
  then (last_level, None)
  else if (page_num el =? 1)%Z && negb (List.length title_lines =? 0)%nat
          && mem_str (text el) title_lines
  then (last_level, None)
  else if (len (text el) <? 2)%nat then (last_level, None)
  else
    match argmin snd
            (map (fun fs => (fs, Qabs (font_size el - fs))) (dict_keys levels))
    with
    | None => (last_level, None)
    | Some (cluster_val, delta) =>
        if Qgtb delta (3 # 10) then (last_level, None)
        else
          match dict_get levels cluster_val with
          | None => (last_level, None)
          | Some lv0 =>
              let lv := override (find_numbering_level (text el)) lv0 in
              if endswith "."%char (rstrip (text el)) then (last_level, None)
              else if (12 <? split_len (text el))%nat then (last_level, None)
              else if (level_order lv <? last_level)%nat then (last_level, None)
              else (level_order lv, Some lv)
          end
    end.

Fixpoint heading_loop (levels : dict level) (title_lines : list string)
    (page_offset : Z) (is_single_page : bool)
    (last_level : nat) (els : list TextElement)
    : list (TextElement * OutlineEntry) :=
  match els with
  | [] => []
  | el :: r =>
      let '(last', emitted) :=
        heading_step levels title_lines page_offset is_single_page
                     last_level el in
      let later :=
        heading_loop levels title_lines page_offset is_single_page last' r in
      match emitted with
      | Some lv =>
          (el, mkEntry lv (text el)
                 (logical_page page_offset is_single_page el + 1)) :: later
      | None => later
      end
  end.

(** [key=lambda x: (x.page_num, x.y0, x.x0)]. *)
Definition reading_order (a b : TextElement) : bool :=
  (page_num a <? page_num b)%Z
  || ((page_num a =? page_num b)%Z
      && (Qltb (y0 a) (y0 b)
          || (Qeq_bool (y0 a) (y0 b) && Qle_bool (x0 a) (x0 b)))).

(** The emitted entries of [assign_headings], each with its element. *)
Definition emitted (text_elements : list TextElement)
    (font_clusters : list Q) (title_font_size : option Q)
    (title_lines : list string) (page_offset : Z) (is_single_page : bool)
    : list (TextElement * OutlineEntry) :=
  heading_loop (levels_of font_clusters title_font_size) title_lines
    page_offset is_single_page 0 (sorted reading_order text_elements).

(** [assign_headings(text_elements, font_clusters, title_font_size,
    title_lines, page_offset, is_single_page)]. *)
Definition assign_headings (text_elements : list TextElement)
    (font_clusters : list Q) (title_font_size : option Q)
    (title_lines : list string) (page_offset : Z) (is_single_page : bool)
    : list OutlineEntry :=
  map snd (emitted text_elements font_clusters title_font_size title_lines
             page_offset is_single_page).

(** The list [title_lines] of [process_pdf_file]. *)
Definition title_lines_of (elements_merged : list TextElement)
    (title_size : option Q) : list TextElement :=
  match title_size with
  | Some t =>
      if truthy t
      then filter (fun l => Qltb (Qabs (font_size l - t)) (2 # 10)
                            && (page_num l =? 1)%Z) elements_merged
      else []
  | None => []
  end.

(** The arguments that [process_pdf_file] hands to [assign_headings]. *)
Record Prepared : Type := mkPrepared {
  prep_title : string;
  prep_elements : list TextElement;
  prep_clusters : list Q;
  prep_title_size : option Q;
  prep_title_lines : list string;
  prep_page_offset : Z;
  prep_single_page : bool
}.

(** Steps 2 to 6 of [process_pdf_file]. *)
Definition prepare (page_count : Z) (raw_elements : list TextElement)
    : result Prepared :=
  let single_page := (page_count =? 1)%Z in
  cleaned <- remove_header_footer raw_elements 50 750 ;;
  let elements_merged := merge_multiline_blocks cleaned in
  font_clusters <- cluster_font_sizes elements_merged (5 # 10) ;;
  ts <- detect_title elements_merged single_page ;;
  let title_lines := title_lines_of elements_merged (snd ts) in
  let page_offset := if negb single_page then 1%Z else 0%Z in
  Ok (mkPrepared (fst ts) elements_merged font_clusters (snd ts)
        (map text title_lines) page_offset single_page).

(** [process_pdf_file], from the extracted elements and the page count
    on. *)
Definition process_pdf_file (page_count : Z) (raw_elements : list TextElement)
    : result Outcome :=
  p <- prepare page_count raw_elements ;;
  Ok (mkOutcome (prep_title p)
        (assign_headings (prep_elements p) (prep_clusters p)
           (prep_title_size p) (prep_title_lines p) (prep_page_offset p)
           (prep_single_page p))).

End V2.

(** ** Third iteration: [app/main3.py] *)

Module V3.
Import Py Shared.

(** [class TextElement] is the class of the first iteration. *)
Abbreviation TextElement := V1.TextElement (only parsing).
Abbreviation text := V1.text (only parsing).
Abbreviation font_size := V1.font_size (only parsing).
Abbreviation x0 := V1.x0 (only parsing).
Abbreviation y0 := V1.y0 (only parsing).
Abbreviation page_num := V1.page_num (only parsing).

(** [cluster_font_sizes(text_elements, tolerance)]: sizes are rounded to
    one digit. *)
Definition cluster_font_sizes (text_elements : list TextElement)
    (tolerance : Q) : result (list Q) :=
  rounds <- cluster_loop tolerance (V1.observed_sizes 1 text_elements) ;;
  Ok (sorted_desc (map snd rounds)).

(** [r'^\d+$']. *)
Definition digits_only_re : regex := Seq (Plus is_digit) Eos.

Definition matches (r : regex) (s : string) : bool :=
  match re_match r s with Some _ => true | None => false end.

(** [title_candidates[:5]] filtered into [title_parts]. *)
Definition title_parts (title_candidates : list TextElement) : list string :=
  map text
    (filter (fun el =>
               negb (matches digits_only_re (text el)
                     || contains "copyright" (lower (text el))
                     || contains "page" (lower (text el)))
               && (2 <? len (text el))%nat)
            (firstn 5 title_candidates)).

(** [detect_title(text_elements)]. *)
Definition detect_title (text_elements : list TextElement) : result string :=
  let first_page_elements :=
    filter (fun el => (page_num el =? 1)%Z) text_elements in
  match first_page_elements with
  | [] => Ok EmptyString
  | _ =>
      max_font_size <- max_seq (map font_size first_page_elements) ;;
      let title_candidates :=
        sorted (fun a b => Qle_bool (y0 a) (y0 b))
          (filter (fun el => Qltb (Qabs (font_size el - max_font_size)) 1)
                  first_page_elements) in
      match title_parts title_candidates with
      | [] =>
          match title_candidates with
          | [] => Ok EmptyString
          | c :: _ => Ok (text c)
          end
      | parts => Ok (join "  " parts)
      end
  end.

(** The sign U+00A9. *)
Definition copyright_sign : string := String (ascii_of_nat 169) EmptyString.

(** [r'.*\d+\s+of\s+\d+.*']. *)
Definition n_of_m_re : regex :=
  Seq (Star not_newline)
   (Seq (Plus is_digit)
    (Seq (Plus is_space)
     (Seq (Chr (is_char "o"%char))
      (Seq (Chr (is_char "f"%char))
       (Seq (Plus is_space)
        (Seq (Plus is_digit) (Star not_newline))))))).

(** The test under which a repeated text is taken for a header or
    footer. *)
Definition looks_like_header_footer (t : string) : bool :=
  existsb (fun keyword => contains keyword (lower t))
          ["page"%string; "version"%string; copyright_sign; "copyright"%string]
  || matches n_of_m_re (lower t)
  || (len t <? 10)%nat.

(** [max(3, num_pages * 0.5)]. *)
Definition repeat_threshold (num_pages : nat) : Q :=
  Qmaxb 3 (Q_of_nat num_pages * (5 # 10)).

(** The set [repetitive_texts]. *)
Definition repetitive_texts (text_elements : list TextElement) : list string :=
  let num_pages := List.length (setZ (map page_num text_elements)) in
  map fst
    (filter (fun tc =>
               Qle_bool (repeat_threshold num_pages) (Q_of_nat (snd tc))
               && looks_like_header_footer (fst tc))
            (Counter (map text text_elements))).

(** [remove_header_footer(text_elements)]; the two thresholds are not
    read. *)
Definition remove_header_footer (text_elements : list TextElement)
    : list TextElement :=
  filter (fun el => negb (mem_str (text el) (repetitive_texts text_elements)))
         text_elements.

(** The tail [\.?\s+] of the three patterns. *)
Definition numbering_tail : regex := Seq (Opt V1.dot) (Plus is_space).

Definition dotted : regex := Seq V1.dot (Plus is_digit).

(** [patterns]. *)
Definition patterns : list regex :=
  [ Seq (Grp (Plus is_digit)) numbering_tail;
    Seq (Grp (Seq (Plus is_digit) dotted)) numbering_tail;
    Seq (Grp (Seq (Plus is_digit) (Seq dotted dotted))) numbering_tail ].

(** [for i, pattern in enumerate(patterns): ... return i + 1]. *)
Fixpoint first_match (i : nat) (ps : list regex) (t : string) : option nat :=
  match ps with
  | [] => None
  | p :: r => if matches p t then Some (i + 1)%nat else first_match (S i) r t
  end.

(** [find_numbering_level(text)]. *)
Definition find_numbering_level (t : string) : option nat :=
  first_match 0 patterns (strip t).

(** [r'^\d+[\.\d\s]*[A-Z]']. *)
Definition numbered_heading_re : regex :=
  Seq (Plus is_digit)
   (Seq (Star (fun c => is_char "."%char c || is_digit c || is_space c))
        (Chr (in_range 65 90))).

Definition heading_words : list string :=
  ["introduction"; "overview"; "content"; "references"; "acknowledgements";
   "history"; "outcomes"; "requirements"; "structure"; "audience";
   "objectives"]%string.

(** [is_heading_like(text)]. *)
Definition is_heading_like (t0 : string) : bool :=
  let t := strip t0 in
  if (len t <? 3)%nat then false
  else if matches digits_only_re t
          || contains "version" (lower t)
          || contains "page" (lower t)
          || contains copyright_sign t
          || contains "copyright" (lower t)
  then false
  else if matches numbered_heading_re t then true
  else if existsb (fun word => contains word (lower t)) heading_words then true
  else
    match t with
    | String c _ =>
        is_upper c && (5 <=? len t)%nat && (len t <=? 100)%nat
    | EmptyString => false
    end.

Definition heading_font_sizes (font_clusters : list Q) (title_font_size : Q)
    : list Q :=
  sorted_desc
    (filter (fun fs => Qgtb (Qabs (fs - title_font_size)) (5 # 10))
            font_clusters).

(** [for i, fs in enumerate(heading_font_sizes): ...]. *)
Fixpoint assign_levels (i : nat) (hs : list Q) (d : dict level) : dict level :=
  match hs with
  | [] => d
  | fs :: r =>
      let tag := if (i =? 0)%nat then H1 else if (i =? 1)%nat then H2 else H3 in
      assign_levels (S i) r (dict_set d fs tag)
  end.

(** The dictionary [font_size_to_level]. *)
Definition font_size_to_level (font_clusters : list Q) (title_font_size : Q)
    : dict level :=
  assign_levels 0 (heading_font_sizes font_clusters title_font_size) [].

Definition override (num_level : option nat) (lv : level) : level :=
  V1.override num_level lv.

(** One round of the loop of [assign_headings]: the level of the entry
    appended for [el], if one is. *)
Definition heading_step (hs : list Q) (levels : dict level)
    (el : TextElement) : option level :=
  if (page_num el =? 1)%Z then None
  else if negb (is_heading_like (text el)) then None
  else
    match argmin (fun fs => Qabs (font_size el - fs)) hs with
    | None => None
    | Some closest_font_size =>
        let min_diff := Qabs (font_size el - closest_font_size) in
        if Qgtb min_diff 1 then None
        else
          let lv0 :=
            match dict_get levels closest_font_size with
            | Some lv => lv
            | None => H3
            end in
          Some (override (find_numbering_level (text el)) lv0)
    end.

Fixpoint heading_loop (hs : list Q) (levels : dict level)
    (els : list TextElement) : list (TextElement * OutlineEntry) :=
  match els with
  | [] => []
  | el :: r =>
      let later := heading_loop hs levels r in
      match heading_step hs levels el with
      | Some lv => (el, mkEntry lv (text el) (page_num el)) :: later
      | None => later
      end
  end.

(** The emitted entries of [assign_headings], each with its element. *)
Definition emitted (text_elements : list TextElement)
    (font_clusters : list Q) (title_font_size : Q)
    : list (TextElement * OutlineEntry) :=
  heading_loop (heading_font_sizes font_clusters title_font_size)
    (font_size_to_level font_clusters title_font_size)
    (sorted V1.reading_order text_elements).

(** [assign_headings(text_elements, font_clusters, title_font_size)]. *)
Definition assign_headings (text_elements : list TextElement)
    (font_clusters : list Q) (title_font_size : Q) : list OutlineEntry :=
  map snd (emitted text_elements font_clusters title_font_size).

(** [max([el.font_size for el in first_page_elements])
    if first_page_elements else 0]. *)
Definition title_font_size_of (text_els : list TextElement) : Q :=
  V1.max_or_zero
    (map font_size (filter (fun el => (page_num el =? 1)%Z) text_els)).

(** [process_pdf_file], from the extracted elements on. *)
Definition process_pdf_file (extracted : list TextElement) : result Outcome :=
  title <- detect_title extracted ;;
  let text_els := remove_header_footer extracted in
  font_clusters <- cluster_font_sizes text_els (3 # 10) ;;
  let title_font_size := title_font_size_of text_els in
  Ok (mkOutcome title (assign_headings text_els font_clusters title_font_size)).

End V3.

(** ** The line builders: [extract_text_elements]

    What [page.get_text("dict")] hands over is modelled by the keys the
    code reads: a page is the list of its blocks, a block has a type and
    lines, a line has spans, a span has a text, a size, a font name and
    a bounding box.  A document is the list of its pages. *)

Module Layout.
Import Py Shared.

Record Span : Type := mkSpan {
  span_text : string;
  span_size : Q;
  span_font : string;
  span_bbox : Q * Q * Q * Q
}.

Record Line : Type := mkLine {
  line_spans : list Span
}.

Record Block : Type := mkBlock {
  block_type : Z;
  block_lines : list Line
}.

Definition Page : Type := list Block.
Definition Doc : Type := list Page.

(** [span["bbox"][0]] to [span["bbox"][3]]. *)
Definition bbox0 (s : Span) : Q := fst (fst (fst (span_bbox s))).
Definition bbox1 (s : Span) : Q := snd (fst (fst (span_bbox s))).
Definition bbox2 (s : Span) : Q := snd (fst (span_bbox s)).
Definition bbox3 (s : Span) : Q := snd (span_bbox s).

(** [enumerate(l)], counting from [i]. *)
Fixpoint enumerate_from {A : Type} (i : Z) (l : list A) : list (Z * A) :=
  match l with
  | [] => []
  | x :: r => (i, x) :: enumerate_from (i + 1) r
  end.

Definition enumerate {A : Type} (l : list A) : list (Z * A) :=
  enumerate_from 0 l.

(** ["Bold" in font_name or "bold" in font_name.lower()]. *)
Definition is_bold_font (font_name : string) : bool :=
  contains "Bold" font_name || contains "bold" (lower font_name).

(** ["Italic" in font_name or "Oblique" in font_name
    or "italic" in font_name.lower()]. *)
Definition is_italic_font (font_name : string) : bool :=
  contains "Italic" font_name || contains "Oblique" font_name
  || contains "italic" (lower font_name).

End Layout.

(** [extract_text_elements] of [app/main1.py] and [app/main3.py]: one
    element for every span that is not blank. *)

Module LinesV1.
Import Py Shared Layout.

(** The body of [for span in spans:]. *)
Definition span_elements (page_num : Z) (span : Span) : list V1.TextElement :=
  if is_empty (strip (span_text span)) then []
  else
    [V1.TextElement_init (span_text span) (span_size span) (span_font span)
       (is_bold_font (span_font span)) (is_italic_font (span_font span))
       (bbox0 span) (bbox1 span) (page_num + 1)].

(** The body of [for b in blocks:]. *)
Definition block_elements (page_num : Z) (b : Block) : list V1.TextElement :=
  if negb (block_type b =? 0)%Z then []
  else
    flat_map (fun line => flat_map (span_elements page_num) (line_spans line))
             (block_lines b).

Definition extract_text_elements (doc : Doc) : list V1.TextElement :=
  flat_map (fun pp => flat_map (block_elements (fst pp)) (snd pp))
           (enumerate doc).

End LinesV1.

(** [extract_text_elements] of [app/main2.py]: one element for every
    line that holds a span that is not blank, styled after the first
    such span. *)

Module LinesV2.
Import Py Shared Layout.

(** The state of the loop over the spans of a line: the texts gathered
    so far and the span the style was taken from, if one was met. *)
Definition line_state : Type := (list string * option Span)%type.

(** The body of [for span in line["spans"]:]. *)
Definition span_step (st : line_state) (span : Span) : line_state :=
  let t := strip (span_text span) in
  if is_empty t then st
  else
    (fst st ++ [t],
     match snd st with
     | None => Some span
     | Some first => Some first
     end).

(** The body of [for line_no, line in enumerate(b["lines"]):]. *)
Definition line_elements (pg block_no line_no : Z) (line : Line)
    : list V2.TextElement :=
  match fold_left span_step (line_spans line) ([], None) with
  | (_, None) => []
  | ([], Some _) => []
  | (line_text, Some span) =>
      [V2.TextElement_init (join " " line_text) (span_size span)
         (span_font span)
         (is_bold_font (span_font span)) (is_italic_font (span_font span))
         (bbox0 span) (bbox1 span)
         (bbox2 span - bbox0 span) (bbox3 span - bbox1 span)
         (pg + 1) block_no line_no]
  end.

(** The body of [for block_no, b in enumerate(blocks):]. *)
Definition block_elements (pg block_no : Z) (b : Block)
    : list V2.TextElement :=
  if negb (block_type b =? 0)%Z then []
  else
    flat_map (fun nl => line_elements pg block_no (fst nl) (snd nl))
             (enumerate (block_lines b)).

Definition extract_text_elements (doc : Doc) : list V2.TextElement :=
  flat_map (fun pp =>
              flat_map (fun nb => block_elements (fst pp) (fst nb) (snd nb))
                       (enumerate (snd pp)))
           (enumerate doc).

End LinesV2.


(** * The vocabulary of the properties *)

Module Spec.
Import Py Shared.

(** ** Guard, page 1, filters *)

(** The ranks of the levels of what is emitted, in order. *)
Definition ranks (out : list (V2.TextElement * OutlineEntry)) : list nat :=
  map (fun p => level_order (entry_level (snd p))) out.

Definition entry_ranks (out : list OutlineEntry) : list nat :=
  map (fun e => level_order (entry_level e)) out.

(** No emitted entry comes from an element of physical page 1. *)
Definition V1_page1_excluded (out : list (V1.TextElement * OutlineEntry))
    : Prop :=
  forall el e, In (el, e) out -> V1.page_num el <> 1%Z.

Definition V2_page1_excluded (out : list (V2.TextElement * OutlineEntry))
    : Prop :=
  forall el e, In (el, e) out -> V2.page_num el <> 1%Z.

(** What the second iteration emits for a document, from extraction on. *)
Definition V2_emitted_for (page_count : Z) (raw : list V2.TextElement)
    : result (list (V2.TextElement * OutlineEntry)) :=
  p <- V2.prepare page_count raw ;;
  Ok (V2.emitted (V2.prep_elements p) (V2.prep_clusters p)
        (V2.prep_title_size p) (V2.prep_title_lines p)
        (V2.prep_page_offset p) (V2.prep_single_page p)).

(** How often [t] is the text of an element above the top threshold,
    and below the bottom one. *)
Definition top_count (doc : list V1.TextElement) (y_top : Q) (t : string)
    : nat :=
  count_occ string_dec
    (map V1.text (filter (fun el => Qltb (V1.y0 el) y_top) doc)) t.

Definition bottom_count (doc : list V1.TextElement) (y_bottom : Q)
    (t : string) : nat :=
  count_occ string_dec
    (map V1.text (filter (fun el => Qgtb (V1.y0 el) y_bottom) doc)) t.

(** The number of pages that carry an element. *)
Definition pages_with_text (doc : list V1.TextElement) : nat :=
  List.length (setZ (map V1.page_num doc)).

(** The number of distinct pages on which [t] lies in a margin band. *)
Definition margin_pages (doc : list V1.TextElement) (y_top y_bottom : Q)
    (t : string) : nat :=
  List.length
    (setZ (map V1.page_num
             (filter (fun el => String.eqb (V1.text el) t
                                && (Qltb (V1.y0 el) y_top
                                    || Qgtb (V1.y0 el) y_bottom)) doc))).

(** The claim on the scope of the removal, as the specification words
    it: a text whose margin pages exceed the fraction of the pages is
    gone from the whole output. *)
Definition removed_everywhere (doc out : list V1.TextElement)
    (y_top y_bottom fraction : Q) : Prop :=
  forall t,
    fraction * Q_of_nat (pages_with_text doc)
      < Q_of_nat (margin_pages doc y_top y_bottom t) ->
    forall el, In el out -> V1.text el <> t.

(** ** Clusters *)

(** Strictly descending lists of sizes. *)
Definition descending (l : list Q) : Prop :=
  StronglySorted (fun a b => b < a) l.

(** Every size lies in exactly one of the clusters. *)
Definition is_partition (sizes : list Q) (clusters : list (list Q)) : Prop :=
  forall s, In s sizes ->
    exists! i, exists c, nth_error clusters i = Some c /\ In s c.

(** What a run of [cluster_font_sizes] on the observed [sizes] has to
    satisfy: the loop ends without raising, its answer lists the means
    of the clusters, the clusters are made of the sizes and of nothing
    else, they partition the sizes, and the answer is strictly
    descending. *)
Definition clustering_ok (tolerance : Q) (sizes : list Q)
    (answer : result (list Q)) : Prop :=
  exists rounds,
    cluster_loop tolerance sizes = Ok rounds /\
    answer = Ok (map snd rounds) /\
    List.concat (map fst rounds) = sizes /\
    is_partition sizes (map fst rounds) /\
    Forall (fun r => mean (fst r) = Ok (snd r)) rounds /\
    descending (map snd rounds).

(** The [clusters] partition the [sizes]: every size is, as a number,
    a member of exactly one cluster, and every member of a cluster is
    one of the sizes. *)
Definition partitions (sizes : list Q) (clusters : list (list Q)) : Prop :=
  (forall x, In x sizes ->
     exists! i, exists c s, nth_error clusters i = Some c /\ In s c /\ s == x)
  /\ (forall c s, In c clusters -> In s c -> exists x, In x sizes /\ s == x).

(** A run of [cluster_font_sizes] that clusters the [sizes]: the loop,
    started on the [observed] list the code builds, ends without
    raising; the clusters it absorbed partition the [sizes]; the answer
    lists one value for every cluster, between two members of the
    cluster, and is strictly descending. *)
Definition clustered (tolerance : Q) (observed sizes : list Q)
    (answer : result (list Q)) : Prop :=
  exists rounds,
    cluster_loop tolerance observed = Ok rounds /\
    answer = Ok (map snd rounds) /\
    partitions sizes (map fst rounds) /\
    Forall (fun r => exists lo hi,
                       In lo (fst r) /\ In hi (fst r) /\
                       lo <= snd r /\ snd r <= hi) rounds /\
    descending (map snd rounds).

(** ** The header of the end-to-end scenario *)

Definition confidential : string := "Confidential Draft".

(** A document of ten pages in which [confidential] is the text of
    eight elements of the top band (y0 below 50) and part of no other
    text. *)
Definition header_on_8_of_10 (doc : list V1.TextElement) : Prop :=
  (forall el, In el doc -> (1 <= V1.page_num el <= 10)%Z) /\
  top_count doc 50 confidential = 8%nat /\
  (forall el, In el doc ->
     contains confidential (V1.text el) = true ->
     V1.text el = confidential /\ V1.y0 el < 50).

(** [t] is part of neither the title nor the text of an entry. *)
Definition absent_from (t : string) (r : Outcome) : Prop :=
  contains t (title r) = false /\
  forall e, In e (outline r) -> contains t (entry_text e) = false.

(** ** Numeric paths *)

(** The rest of [s] after its longest prefix in the class [p]. *)
Fixpoint skip (p : ascii -> bool) (s : string) : string :=
  match s with
  | String c r => if p c then skip p r else s
  | EmptyString => EmptyString
  end.

(** The rest after one more segment [.digits] at the front of [x]. *)
Definition next_segment (x : string) : option string :=
  match x with
  | String c (String e r) =>
      if is_char "."%char c && is_digit e then Some (skip is_digit r) else None
  | _ => None
  end.

(** The greedy reading of a numeric path of at most three segments at
    the front of [s]: the number of segments read and the rest. *)
Definition path_rest (s : string) : option (nat * string) :=
  match s with
  | String c r =>
      if is_digit c then
        let x1 := skip is_digit r in
        match next_segment x1 with
        | Some x2 =>
            match next_segment x2 with
            | Some x3 => Some (3%nat, x3)
            | None => Some (2%nat, x2)
            end
        | None => Some (1%nat, x1)
        end
      else None
  | EmptyString => None
  end.

(** The form "2.1 Something": digits, a dot, digits, then a space. *)
Definition two_segment_form (s : string) : bool :=
  match s with
  | String c r =>
      is_digit c &&
      match skip is_digit r with
      | String d (String e r2) =>
          is_char "."%char d && is_digit e &&
          match skip is_digit r2 with
          | String sp _ => is_char " "%char sp
          | EmptyString => false
          end
      | _ => false
      end
  | EmptyString => false
  end.

(** [\d+(\.\d+){0,2}], the inside of the group of the first two
    iterations. *)
Definition path_body : regex :=
  Seq (Plus is_digit) (Upto2 V3.dotted).

(** The continuation at the end of a pattern: [re.match] accepts
    whatever is left of the subject. *)
Definition always : string -> option string := fun _ => Some EmptyString.

(** The rest begins with one of space, tab, dash, colon. *)
Definition sep_follows (rest : string) : bool :=
  match rest with
  | String c _ => V1.is_sep c
  | EmptyString => false
  end.

(** The rest begins with [\.?\s+]: white space, or a dot and white
    space. *)
Definition tail_follows (rest : string) : bool :=
  match rest with
  | String c r =>
      is_space c
      || (is_char "."%char c
          && match r with
             | String c2 _ => is_space c2
             | EmptyString => false
             end)
  | EmptyString => false
  end.

(** A match object is true, [None] is false. *)
Definition hit (o : option string) : bool :=
  match o with Some _ => true | None => false end.

(** The continuation of a group in front of [\.?\s+]. *)
Definition tail_after (s : string) : string -> option string :=
  fun t =>
    match rmatch V3.numbering_tail t always with
    | Some _ => Some (consumed s t)
    | None => None
    end.

(** A separator: a space, a dash, a colon, or a period and a space. *)
Definition separator_follows (rest : string) : bool :=
  match rest with
  | String c r =>
      is_char " "%char c || is_char "-"%char c || is_char ":"%char c
      || (is_char "."%char c
          && match r with
             | String c2 _ => is_char " "%char c2
             | EmptyString => false
             end)
  | EmptyString => false
  end.

(** The depth is the number of segments of the leading path, at most
    three, when a separator follows the path, and there is no signal
    otherwise. *)
Definition contract_level (t : string) : option nat :=
  match path_rest (strip t) with
  | Some (n, rest) => if separator_follows rest then Some n else None
  | None => None
  end.

(** The largest font size on page 1, from which [detect_title] picks the
    title. *)
Definition first_page_max (text_elements : list V1.TextElement) : result Q :=
  max_seq (map V1.font_size
             (filter (fun el => (V1.page_num el =? 1)%Z) text_elements)).

(** ** Layouts and whole runs *)

(** Every character of [s] is white space. *)
Fixpoint blank (s : string) : bool :=
  match s with
  | EmptyString => true
  | String c r => is_space c && blank r
  end.

(** The spans of a line that show something, their stripped texts, and
    the first of them. *)
Definition visible (sp : Layout.Span) : bool :=
  negb (is_empty (strip (Layout.span_text sp))).

Definition visible_texts (spans : list Layout.Span) : list string :=
  map (fun sp => strip (Layout.span_text sp)) (filter visible spans).

Definition first_visible (spans : list Layout.Span) : option Layout.Span :=
  find visible spans.

(** No span of a text block of [doc] shows anything. *)
Definition no_visible_text (doc : Layout.Doc) : Prop :=
  forall page b line sp,
    In page doc -> In b page -> Layout.block_type b = 0%Z ->
    In line (Layout.block_lines b) -> In sp (Layout.line_spans line) ->
    blank (Layout.span_text sp) = true.

(** [process_pdf_file] of the three files, from the opened document
    on; [doc.page_count] is the number of pages. *)
Definition run1 (doc : Layout.Doc) : result Outcome :=
  V1.process_pdf_file (LinesV1.extract_text_elements doc).

Definition run2 (doc : Layout.Doc) : result Outcome :=
  V2.process_pdf_file (Z.of_nat (List.length doc))
    (LinesV2.extract_text_elements doc).

Definition run3 (doc : Layout.Doc) : result Outcome :=
  V3.process_pdf_file (LinesV1.extract_text_elements doc).

(** ** Merged lines *)

(** [o] starts where [src] starts and is styled as [src] is: what
    [merge_multiline_blocks] keeps of the first line of a run. *)
Definition same_start (o src : V2.TextElement) : Prop :=
  V2.page_num o = V2.page_num src /\
  V2.block_no o = V2.block_no src /\
  V2.line_no o = V2.line_no src /\
  V2.font_size o = V2.font_size src /\
  V2.font_name o = V2.font_name src /\
  V2.is_bold o = V2.is_bold src /\
  V2.is_italic o = V2.is_italic src /\
  V2.x0 o = V2.x0 src /\
  V2.y0 o = V2.y0 src /\
  V2.w o = V2.w src.

(** ** Strings, scores, pages, levels *)

(** [s] does not start with white space. *)
Definition no_lead (s : string) : Prop :=
  match s with
  | EmptyString => True
  | String c _ => is_space c = false
  end.

(** The order in which [detect_title] of the first file ranks the
    candidates. *)
Definition by_score (a b : V1.TextElement) : bool :=
  Qle_bool (V1.score a) (V1.score b).

(** The pages of two entries are in order. *)
Definition by_entry_page (p q : OutlineEntry) : Prop :=
  (entry_page p <= entry_page q)%Z.

(** The level of the cluster at index [i] among the clusters left once
    the title's is set aside. *)
Definition first_three (i : nat) : option level :=
  match i with
  | 0%nat => Some H1
  | 1%nat => Some H2
  | 2%nat => Some H3
  | _ => None
  end.

(** No line of [buf :: l] would be merged into the line before it. *)
Fixpoint unmergeable (buf : V2.TextElement) (l : list V2.TextElement)
    : Prop :=
  match l with
  | [] => True
  | el :: r => V2.close_same el buf = false /\ unmergeable el r
  end.

(** The level that a numbering of depth [n] stands for. *)
Definition numbered (n : nat) : level :=
  match n with
  | 1%nat => H1
  | 2%nat => H2
  | _ => H3
  end.

End Spec.

(** * Example documents *)

Module Examples.
Import Py Shared Spec.

(** A one-page report: a title line, a section line and a body line. *)
Definition report_line (t : string) (fs y : Q) (ln : Z) : V2.TextElement :=
  V2.TextElement_init t fs "Helvetica" false false 72 y 300 20 1 0 ln.

Definition one_page_report : list V2.TextElement :=
  [ report_line "Annual Report 2024" 24 100 0;
    report_line "Introduction" 16 300 1;
    report_line "Revenue grew by a tenth this year" 11 400 2 ].

(** Ten pages of body text; the first eight carry the header in the top
    band. *)
Definition header_line (pg : Z) : V1.TextElement :=
  V1.TextElement_init confidential 12 "Helvetica" false false 72 30 pg.

Definition body_line (pg : Z) : V1.TextElement :=
  V1.TextElement_init "Lorem ipsum dolor sit amet" 11 "Helvetica"
    false false 72 400 pg.

Definition ten_pages : list V1.TextElement :=
  flat_map (fun pg => [header_line pg; body_line pg]) [1; 2; 3; 4; 5; 6; 7; 8]%Z
  ++ [body_line 9; body_line 10].

(** Five clusters, the title's and four below it, and a line set in the
    size of the fourth. *)
Definition five_clusters : list Q := [24; 18; 16; 14; 12].

Definition background_line : V3.TextElement :=
  V1.TextElement_init "Background notes" 14 "Helvetica" false false 72 120 2.

(** A running header in the top band of three pages, quoted once in the
    body of page 2. *)
Definition running_header (pg : Z) : V1.TextElement :=
  V1.TextElement_init "ACME Corp" 9 "Helvetica" false false 72 30 pg.

Definition quoted_header : V1.TextElement :=
  V1.TextElement_init "ACME Corp" 11 "Helvetica" false false 72 400 2.

Definition three_pages : list V1.TextElement :=
  [running_header 1; running_header 2; quoted_header; running_header 3].

Definition running_header2 (pg : Z) : V2.TextElement :=
  V2.TextElement_init "ACME Corp" 9 "Helvetica" false false
    72 30 100 10 pg 0 0.

(** Ninety pages of body text; the first sixty-three carry the running
    header in the top band. *)
Definition ninety_pages : list V1.TextElement :=
  flat_map (fun pg => if (pg <=? 63)%Z
                      then [running_header pg; body_line pg]
                      else [body_line pg])
           (map Z.of_nat (seq 1 90)).

(** A title page set in 20 points, followed by a page whose banner is
    set in 30 points and whose section line is set in 20 points. *)
Definition review : list V1.TextElement :=
  [ V1.TextElement_init "Quarterly Review" 20 "Helvetica-Bold" true false
      72 100 1;
    V1.TextElement_init "PART ONE" 30 "Helvetica-Bold" true false 72 100 2;
    V1.TextElement_init "Summary" 20 "Helvetica-Bold" true false 72 200 2;
    V1.TextElement_init "Sales rose in every region" 11 "Helvetica"
      false false 72 300 2 ].

(** A numbered line set in the size of the largest heading cluster. *)
Definition numbered_line : V1.TextElement :=
  V1.TextElement_init "2.1 Something" 18 "Helvetica" false false 72 150 2.

Definition numbered_line2 : V2.TextElement :=
  V2.TextElement_init "2.1 Something" 18 "Helvetica" false false
    72 150 200 20 2 0 0.

(** A title set on two lines of one block, and a body line below. *)
Definition stacked_line (t : string) (y : Q) (ln : Z) : V2.TextElement :=
  V2.TextElement_init t 24 "Helvetica-Bold" true false 72 y 300 24 1 0 ln.

Definition stacked_title : list V2.TextElement :=
  [ report_line "Revenue grew by a tenth this year" 11 400 2;
    stacked_line "Report" 130 1;
    stacked_line "Annual" 100 0 ].

(** A leaflet of one page: a title set in two runs after a blank run, a
    numbered section line, a body line, and a picture. *)
Definition run_at (t : string) (fs : Q) (font : string) (x y : Q)
    : Layout.Span :=
  Layout.mkSpan t fs font (x, y, x + 200, y + fs).

Definition leaflet_page : Layout.Page :=
  [ Layout.mkBlock 0
      [ Layout.mkLine [ run_at "   " 24 "Helvetica" 60 100;
                        run_at "Field " 24 "Helvetica-Bold" 72 100;
                        run_at "Guide" 24 "Helvetica-BoldOblique" 160 100 ];
        Layout.mkLine [ run_at "1. Birds" 16 "Helvetica-Bold" 72 200 ];
        Layout.mkLine [ run_at "Birds are everywhere" 11 "Helvetica" 72 240 ] ];
    Layout.mkBlock 1 [] ].

Definition leaflet : Layout.Doc := [leaflet_page].

(** A page that shows nothing: a picture and a line of blank runs. *)
Definition blank_page : Layout.Page :=
  [ Layout.mkBlock 1 [];
    Layout.mkBlock 0 [ Layout.mkLine [ run_at "  " 11 "Helvetica" 72 100;
                                       run_at "" 11 "Helvetica" 90 100 ] ] ].

(** A body line and a line set in a font of size zero. *)
Definition with_hairline : list V2.TextElement :=
  [ report_line "Revenue grew by a tenth this year" 11 400 0;
    report_line "Draft" 0 20 1 ].

End Examples.

(** * Properties *)

Unset Implicit Arguments.

(** ** Facts about the primitives *)

Module Facts.
Import Py Shared.

Section SortedFacts.
Variable A : Type.
Variable leb : A -> A -> bool.

Lemma insert_perm x l : Permutation (insert leb x l) (x :: l).
Proof.
  induction l as [|y r IH]; simpl.
  - reflexivity.
  - destruct (leb x y).
    + reflexivity.
    + rewrite IH. apply perm_swap.
Qed.

Lemma sorted_perm l : Permutation (sorted leb l) l.
Proof.
  induction l as [|x r IH]; simpl.
  - reflexivity.
  - rewrite insert_perm. constructor. exact IH.
Qed.

Lemma sorted_In x l : In x (sorted leb l) <-> In x l.
Proof.
  split; apply Permutation_in;
    [apply sorted_perm | symmetry; apply sorted_perm].
Qed.

Lemma sorted_length l : List.length (sorted leb l) = List.length l.
Proof. apply Permutation_length, sorted_perm. Qed.
End SortedFacts.

Lemma Qltb_lt a b : Qltb a b = true <-> a < b.
Proof.
  unfold Qltb. rewrite negb_true_iff.
  destruct (Qle_bool b a) eqn:E.
  - apply Qle_bool_iff in E. split; [discriminate | intros H; lra].
  - split; [intros _ | reflexivity].
    apply Qnot_le_lt. intros H. apply Qle_bool_iff in H. congruence.
Qed.

Lemma Qltb_ge a b : Qltb a b = false <-> b <= a.
Proof.
  unfold Qltb. rewrite negb_false_iff. apply Qle_bool_iff.
Qed.

End Facts.

(** ** The strict structural guard of the second iteration *)

Module Guard.
Import Py Shared Spec Examples Facts.

(** The step under a last rank is the step under rank 0 with the guard
    applied to its answer. *)
Lemma heading_step_guard levels title_lines page_offset single last el :
  V2.heading_step levels title_lines page_offset single last el =
  match snd (V2.heading_step levels title_lines page_offset single 0 el) with
  | Some lv =>
      if (level_order lv <? last)%nat then (last, None)
      else (level_order lv, Some lv)
  | None => (last, None)
  end.
Proof.
  unfold V2.heading_step.
  destruct (V2.logical_page page_offset single el <? 0)%Z; [reflexivity|].
  destruct ((V2.page_num el =? 1)%Z && negb (List.length title_lines =? 0)%nat
            && mem_str (V2.text el) title_lines); [reflexivity|].
  destruct (len (V2.text el) <? 2)%nat; [reflexivity|].
  destruct (argmin _ _) as [[cluster_val delta]|]; [|reflexivity].
  destruct (Qgtb delta (3 # 10)); [reflexivity|].
  destruct (dict_get levels cluster_val) as [lv0|]; [|reflexivity].
  set (lv := V2.override _ lv0).
  destruct (endswith "." (rstrip (V2.text el))); [reflexivity|].
  destruct (12 <? split_len (V2.text el))%nat; [reflexivity|].
  replace (level_order lv <? 0)%nat with false by (destruct lv; reflexivity).
  reflexivity.
Qed.

Lemma heading_loop_sorted levels title_lines page_offset single els :
  forall last,
    Sorted le
      (last :: ranks (V2.heading_loop levels title_lines page_offset single
                        last els)).
Proof.
  induction els as [|el r IH]; intros last; simpl.
  - repeat constructor.
  - rewrite (heading_step_guard levels title_lines page_offset single last el).
    destruct (snd (V2.heading_step levels title_lines page_offset single 0 el))
      as [lv|].
    + destruct (level_order lv <? last)%nat eqn:E.
      * apply IH.
      * simpl. apply Nat.ltb_ge in E.
        constructor; [apply IH | constructor; exact E].
    + apply IH.
Qed.

End Guard.

(** ** What the loops of [assign_headings] emit *)

Module Loops.
Import Py Shared Spec Examples Facts.

Lemma V1_emitted_inv font_clusters levels els :
  forall last el e,
    In (el, e) (V1.heading_loop font_clusters levels last els) ->
    In el els /\
    exists last0 lv,
      snd (V1.heading_step font_clusters levels last0 el) = Some lv /\
      e = mkEntry lv (V1.text el) (V1.page_num el).
Proof.
  induction els as [|x r IH]; intros last el e H; simpl in H.
  - contradiction.
  - destruct (V1.heading_step font_clusters levels last x) as [last' em] eqn:E.
    destruct em as [lv|].
    + destruct H as [H|H].
      * injection H as <- <-. split; [left; reflexivity|].
        exists last, lv. rewrite E. split; reflexivity.
      * apply IH in H. destruct H as [Hin Hex]. split; [right|]; assumption.
    + apply IH in H. destruct H as [Hin Hex]. split; [right|]; assumption.
Qed.

Lemma V2_emitted_inv levels title_lines page_offset single els :
  forall last el e,
    In (el, e)
       (V2.heading_loop levels title_lines page_offset single last els) ->
    In el els /\
    exists last0 lv,
      snd (V2.heading_step levels title_lines page_offset single last0 el)
        = Some lv /\
      e = mkEntry lv (V2.text el)
            (V2.logical_page page_offset single el + 1).
Proof.
  induction els as [|x r IH]; intros last el e H; simpl in H.
  - contradiction.
  - destruct (V2.heading_step levels title_lines page_offset single last x)
      as [last' em] eqn:E.
    destruct em as [lv|].
    + destruct H as [H|H].
      * injection H as <- <-. split; [left; reflexivity|].
        exists last, lv. rewrite E. split; reflexivity.
      * apply IH in H. destruct H as [Hin Hex]. split; [right|]; assumption.
    + apply IH in H. destruct H as [Hin Hex]. split; [right|]; assumption.
Qed.

Lemma V3_emitted_inv hs levels els :
  forall el e,
    In (el, e) (V3.heading_loop hs levels els) ->
    In el els /\
    exists lv,
      V3.heading_step hs levels el = Some lv /\
      e = mkEntry lv (V3.text el) (V3.page_num el).
Proof.
  induction els as [|x r IH]; intros el e H; simpl in H.
  - contradiction.
  - destruct (V3.heading_step hs levels x) as [lv|] eqn:E.
    + destruct H as [H|H].
      * injection H as <- <-. split; [left; reflexivity|].
        exists lv. split; [exact E | reflexivity].
      * apply IH in H. destruct H as [Hin Hex]. split; [right|]; assumption.
    + apply IH in H. destruct H as [Hin Hex]. split; [right|]; assumption.
Qed.

(** An element that passes the gates of the third iteration is emitted. *)
Lemma V3_emitted_intro hs levels els el lv :
  In el els ->
  V3.heading_step hs levels el = Some lv ->
  In (el, mkEntry lv (V3.text el) (V3.page_num el))
     (V3.heading_loop hs levels els).
Proof.
  induction els as [|x r IH]; intros Hin Hstep; simpl.
  - contradiction.
  - destruct Hin as [->|Hin].
    + rewrite Hstep. left. reflexivity.
    + destruct (V3.heading_step hs levels x);
        [right|]; apply IH; assumption.
Qed.

(** ** Dictionaries *)

Lemma dict_get_set (V : Type) (d : dict V) k v k' :
  dict_get (dict_set d k v) k' =
  if Qeq_bool k k' then Some v else dict_get d k'.
Proof.
  induction d as [|[k0 v0] r IH]; simpl.
  - reflexivity.
  - destruct (Qeq_bool k0 k) eqn:E0; simpl.
    + apply Qeq_bool_iff in E0.
      destruct (Qeq_bool k0 k') eqn:E1, (Qeq_bool k k') eqn:E2;
        try reflexivity; exfalso.
      * apply Qeq_bool_iff in E1. apply Qeq_bool_neq in E2.
        apply E2. rewrite <- E0. exact E1.
      * apply Qeq_bool_neq in E1. apply Qeq_bool_iff in E2.
        apply E1. rewrite E0. exact E2.
    + destruct (Qeq_bool k0 k') eqn:E1.
      * destruct (Qeq_bool k k') eqn:E2; [|reflexivity]. exfalso.
        apply Qeq_bool_iff in E1. apply Qeq_bool_iff in E2.
        apply Qeq_bool_neq in E0. apply E0. rewrite E1, E2. reflexivity.
      * exact IH.
Qed.

Lemma assign_levels_keeps_H3 hs :
  forall i d k,
    (2 <= i)%nat ->
    dict_get d k = Some H3 ->
    dict_get (V3.assign_levels i hs d) k = Some H3.
Proof.
  induction hs as [|fs r IH]; intros i d k Hi Hd; simpl.
  - exact Hd.
  - apply IH; [lia|].
    destruct i as [|[|i]]; try lia. simpl.
    rewrite dict_get_set. destruct (Qeq_bool fs k); [reflexivity | exact Hd].
Qed.

Lemma assign_levels_H3 hs :
  forall i d j fs,
    (2 <= i)%nat ->
    nth_error hs j = Some fs ->
    dict_get (V3.assign_levels i hs d) fs = Some H3.
Proof.
  induction hs as [|x r IH]; intros i d j fs Hi Hn.
  - destruct j; discriminate.
  - destruct j as [|j]; simpl in Hn |- *.
    + injection Hn as ->. apply assign_levels_keeps_H3; [lia|].
      destruct i as [|[|i]]; try lia. simpl.
      rewrite dict_get_set.
      replace (Qeq_bool fs fs) with true; [reflexivity|].
      symmetry. apply Qeq_bool_iff. reflexivity.
    + eapply IH; [|exact Hn]. lia.
Qed.

(** ** The keys of the level dictionaries *)

Lemma dict_get_key (V : Type) (d : dict V) k v :
  dict_get d k = Some v -> exists k', In k' (dict_keys d) /\ k' == k.
Proof.
  induction d as [|[k0 v0] r IH]; simpl; [discriminate|].
  destruct (Qeq_bool k0 k) eqn:E.
  - intros _. exists k0. split; [left; reflexivity|].
    apply Qeq_bool_iff. exact E.
  - intros H. destruct (IH H) as [k' [Hin Heq]].
    exists k'. split; [right; exact Hin | exact Heq].
Qed.

Lemma dict_set_keys (V : Type) (d : dict V) k v k' :
  In k' (dict_keys (dict_set d k v)) -> In k' (dict_keys d) \/ k' = k.
Proof.
  induction d as [|[k0 v0] r IH]; simpl.
  - intros [<-|[]]. right. reflexivity.
  - destruct (Qeq_bool k0 k); simpl.
    + intros [H|H]; left; [left|right]; exact H.
    + intros [H|H]; [left; left; exact H|].
      destruct (IH H) as [H'|H']; [left; right; exact H' | right; exact H'].
Qed.

Lemma assign_levels_keys hs :
  forall i d k,
    In k (dict_keys (V3.assign_levels i hs d)) ->
    In k (dict_keys d) \/ In k hs.
Proof.
  induction hs as [|fs r IH]; intros i d k H; simpl in H; [left; exact H|].
  destruct (IH _ _ _ H) as [H'|H'].
  - apply dict_set_keys in H'. destruct H' as [H'| ->];
      [left; exact H' | right; left; reflexivity].
  - right. right. exact H'.
Qed.

Lemma assign_tags_keys tags :
  forall hs d k,
    In k (dict_keys (V2.assign_tags tags hs d)) ->
    In k (dict_keys d) \/ In k hs.
Proof.
  induction tags as [|tag tags IH]; intros hs d k H; simpl in H;
    [left; exact H|].
  destruct hs as [|fs hs]; [left; exact H|].
  destruct (IH _ _ _ H) as [H'|H'].
  - apply dict_set_keys in H'. destruct H' as [H'| ->];
      [left; exact H' | right; left; reflexivity].
  - right. right. exact H'.
Qed.

Lemma V1_level_keys font_clusters title_font_size k :
  In k (dict_keys (V1.font_size_to_level font_clusters title_font_size)) ->
  In k (V1.heading_font_sizes font_clusters title_font_size).
Proof.
  unfold V1.font_size_to_level.
  destruct (V1.heading_font_sizes font_clusters title_font_size)
    as [|a [|b [|c r]]]; cbn [nth_error]; intros H.
  - exact H.
  - apply dict_set_keys in H. destruct H as [[]| ->]. left. reflexivity.
  - apply dict_set_keys in H. destruct H as [H| ->];
      [|right; left; reflexivity].
    apply dict_set_keys in H. destruct H as [[]| ->]. left. reflexivity.
  - apply dict_set_keys in H. destruct H as [H| ->];
      [|right; right; left; reflexivity].
    apply dict_set_keys in H. destruct H as [H| ->];
      [|right; left; reflexivity].
    apply dict_set_keys in H. destruct H as [[]| ->]. left. reflexivity.
Qed.

End Loops.

(** ** Page-1 exclusion *)

Module PageOne.
Import Py Shared Spec Examples Facts Loops.

Lemma V1_step_page1 font_clusters levels last el :
  V1.page_num el = 1%Z ->
  snd (V1.heading_step font_clusters levels last el) = None.
Proof.
  intros H. unfold V1.heading_step. rewrite H. reflexivity.
Qed.

Lemma V2_step_page1 levels title_lines page_offset last el :
  (1 <= page_offset)%Z ->
  V2.page_num el = 1%Z ->
  snd (V2.heading_step levels title_lines page_offset false last el) = None.
Proof.
  intros Hoff H. unfold V2.heading_step, V2.logical_page. simpl. rewrite H.
  replace (1 - 1 - page_offset <? 0)%Z with true; [reflexivity|].
  symmetry. apply Z.ltb_lt. lia.
Qed.


End PageOne.

(** ** The header and footer filters *)

Module Filter.
Import Py Shared Spec Examples Facts.

Lemma mem_str_In s l : mem_str s l = true <-> In s l.
Proof.
  unfold mem_str. rewrite existsb_exists. split.
  - intros [x [Hin Heq]]. apply String.eqb_eq in Heq. subst. exact Hin.
  - intros H. exists s. split; [exact H | apply String.eqb_refl].
Qed.

Lemma Q_of_nat_nonneg n : 0 <= Q_of_nat n.
Proof.
  unfold Q_of_nat. change 0 with (inject_Z 0). rewrite <- Zle_Qle. lia.
Qed.

Lemma Q_of_nat_pos n : 0 < Q_of_nat n <-> (0 < n)%nat.
Proof.
  unfold Q_of_nat. change 0 with (inject_Z 0). rewrite <- Zlt_Qlt. lia.
Qed.

Lemma Counter_In (P : string * nat -> bool) texts t :
  In t (map fst (filter P (Counter texts))) <->
  In t texts /\ P (t, count_occ string_dec texts t) = true.
Proof.
  unfold Counter. rewrite in_map_iff. split.
  - intros [[t' n] [Heq Hin]]. simpl in Heq. subst t'.
    apply filter_In in Hin. destruct Hin as [Hin HP].
    apply in_map_iff in Hin. destruct Hin as [t0 [Hpair Hin]].
    injection Hpair as -> <-. apply nodup_In in Hin. split; assumption.
  - intros [Hin HP]. exists (t, count_occ string_dec texts t).
    split; [reflexivity|].
    apply filter_In. split; [|exact HP].
    apply in_map_iff. exists t. split; [reflexivity|].
    apply nodup_In. exact Hin.
Qed.

Lemma V1_frequent_In texts num_pages t :
  In t (V1.frequent texts num_pages) <->
  In t texts /\
  fmul_int float_07 (Z.of_nat num_pages)
    < Q_of_nat (count_occ string_dec texts t).
Proof.
  unfold V1.frequent. rewrite Counter_In. cbn [fst snd]. unfold Qgtb.
  rewrite Qltb_lt. reflexivity.
Qed.

Lemma V2_frequent_In texts num_pages t :
  In t (V2.frequent texts num_pages) <->
  In t texts /\
  fmul_int float_07 num_pages < Q_of_nat (count_occ string_dec texts t).
Proof.
  unfold V2.frequent. rewrite Counter_In. cbn [fst snd]. unfold Qgtb.
  rewrite Qltb_lt. reflexivity.
Qed.

Lemma negb_and_iff (a b : bool) (A B : Prop) :
  (a = true <-> A) -> (b = true <-> B) ->
  (negb (a && b) = true <-> ~ (A /\ B)).
Proof.
  intros HA HB. destruct a, b; simpl; split; intros H;
    try reflexivity; try discriminate.
  - exfalso. apply H. tauto.
  - intros [_ HB']. apply HB in HB'. discriminate.
  - intros [HA' _]. apply HA in HA'. discriminate.
  - intros [HA' _]. apply HA in HA'. discriminate.
Qed.

(** The first iteration keeps exactly the elements that are not in a
    band where their text is frequent. *)
Lemma V1_filter_spec doc y_top y_bottom el :
  In el (V1.remove_header_footer doc y_top y_bottom) <->
  In el doc /\
  ~ (V1.y0 el < y_top /\
     fmul_int float_07 (Z.of_nat (pages_with_text doc))
       < Q_of_nat (top_count doc y_top (V1.text el))) /\
  ~ (y_bottom < V1.y0 el /\
     fmul_int float_07 (Z.of_nat (pages_with_text doc))
       < Q_of_nat (bottom_count doc y_bottom (V1.text el))).
Proof.
  unfold V1.remove_header_footer. rewrite filter_In, andb_true_iff.
  fold (pages_with_text doc).
  set (tops := map V1.text (filter (fun e => Qltb (V1.y0 e) y_top) doc)).
  set (bots := map V1.text (filter (fun e => Qgtb (V1.y0 e) y_bottom) doc)).
  set (n := pages_with_text doc).
  assert (Htop : negb (Qltb (V1.y0 el) y_top
                       && mem_str (V1.text el) (V1.frequent tops n)) = true <->
                 ~ (V1.y0 el < y_top /\
                    In (V1.text el) (V1.frequent tops n)))
    by (apply negb_and_iff; [apply Qltb_lt | apply mem_str_In]).
  assert (Hbot : negb (Qgtb (V1.y0 el) y_bottom
                       && mem_str (V1.text el) (V1.frequent bots n)) = true <->
                 ~ (y_bottom < V1.y0 el /\
                    In (V1.text el) (V1.frequent bots n)))
    by (apply negb_and_iff; [apply Qltb_lt | apply mem_str_In]).
  rewrite Htop, Hbot, !V1_frequent_In.
  unfold top_count, bottom_count. fold tops bots.
  split; intros [Hin [H1 H2]]; (split; [exact Hin|]); split.
  - intros [Hy Hc]. apply H1. split; [exact Hy|]. split; [|exact Hc].
    apply in_map. apply filter_In. split; [exact Hin|]. apply Qltb_lt, Hy.
  - intros [Hy Hc]. apply H2. split; [exact Hy|]. split; [|exact Hc].
    apply in_map. apply filter_In. split; [exact Hin|]. apply Qltb_lt, Hy.
  - intros [Hy [_ Hc]]. apply H1. split; assumption.
  - intros [Hy [_ Hc]]. apply H2. split; assumption.
Qed.

(** The third iteration keeps exactly the elements whose text is not
    both repeated often enough, wherever it lies, and of the look of a
    header or footer. *)
Lemma V3_filter_spec doc el :
  In el (V3.remove_header_footer doc) <->
  In el doc /\
  ~ (V3.repeat_threshold (pages_with_text doc)
       <= Q_of_nat (count_occ string_dec (map V1.text doc) (V1.text el)) /\
     V3.looks_like_header_footer (V1.text el) = true).
Proof.
  unfold V3.remove_header_footer. rewrite filter_In, negb_true_iff.
  rewrite <- not_true_iff_false, mem_str_In.
  unfold V3.repetitive_texts. rewrite Counter_In. simpl.
  rewrite andb_true_iff, Qle_bool_iff.
  apply and_iff_compat_l. split; [|tauto]. intros H Hrep. apply H.
  split; [|exact Hrep]. apply (count_occ_In string_dec).
  destruct Hrep as [Hrep _]. apply Q_of_nat_pos.
  unfold V3.repeat_threshold, Qmaxb in Hrep.
  destruct (Qltb 3 _) eqn:E; [apply Qltb_lt in E|]; lra.
Qed.

(** The second iteration applies the same test as the first, with the
    largest page number in the place of the number of pages. *)
Lemma V2_filter_spec doc y_top y_bottom num_pages :
  Zmax_seq (map V2.page_num doc) = Ok num_pages ->
  exists out,
    V2.remove_header_footer doc y_top y_bottom = Ok out /\
    forall el,
      In el out <->
      In el doc /\
      ~ (V2.y0 el < y_top /\
         fmul_int float_07 num_pages
           < Q_of_nat
               (count_occ string_dec
                  (map V2.text
                     (filter (fun e => Qltb (V2.y0 e) y_top) doc))
                  (V2.text el))) /\
      ~ (y_bottom < V2.y0 el /\
         fmul_int float_07 num_pages
           < Q_of_nat
               (count_occ string_dec
                  (map V2.text
                     (filter (fun e => Qgtb (V2.y0 e) y_bottom) doc))
                  (V2.text el))).
Proof.
  intros Hmax. unfold V2.remove_header_footer. rewrite Hmax.
  cbv beta iota delta [bind].
  eexists. split; [reflexivity|]. intros el.
  rewrite filter_In, andb_true_iff.
  set (tops := map V2.text (filter (fun e => Qltb (V2.y0 e) y_top) doc)).
  set (bots := map V2.text (filter (fun e => Qgtb (V2.y0 e) y_bottom) doc)).
  assert (Htop : negb (mem_str (V2.text el) (V2.frequent tops num_pages)
                       && Qltb (V2.y0 el) y_top) = true <->
                 ~ (In (V2.text el) (V2.frequent tops num_pages) /\
                    V2.y0 el < y_top))
    by (apply negb_and_iff; [apply mem_str_In | apply Qltb_lt]).
  assert (Hbot : negb (mem_str (V2.text el) (V2.frequent bots num_pages)
                       && Qgtb (V2.y0 el) y_bottom) = true <->
                 ~ (In (V2.text el) (V2.frequent bots num_pages) /\
                    y_bottom < V2.y0 el))
    by (apply negb_and_iff; [apply mem_str_In | apply Qltb_lt]).
  rewrite Htop, Hbot, !V2_frequent_In.
  split; intros [Hin [H1 H2]]; (split; [exact Hin|]); split.
  - intros [Hy Hc]. apply H1. split; [split|]; try assumption.
    apply in_map. apply filter_In. split; [exact Hin|]. apply Qltb_lt, Hy.
  - intros [Hy Hc]. apply H2. split; [split|]; try assumption.
    apply in_map. apply filter_In. split; [exact Hin|]. apply Qltb_lt, Hy.
  - intros [[_ Hc] Hy]. apply H1. split; assumption.
  - intros [[_ Hc] Hy]. apply H2. split; assumption.
Qed.

End Filter.

(** ** The clustering loop *)

Module Cluster.
Import Py Shared Spec Examples Facts.

Lemma cluster_loop_eq tolerance sizes :
  cluster_loop tolerance sizes =
  match sizes with
  | [] => Ok []
  | _ :: _ =>
      match cluster_round tolerance sizes with
      | Raise e => Raise e
      | Ok (c, m, sizes') =>
          later <- cluster_loop tolerance sizes' ;; Ok ((c, m) :: later)
      end
  end.
Proof.
  destruct sizes as [|base rest].
  - simp cluster_loop. reflexivity.
  - simp cluster_loop.
    generalize (inspect (cluster_round tolerance (base :: rest))).
    intros [r Hr].
    destruct r as [[[c m] s']|e]; simp cluster_loop; rewrite Hr; reflexivity.
Qed.

(** *** Means *)

Lemma Q_of_nat_S n : Q_of_nat (S n) == Q_of_nat n + 1.
Proof.
  unfold Q_of_nat. rewrite Nat2Z.inj_succ, <- Z.add_1_r, inject_Z_plus.
  reflexivity.
Qed.

Lemma sum_le_upper l b :
  (forall c, In c l -> c <= b) -> sum l <= Q_of_nat (List.length l) * b.
Proof.
  induction l as [|x r IH]; intros H.
  - change (0 <= 0 * b). lra.
  - change (x + sum r <= Q_of_nat (S (List.length r)) * b).
    rewrite Q_of_nat_S.
    assert (x <= b) by (apply H; left; reflexivity).
    assert (sum r <= Q_of_nat (List.length r) * b)
      by (apply IH; intros c Hc; apply H; right; exact Hc).
    lra.
Qed.

Lemma sum_ge_lower l b :
  (forall c, In c l -> b <= c) -> Q_of_nat (List.length l) * b <= sum l.
Proof.
  induction l as [|x r IH]; intros H.
  - change (0 * b <= 0). lra.
  - change (Q_of_nat (S (List.length r)) * b <= x + sum r).
    rewrite Q_of_nat_S.
    assert (b <= x) by (apply H; left; reflexivity).
    assert (Q_of_nat (List.length r) * b <= sum r)
      by (apply IH; intros c Hc; apply H; right; exact Hc).
    lra.
Qed.

Lemma mean_nonempty x r :
  mean (x :: r) = Ok (sum (x :: r) / Q_of_nat (List.length (x :: r))).
Proof. reflexivity. Qed.

Lemma length_pos n : 0 < Q_of_nat (S n).
Proof. apply Filter.Q_of_nat_pos. lia. Qed.

Lemma mean_lt_upper l m b :
  mean l = Ok m -> (forall c, In c l -> c < b) -> m < b.
Proof.
  destruct l as [|x r]; [discriminate|]. rewrite mean_nonempty.
  intros Hm H. injection Hm as <-.
  apply Qlt_shift_div_r; [apply (length_pos (List.length r))|].
  change (x + sum r < b * Q_of_nat (S (List.length r))).
  rewrite Q_of_nat_S.
  assert (x < b) by (apply H; left; reflexivity).
  assert (sum r <= Q_of_nat (List.length r) * b)
    by (apply sum_le_upper; intros c Hc; apply Qlt_le_weak, H; right; exact Hc).
  lra.
Qed.

Lemma mean_gt_lower l m b :
  mean l = Ok m -> (forall c, In c l -> b < c) -> b < m.
Proof.
  destruct l as [|x r]; [discriminate|]. rewrite mean_nonempty.
  intros Hm H. injection Hm as <-.
  apply Qlt_shift_div_l; [apply (length_pos (List.length r))|].
  change (b * Q_of_nat (S (List.length r)) < x + sum r).
  rewrite Q_of_nat_S.
  assert (b < x) by (apply H; left; reflexivity).
  assert (Q_of_nat (List.length r) * b <= sum r)
    by (apply sum_ge_lower; intros c Hc; apply Qlt_le_weak, H; right; exact Hc).
  lra.
Qed.

(** *** One round on a descending list *)

Lemma within_below tolerance base s :
  s <= base -> (within tolerance base s = true <-> base - s <= tolerance).
Proof.
  intros Hs. unfold within. rewrite Qle_bool_iff.
  rewrite (Qabs_neg (s - base)) by lra.
  split; intros H; lra.
Qed.

Lemma descending_tail x l : descending (x :: l) -> descending l.
Proof. intros H. apply StronglySorted_inv in H. tauto. Qed.

Lemma descending_head x l y : descending (x :: l) -> In y l -> y < x.
Proof.
  intros H Hy. apply StronglySorted_inv in H. destruct H as [_ H].
  rewrite Forall_forall in H. apply H. exact Hy.
Qed.

Lemma descending_app_r l1 l2 : descending (l1 ++ l2) -> descending l2.
Proof.
  induction l1 as [|x r IH]; simpl; intros H; [exact H|].
  apply IH. apply descending_tail in H. exact H.
Qed.

Lemma descending_app_lt l1 l2 x y :
  descending (l1 ++ l2) -> In x l1 -> In y l2 -> y < x.
Proof.
  induction l1 as [|z r IH]; simpl; intros H Hx Hy; [contradiction|].
  destruct Hx as [->|Hx].
  - apply (descending_head _ _ _ H). apply in_or_app. right. exact Hy.
  - apply IH; try assumption. apply descending_tail in H. exact H.
Qed.

Lemma descending_NoDup l : descending l -> NoDup l.
Proof.
  induction l as [|x r IH]; intros H; constructor.
  - intros Hin. apply (descending_head _ _ _ H) in Hin. lra.
  - apply IH. apply descending_tail in H. exact H.
Qed.

(** On a descending list below [base] the sizes within the tolerance of
    [base] form a prefix. *)
Lemma filter_within_prefix tolerance base l :
  descending l -> (forall x, In x l -> x <= base) ->
  l = filter (within tolerance base) l
      ++ filter (fun s => negb (within tolerance base s)) l.
Proof.
  induction l as [|x r IH]; intros Hd Hb; [reflexivity|].
  simpl. destruct (within tolerance base x) eqn:E; simpl.
  - f_equal. apply IH.
    + apply descending_tail in Hd. exact Hd.
    + intros y Hy. apply Hb. right. exact Hy.
  - assert (Hnone : forall y, In y r -> within tolerance base y = false).
    { intros y Hy. apply not_true_is_false. intros Hw.
      assert (y < x) by (apply (descending_head _ _ _ Hd); exact Hy).
      assert (x <= base) by (apply Hb; left; reflexivity).
      apply within_below in Hw; [|lra].
      assert (within tolerance base x = true)
        by (apply within_below; [assumption | lra]).
      congruence. }
    replace (filter (within tolerance base) r) with (@nil Q).
    + simpl. f_equal. symmetry. apply forallb_filter_id.
      apply forallb_forall. intros y Hy. rewrite (Hnone y Hy). reflexivity.
    + symmetry. clear -Hnone. induction r as [|y r IH]; [reflexivity|].
      simpl. rewrite (Hnone y) by (left; reflexivity).
      apply IH. intros z Hz. apply Hnone. right. exact Hz.
Qed.

Lemma remove_all_prefix c r : remove_all c (c ++ r) = Ok r.
Proof.
  induction c as [|s c IH]; [reflexivity|]. simpl.
  replace (Qeq_bool s s) with true; [exact IH|].
  symmetry. apply Qeq_bool_iff. reflexivity.
Qed.

Lemma cluster_round_descending tolerance base rest :
  0 <= tolerance ->
  descending (base :: rest) ->
  exists c m rest',
    cluster_round tolerance (base :: rest) = Ok (base :: c, m, rest') /\
    mean (base :: c) = Ok m /\
    base :: rest = (base :: c) ++ rest'.
Proof.
  intros Htol Hd.
  assert (Hb : forall x, In x (base :: rest) -> x <= base).
  { intros x [<-|Hx]; [lra|]. apply Qlt_le_weak, (descending_head _ _ _ Hd), Hx. }
  pose proof (filter_within_prefix tolerance _ _ Hd Hb) as Hsplit.
  unfold cluster_round. simpl hd.
  assert (Hself : within tolerance base base = true)
    by (apply within_below; lra).
  remember (filter (within tolerance base) (base :: rest)) as cl eqn:Hcl.
  remember (filter (fun s => negb (within tolerance base s)) (base :: rest))
    as rest' eqn:Hrest.
  assert (Hshape : exists c, cl = base :: c).
  { rewrite Hcl. simpl. rewrite Hself. eexists. reflexivity. }
  destruct Hshape as [c Hc].
  exists c, (sum cl / Q_of_nat (List.length cl)), rest'.
  rewrite <- Hc. split; [|split].
  - rewrite Hc at 1. rewrite mean_nonempty. rewrite <- Hc. simpl.
    rewrite Hsplit at 1. rewrite remove_all_prefix. reflexivity.
  - rewrite Hc. rewrite mean_nonempty. reflexivity.
  - exact Hsplit.
Qed.

(** *** The whole loop on a descending list *)

Lemma descending_cons m l :
  descending l -> (forall x, In x l -> x < m) -> descending (m :: l).
Proof.
  intros Hd H. constructor; [exact Hd|].
  apply Forall_forall. exact H.
Qed.

Lemma cluster_loop_descending tolerance :
  0 <= tolerance ->
  forall n sizes,
    (List.length sizes <= n)%nat ->
    descending sizes ->
    exists rounds,
      cluster_loop tolerance sizes = Ok rounds /\
      List.concat (map fst rounds) = sizes /\
      Forall (fun r => mean (fst r) = Ok (snd r)) rounds /\
      descending (map snd rounds) /\
      forall b, (forall x, In x sizes -> x < b) ->
                forall m, In m (map snd rounds) -> m < b.
Proof.
  intros Htol. induction n as [|n IH]; intros sizes Hlen Hd.
  - destruct sizes; [|simpl in Hlen; lia].
    exists []. rewrite cluster_loop_eq.
    repeat split; try constructor. intros b _ m [].
  - destruct sizes as [|base rest].
    + exists []. rewrite cluster_loop_eq.
      repeat split; try constructor. intros b _ m [].
    + destruct (cluster_round_descending tolerance base rest Htol Hd)
        as [c [m [rest' [Hround [Hmean Hsplit]]]]].
      assert (Hd' : descending rest').
      { apply (descending_app_r (base :: c)). rewrite <- Hsplit. exact Hd. }
      assert (Hlen' : (List.length rest' <= n)%nat).
      { apply (f_equal (@List.length Q)) in Hsplit.
        rewrite length_app in Hsplit. simpl in Hsplit, Hlen. lia. }
      destruct (IH rest' Hlen' Hd')
        as [later [Hloop [Hcat [Hmeans [Hdesc Hbound]]]]].
      exists ((base :: c, m) :: later).
      rewrite cluster_loop_eq, Hround, Hloop. simpl bind.
      split; [reflexivity|]. split; [|split; [|split]].
      * simpl. rewrite Hcat. symmetry. exact Hsplit.
      * constructor; [exact Hmean | exact Hmeans].
      * simpl. apply descending_cons; [exact Hdesc|].
        apply Hbound. intros x Hx.
        apply (mean_gt_lower _ _ _ Hmean). intros y Hy.
        apply (descending_app_lt (base :: c) rest'); try assumption.
        rewrite <- Hsplit. exact Hd.
      * intros b Hb m' [<-|Hm'].
        -- apply (mean_lt_upper _ _ _ Hmean). intros y Hy. apply Hb.
           rewrite Hsplit. apply in_or_app. left. exact Hy.
        -- apply (Hbound b); [|exact Hm'].
           intros x Hx. apply Hb. rewrite Hsplit.
           apply in_or_app. right. exact Hx.
Qed.

(** *** The observed sizes are strictly descending *)

Lemma setQ_In x l : In x (setQ l) -> In x l.
Proof.
  induction l as [|y r IH]; simpl; [tauto|].
  intros [->|H]; [left; reflexivity|].
  right. apply IH. apply filter_In in H. tauto.
Qed.

Lemma setQ_distinct l :
  ForallOrdPairs (fun a b => ~ a == b) (setQ l).
Proof.
  induction l as [|x r IH]; simpl; constructor.
  - apply Forall_forall. intros y Hy. apply filter_In in Hy.
    destruct Hy as [_ Hy]. apply negb_true_iff in Hy.
    apply Qeq_bool_neq in Hy. exact Hy.
  - clear -IH. induction IH as [|a l Ha Hl IHl]; simpl; [constructor|].
    destruct (negb (Qeq_bool x a)); [|exact IHl].
    constructor; [|exact IHl].
    apply Forall_forall. intros y Hy. apply filter_In in Hy.
    rewrite Forall_forall in Ha. apply Ha. tauto.
Qed.

Lemma insert_descending x l :
  descending l -> (forall y, In y l -> ~ x == y) ->
  descending (insert (fun a b => Qle_bool b a) x l).
Proof.
  induction l as [|y r IH]; intros Hd Hne; simpl.
  - repeat constructor.
  - destruct (Qle_bool y x) eqn:E.
    + apply Qle_bool_iff in E.
      assert (y < x).
      { destruct (Qlt_le_dec y x) as [Hlt|Hle]; [exact Hlt|].
        exfalso. apply (Hne y); [left; reflexivity|]. lra. }
      apply descending_cons; [exact Hd|].
      intros z [<-|Hz]; [assumption|].
      apply (descending_head _ _ _ Hd) in Hz. lra.
    + assert (x < y).
      { apply Qnot_le_lt. intros H. apply Qle_bool_iff in H. congruence. }
      apply descending_cons.
      * apply IH; [apply (descending_tail _ _ Hd)|].
        intros z Hz. apply Hne. right. exact Hz.
      * intros z Hz.
        apply (Permutation_in _ (insert_perm _ _ _ _)) in Hz.
        destruct Hz as [<-|Hz]; [assumption|].
        apply (descending_head _ _ _ Hd). exact Hz.
Qed.

Lemma sorted_desc_descending l :
  ForallOrdPairs (fun a b => ~ a == b) l -> descending (sorted_desc l).
Proof.
  induction 1 as [|x r Hx Hr IH]; simpl.
  - constructor.
  - apply insert_descending; [exact IH|].
    intros y Hy. rewrite Forall_forall in Hx. apply Hx.
    unfold sorted_desc in Hy. apply sorted_In in Hy. exact Hy.
Qed.

Lemma sorted_desc_id l : descending l -> sorted_desc l = l.
Proof.
  induction l as [|x r IH]; intros Hd; [reflexivity|].
  unfold sorted_desc in *. simpl.
  rewrite IH by (apply (descending_tail _ _ Hd)).
  destruct r as [|y r']; [reflexivity|]. simpl.
  replace (Qle_bool y x) with true; [reflexivity|].
  symmetry. apply Qle_bool_iff. apply Qlt_le_weak.
  apply (descending_head _ _ _ Hd). left. reflexivity.
Qed.

Lemma observed_descending l : descending (sorted_desc (setQ l)).
Proof. apply sorted_desc_descending, setQ_distinct. Qed.

(** *** Exactly one cluster for every size *)

Lemma concat_unique (cs : list (list Q)) s :
  NoDup (List.concat cs) ->
  forall i j c c',
    nth_error cs i = Some c -> nth_error cs j = Some c' ->
    In s c -> In s c' -> i = j.
Proof.
  induction cs as [|c0 cs IH]; intros Hnd i j c c' Hi Hj Hs Hs'.
  - destruct i; discriminate.
  - simpl in Hnd.
    assert (Hsplit : forall x, In x c0 -> In x (List.concat cs) -> False).
    { intros x H1 H2. revert x H1 H2. clear -Hnd.
      induction c0 as [|y r IHr]; simpl in *; intros x H1 H2; [contradiction|].
      inversion Hnd as [|? ? Hy Hr]; subst.
      destruct H1 as [->|H1].
      - apply Hy. apply in_or_app. right. exact H2.
      - apply (IHr Hr x H1 H2). }
    assert (Hin : forall k ck, nth_error cs k = Some ck -> In s ck ->
                               In s (List.concat cs)).
    { intros k ck Hk Hck. apply List.in_concat. exists ck. split; [|exact Hck].
      apply (nth_error_In _ _ Hk). }
    destruct i as [|i], j as [|j]; simpl in Hi, Hj.
    + reflexivity.
    + injection Hi as <-. exfalso.
      apply (Hsplit s Hs). apply (Hin j c' Hj Hs').
    + injection Hj as <-. exfalso.
      apply (Hsplit s Hs'). apply (Hin i c Hi Hs).
    + f_equal. apply (IH (NoDup_app_remove_l _ _ Hnd) i j c c'); assumption.
Qed.

Lemma concat_partition (cs : list (list Q)) :
  NoDup (List.concat cs) -> is_partition (List.concat cs) cs.
Proof.
  intros Hnd s Hs. apply List.in_concat in Hs. destruct Hs as [c [Hc Hsc]].
  apply In_nth_error in Hc. destruct Hc as [i Hi].
  exists i. split.
  - exists c. split; assumption.
  - intros j [c' [Hj Hs']]. apply (concat_unique cs s Hnd i j c c'); assumption.
Qed.

(** The loop on any strictly descending list of sizes. *)
Lemma clustering_ok_descending tolerance sizes :
  0 <= tolerance -> descending sizes ->
  clustering_ok tolerance sizes
    (rounds <- cluster_loop tolerance sizes ;;
     Ok (sorted_desc (map snd rounds))).
Proof.
  intros Htol Hd.
  destruct (cluster_loop_descending tolerance Htol (List.length sizes) sizes
              (le_n _) Hd)
    as [rounds [Hloop [Hcat [Hmeans [Hdesc _]]]]].
  exists rounds. rewrite Hloop. simpl bind.
  rewrite (sorted_desc_id _ Hdesc).
  split; [reflexivity|]. split; [reflexivity|]. split; [exact Hcat|].
  split; [|split; assumption].
  rewrite <- Hcat at 1. apply concat_partition.
  rewrite Hcat. apply descending_NoDup. exact Hd.
Qed.

(** *** The clusters and the sizes of the elements *)

(** Two members of a strictly descending list that are equal as numbers
    are the same member. *)
Lemma descending_eq l a b :
  descending l -> In a l -> In b l -> a == b -> a = b.
Proof.
  induction l as [|x r IH]; intros Hd Ha Hb Hab; [contradiction|].
  pose proof (descending_tail _ _ Hd) as Hr.
  destruct Ha as [<-|Ha], Hb as [<-|Hb].
  - reflexivity.
  - exfalso. pose proof (descending_head _ _ _ Hd Hb). lra.
  - exfalso. pose proof (descending_head _ _ _ Hd Ha). lra.
  - apply IH; assumption.
Qed.

(** Every number of [l] is kept by [set(l)], up to the spelling of the
    fraction. *)
Lemma setQ_represents l x : In x l -> exists y, In y (setQ l) /\ y == x.
Proof.
  induction l as [|a r IH]; intros H; [contradiction|]. simpl.
  destruct (Qeq_bool a x) eqn:E.
  - exists a. split; [left; reflexivity|]. apply Qeq_bool_iff. exact E.
  - destruct H as [->|H].
    + exfalso. apply Qeq_bool_neq in E. apply E. reflexivity.
    + destruct (IH H) as [y [Hy Heq]]. exists y. split; [|exact Heq].
      right. apply filter_In. split; [exact Hy|].
      apply negb_true_iff. destruct (Qeq_bool a y) eqn:E'; [|reflexivity].
      exfalso. apply Qeq_bool_iff in E'. apply Qeq_bool_neq in E.
      apply E. rewrite E'. exact Heq.
Qed.

(** A list that is not empty has a least and a largest member. *)
Lemma least_and_largest (l : list Q) :
  l <> [] ->
  exists lo hi, In lo l /\ In hi l /\ forall x, In x l -> lo <= x /\ x <= hi.
Proof.
  induction l as [|a r IH]; intros H; [contradiction|].
  destruct r as [|b r'].
  - exists a, a. split; [left; reflexivity|]. split; [left; reflexivity|].
    intros x [<-|[]]. split; apply Qle_refl.
  - destruct IH as [lo [hi [Hlo [Hhi Hb]]]]; [discriminate|].
    exists (if Qltb a lo then a else lo), (if Qltb hi a then a else hi).
    split; [destruct (Qltb a lo); [left; reflexivity | right; exact Hlo]|].
    split; [destruct (Qltb hi a); [left; reflexivity | right; exact Hhi]|].
    intros x Hx.
    destruct (Qltb a lo) eqn:E1; [apply Qltb_lt in E1 | apply Qltb_ge in E1];
      (destruct (Qltb hi a) eqn:E2;
       [apply Qltb_lt in E2 | apply Qltb_ge in E2]);
      (destruct Hx as [<-|Hx]; [split; lra|]);
      destruct (Hb x Hx); split; lra.
Qed.

(** The mean of a cluster lies between two of its members. *)
Lemma mean_between l m :
  mean l = Ok m ->
  exists lo hi, In lo l /\ In hi l /\ lo <= m /\ m <= hi.
Proof.
  intros Hm.
  destruct (least_and_largest l) as [lo [hi [Hlo [Hhi Hb]]]];
    [intros ->; discriminate|].
  exists lo, hi. split; [exact Hlo|]. split; [exact Hhi|].
  destruct l as [|x r]; [discriminate|]. rewrite mean_nonempty in Hm.
  injection Hm as <-. split.
  - apply Qle_shift_div_l; [apply (length_pos (List.length r))|].
    pose proof (sum_ge_lower (x :: r) lo (fun c Hc => proj1 (Hb c Hc))) as Hs.
    rewrite Qmult_comm. exact Hs.
  - apply Qle_shift_div_r; [apply (length_pos (List.length r))|].
    pose proof (sum_le_upper (x :: r) hi (fun c Hc => proj2 (Hb c Hc))) as Hs.
    rewrite Qmult_comm. exact Hs.
Qed.

(** The run of [cluster_font_sizes] on the sizes [raw] of the elements:
    the clusters of the loop partition [raw]. *)
Lemma clustered_sizes tolerance raw :
  0 <= tolerance ->
  clustered tolerance (sorted_desc (setQ raw)) raw
    (rounds <- cluster_loop tolerance (sorted_desc (setQ raw)) ;;
     Ok (sorted_desc (map snd rounds))).
Proof.
  intros Htol.
  pose proof (observed_descending raw) as Hd.
  destruct (clustering_ok_descending tolerance _ Htol Hd)
    as [rounds [Hloop [Heq [Hcat [Hpart [Hmeans Hdesc]]]]]].
  exists rounds. split; [exact Hloop|]. split; [exact Heq|].
  assert (Hmem : forall c s, In c (map fst rounds) -> In s c ->
                             In s (sorted_desc (setQ raw))).
  { intros c s Hc Hs. rewrite <- Hcat. apply List.in_concat.
    exists c. split; assumption. }
  split; [split|split].
  - intros x Hx. destruct (setQ_represents raw x Hx) as [y [Hy Hyx]].
    assert (Hy' : In y (sorted_desc (setQ raw)))
      by (unfold sorted_desc; apply sorted_In; exact Hy).
    destruct (Hpart y Hy') as [i [[c [Hi Hyc]] Huniq]].
    exists i. split.
    + exists c, y. split; [exact Hi|]. split; assumption.
    + intros j [c' [s [Hj [Hs Hsx]]]]. apply Huniq.
      exists c'. split; [exact Hj|].
      assert (Hs' : In s (sorted_desc (setQ raw)))
        by (apply (Hmem c'); [apply (nth_error_In _ _ Hj) | exact Hs]).
      assert (E : s = y)
        by (apply (descending_eq _ _ _ Hd Hs' Hy'); rewrite Hsx, Hyx;
            reflexivity).
      rewrite <- E. exact Hs.
  - intros c s Hc Hs. exists s. split; [|reflexivity].
    apply setQ_In. apply (sorted_In _ (fun x y => Qle_bool y x)).
    apply (Hmem c s Hc Hs).
  - apply Forall_forall. intros r Hr. rewrite Forall_forall in Hmeans.
    apply mean_between. apply Hmeans, Hr.
  - exact Hdesc.
Qed.


End Cluster.

(** ** A header on eight of ten pages, end to end *)

Module EndToEnd.
Import Py Shared Spec Examples Facts Loops.

Lemma pages_bound (doc : list V1.TextElement) :
  (forall el, In el doc -> (1 <= V1.page_num el <= 10)%Z) ->
  (Spec.pages_with_text doc <= 10)%nat.
Proof.
  intros H. unfold Spec.pages_with_text, setZ.
  change 10%nat with (List.length (map Z.of_nat (seq 1 10))).
  apply NoDup_incl_length; [apply NoDup_nodup|].
  intros z Hz. apply nodup_In in Hz. apply in_map_iff in Hz.
  destruct Hz as [el [<- Hel]]. apply H in Hel.
  apply in_map_iff. exists (Z.to_nat (V1.page_num el)).
  split; [lia|]. apply in_seq. lia.
Qed.

Lemma fold_Qmaxb_In r : forall x, In (fold_left Qmaxb r x) (x :: r).
Proof.
  induction r as [|y r IH]; intros x; simpl; [left; reflexivity|].
  destruct (IH (Qmaxb x y)) as [H|H].
  - unfold Qmaxb in H at 1. destruct (Qltb x y); [right; left|left]; exact H.
  - right. right. exact H.
Qed.

Lemma max_seq_In l m : max_seq l = Ok m -> In m l.
Proof.
  destruct l as [|x r]; simpl; intros H; [discriminate|].
  injection H as <-. apply fold_Qmaxb_In.
Qed.

Lemma max_seq_Ok x r : exists m, max_seq (x :: r) = Ok m.
Proof. eexists. reflexivity. Qed.

(** The title of the first iteration is empty or the text of one of the
    elements. *)
Lemma V1_title_source els :
  exists t,
    V1.detect_title els = Ok t /\
    (t = EmptyString \/ exists el, In el els /\ V1.text el = t).
Proof.
  unfold V1.detect_title.
  destruct (filter (fun el => (V1.page_num el =? 1)%Z) els) as [|e0 fp] eqn:F.
  - exists EmptyString. split; [reflexivity | left; reflexivity].
  - destruct (max_seq_Ok (V1.font_size e0) (map V1.font_size fp)) as [m Hm].
    change (max_seq (map V1.font_size (e0 :: fp)) = Ok m) in Hm.
    rewrite Hm. cbv beta iota delta [bind].
    assert (Hmax : exists el, In el (e0 :: fp) /\ V1.font_size el = m).
    { apply max_seq_In in Hm. apply in_map_iff in Hm.
      destruct Hm as [el [Hfs Hel]]. exists el. split; assumption. }
    destruct Hmax as [el [Hel Hfs]].
    match goal with
    | |- context [filter ?p (e0 :: fp)] => set (cands := filter p (e0 :: fp))
    end.
    assert (Hc : In el cands).
    { apply filter_In. split; [exact Hel|]. rewrite Hfs.
      apply Qltb_lt. rewrite Qabs_pos; lra. }
    destruct (sorted _ cands) as [|c rest] eqn:S.
    + exfalso. apply (sorted_In _ (fun a b => Qle_bool (V1.score a) (V1.score b)))
        in Hc. rewrite S in Hc. exact Hc.
    + exists (V1.text c). split; [reflexivity|]. right. exists c.
      split; [|reflexivity].
      assert (Hin : In c cands).
      { apply (sorted_In _ (fun a b => Qle_bool (V1.score a) (V1.score b))).
        rewrite S. left. reflexivity. }
      apply filter_In in Hin. destruct Hin as [Hin _].
      rewrite <- F in Hin. apply filter_In in Hin. tauto.
Qed.

(** Every entry of the outline of the first iteration carries the text
    of one of the elements. *)
Lemma V1_outline_source els font_clusters title_font_size e :
  In e (V1.assign_headings els font_clusters title_font_size) ->
  exists el, In el els /\ entry_text e = V1.text el.
Proof.
  unfold V1.assign_headings, V1.emitted. intros H.
  apply in_map_iff in H. destruct H as [[el e'] [Heq Hin]].
  simpl in Heq. subst e'.
  apply V1_emitted_inv in Hin. destruct Hin as [Hel [last0 [lv [_ He]]]].
  exists el. split; [apply sorted_In in Hel; exact Hel|].
  rewrite He. reflexivity.
Qed.

(** On ten pages or fewer the float [0.7 * num_pages] stays below 8. *)
Lemma share_of_ten_pages n :
  (n <= 10)%nat -> fmul_int float_07 (Z.of_nat n) < Q_of_nat 8.
Proof.
  intros H.
  do 11 (destruct n as [|n]; [vm_compute; reflexivity|]). lia.
Qed.

(** The first iteration's filter removes every element that carries the
    header. *)
Lemma V1_header_removed doc el :
  header_on_8_of_10 doc ->
  In el (V1.remove_header_footer doc 50 750) ->
  contains confidential (V1.text el) = false.
Proof.
  intros [Hpages [Hcount Honly]] Hin.
  apply Filter.V1_filter_spec in Hin. destruct Hin as [Hdoc [Htop _]].
  apply not_true_is_false. intros Hc.
  destruct (Honly el Hdoc Hc) as [Htext Hy].
  apply Htop. split; [exact Hy|].
  rewrite Htext, Hcount.
  apply share_of_ten_pages. apply (pages_bound doc Hpages).
Qed.

End EndToEnd.

(** ** The matcher and the numbering patterns *)

Module Numbering.
Import Py Shared Spec Examples Facts.

Open Scope string_scope.

(** *** The greedy star *)

Lemma star_first (A : Type) p s (k : string -> option A) v :
  k (skip p s) = Some v -> star p s k = Some v.
Proof.
  induction s as [|c r IH]; simpl; intros H; [exact H|].
  destruct (p c); [|exact H]. rewrite (IH H). reflexivity.
Qed.

Lemma star_fail (A : Type) p s (k : string -> option A) :
  k (skip p s) = None ->
  (forall c r, p c = true -> k (String c r) = None) ->
  star p s k = None.
Proof.
  intros Hend Hin. induction s as [|c r IH]; simpl in *; [exact Hend|].
  destruct (p c) eqn:E; [|exact Hend].
  rewrite (IH Hend). simpl. apply Hin. exact E.
Qed.

Lemma star_total (A : Type) p s (k : string -> option A) :
  (forall t, k t <> None) -> star p s k <> None.
Proof.
  intros H. destruct (k (skip p s)) as [v|] eqn:E.
  - rewrite (star_first _ p s k v E). discriminate.
  - exfalso. apply (H _ E).
Qed.

(** *** Characters *)

Lemma digit_not_dot c : is_digit c = true -> is_char "."%char c = false.
Proof.
  destruct c as [[] [] [] [] [] [] [] []]; try discriminate; reflexivity.
Qed.

Lemma digit_not_space c : is_digit c = true -> is_space c = false.
Proof.
  destruct c as [[] [] [] [] [] [] [] []]; try discriminate; reflexivity.
Qed.

Lemma digit_not_sep c : is_digit c = true -> V1.is_sep c = false.
Proof.
  destruct c as [[] [] [] [] [] [] [] []]; try discriminate; reflexivity.
Qed.

Lemma is_char_eq a c : is_char a c = true -> c = a.
Proof. unfold is_char. intros H. apply Ascii.eqb_eq in H. symmetry. exact H. Qed.

(** *** Counting the dots of what a path consumed *)

Lemma length_app a b :
  String.length (a ++ b) = (String.length a + String.length b)%nat.
Proof. induction a as [|c a IH]; simpl; [reflexivity|]. rewrite IH. reflexivity. Qed.

Lemma app_assoc a b c : (a ++ b) ++ c = a ++ (b ++ c).
Proof. induction a as [|x a IH]; simpl; [reflexivity|]. rewrite IH. reflexivity. Qed.

Lemma consumed_app a b : consumed (a ++ b) b = a.
Proof.
  unfold consumed. rewrite length_app.
  replace (String.length a + String.length b - String.length b)%nat
    with (String.length a) by lia.
  induction a as [|c a IH]; simpl.
  - destruct b; reflexivity.
  - rewrite IH. reflexivity.
Qed.

Lemma count_app c a b : count c (a ++ b) = (count c a + count c b)%nat.
Proof.
  induction a as [|d a IH]; simpl; [reflexivity|]. rewrite IH. lia.
Qed.

(** The digits in front of [skip is_digit s] hold no dot. *)
Lemma skip_digits_split s :
  exists d, s = d ++ skip is_digit s /\ count "."%char d = 0%nat.
Proof.
  induction s as [|c r [d [Hd Hc]]]; simpl.
  - exists "". split; reflexivity.
  - destruct (is_digit c) eqn:E.
    + exists (String c d). split; [simpl; f_equal; exact Hd|].
      simpl. rewrite Hc.
      apply digit_not_dot in E. unfold is_char in E.
      rewrite Ascii.eqb_sym in E. rewrite E. reflexivity.
    + exists "". split; reflexivity.
Qed.

Lemma next_segment_split x x' :
  next_segment x = Some x' ->
  exists d, x = d ++ x' /\ count "."%char d = 1%nat.
Proof.
  unfold next_segment. destruct x as [|c [|e r]]; try discriminate.
  destruct (is_char "."%char c) eqn:Ec; [|discriminate].
  destruct (is_digit e) eqn:Ee; [|discriminate]. simpl.
  intros H. injection H as <-.
  destruct (skip_digits_split r) as [d [Hd Hc]].
  exists (String c (String e d)). split.
  - simpl. do 2 f_equal. exact Hd.
  - simpl. rewrite Hc. apply is_char_eq in Ec. subst c. simpl.
    apply digit_not_dot in Ee. unfold is_char in Ee.
    rewrite Ascii.eqb_sym in Ee. rewrite Ee. reflexivity.
Qed.

Lemma path_rest_split s n rest :
  path_rest s = Some (n, rest) ->
  exists d, s = d ++ rest /\ (count "."%char d + 1)%nat = n.
Proof.
  unfold path_rest. destruct s as [|c r]; [discriminate|].
  destruct (is_digit c) eqn:Ec; [|discriminate].
  destruct (skip_digits_split r) as [d1 [Hd1 Hc1]].
  assert (Hc : count "."%char (String c d1) = 0%nat).
  { simpl. rewrite Hc1. apply digit_not_dot in Ec. unfold is_char in Ec.
    rewrite Ascii.eqb_sym in Ec. rewrite Ec. reflexivity. }
  destruct (next_segment (skip is_digit r)) as [x2|] eqn:E1.
  - destruct (next_segment_split _ _ E1) as [d2 [Hd2 Hc2]].
    destruct (next_segment x2) as [x3|] eqn:E2.
    + destruct (next_segment_split _ _ E2) as [d3 [Hd3 Hc3]].
      intros H. injection H as <- <-.
      exists (String c d1 ++ d2 ++ d3). split.
      * rewrite !app_assoc. rewrite <- Hd3, <- Hd2. simpl.
        f_equal. exact Hd1.
      * rewrite !count_app, Hc, Hc2, Hc3. reflexivity.
    + intros H. injection H as <- <-.
      exists (String c d1 ++ d2). split.
      * rewrite app_assoc. rewrite <- Hd2. simpl.
        f_equal. exact Hd1.
      * rewrite count_app, Hc, Hc2. reflexivity.
  - intros H. injection H as <- <-.
    exists (String c d1). split; [simpl; f_equal; exact Hd1|].
    rewrite Hc. reflexivity.
Qed.

Lemma path_rest_level s n rest :
  path_rest s = Some (n, rest) ->
  V1.level_of_numbering (consumed s rest) = n /\ (1 <= n <= 3)%nat.
Proof.
  intros H. destruct (path_rest_split _ _ _ H) as [d [-> Hn]].
  rewrite consumed_app. unfold V1.level_of_numbering. rewrite Hn.
  assert (1 <= n <= 3)%nat.
  { unfold path_rest in H. destruct (d ++ rest) as [|c r]; [discriminate|].
    destruct (is_digit c); [|discriminate].
    destruct (next_segment _); [destruct (next_segment _)|];
      injection H as <- _; lia. }
  split; [|assumption].
  destruct (3 <? n)%nat eqn:E; [apply Nat.ltb_lt in E; lia | reflexivity].
Qed.

(** *** One segment [\.\d+] *)

Lemma dotted_unfold x (k : string -> option string) :
  rmatch V3.dotted x k =
  match x with
  | String c (String e r) =>
      if is_char "."%char c && is_digit e then star is_digit r k else None
  | _ => None
  end.
Proof.
  destruct x as [|c [|e r]]; unfold V3.dotted, V1.dot, Plus; cbn [rmatch].
  - reflexivity.
  - destruct (is_char "."%char c); reflexivity.
  - destruct (is_char "."%char c), (is_digit e); reflexivity.
Qed.

Lemma dotted_some x x' (k : string -> option string) v :
  next_segment x = Some x' -> k x' = Some v -> rmatch V3.dotted x k = Some v.
Proof.
  rewrite dotted_unfold. unfold next_segment.
  destruct x as [|c [|e r]]; try discriminate.
  destruct (is_char "."%char c && is_digit e); [|discriminate].
  intros H Hk. injection H as <-. apply star_first. exact Hk.
Qed.

Lemma dotted_none x (k : string -> option string) :
  next_segment x = None -> rmatch V3.dotted x k = None.
Proof.
  rewrite dotted_unfold. unfold next_segment.
  destruct x as [|c [|e r]]; try reflexivity.
  destruct (is_char "."%char c && is_digit e); [discriminate | reflexivity].
Qed.

Lemma dotted_fail x x' (k : string -> option string) :
  next_segment x = Some x' -> k x' = None ->
  (forall c r, is_digit c = true -> k (String c r) = None) ->
  rmatch V3.dotted x k = None.
Proof.
  rewrite dotted_unfold. unfold next_segment.
  destruct x as [|c [|e r]]; try discriminate.
  destruct (is_char "."%char c && is_digit e); [|discriminate].
  intros H Hk Hd. injection H as <-. apply star_fail; assumption.
Qed.

Lemma next_segment_digit c r :
  is_digit c = true -> next_segment (String c r) = None.
Proof.
  intros H. unfold next_segment. destruct r; [reflexivity|].
  rewrite (digit_not_dot _ H). reflexivity.
Qed.

Lemma next_segment_dot x x' :
  next_segment x = Some x' ->
  exists e r, x = String "."%char (String e r) /\ is_digit e = true.
Proof.
  unfold next_segment. destruct x as [|c [|e r]]; try discriminate.
  destruct (is_char "."%char c) eqn:Ec; [|discriminate].
  destruct (is_digit e) eqn:Ee; [|discriminate].
  intros _. apply is_char_eq in Ec. subst c. exists e, r.
  split; [reflexivity | exact Ee].
Qed.

(** *** The path [\d+(\.\d+){0,2}] in front of a continuation *)

Lemma path_body_unfold s (k : string -> option string) :
  rmatch path_body s k =
  match s with
  | String c r =>
      if is_digit c
      then star is_digit r
             (fun y =>
                orelse (rmatch V3.dotted y
                          (fun z => orelse (rmatch V3.dotted z k) (k z)))
                       (k y))
      else None
  | EmptyString => None
  end.
Proof.
  destruct s as [|c r]; [reflexivity|].
  unfold path_body, Plus, Upto2. cbn [rmatch].
  destruct (is_digit c); reflexivity.
Qed.

Lemma path_first s n rest (k : string -> option string) v :
  path_rest s = Some (n, rest) -> k rest = Some v ->
  rmatch path_body s k = Some v.
Proof.
  rewrite path_body_unfold. unfold path_rest.
  destruct s as [|c r]; [discriminate|].
  destruct (is_digit c); [|discriminate].
  intros H Hk. apply star_first.
  destruct (next_segment (skip is_digit r)) as [x2|] eqn:E1.
  - erewrite dotted_some; [reflexivity | exact E1 |].
    destruct (next_segment x2) as [x3|] eqn:E2; injection H as <- <-.
    + erewrite dotted_some; [reflexivity | exact E2 | exact Hk].
    + rewrite (dotted_none _ _ E2). exact Hk.
  - injection H as <- <-. rewrite (dotted_none _ _ E1). exact Hk.
Qed.

Lemma path_none s (k : string -> option string) :
  path_rest s = None -> rmatch path_body s k = None.
Proof.
  rewrite path_body_unfold. unfold path_rest.
  destruct s as [|c r]; [reflexivity|].
  destruct (is_digit c); [|reflexivity].
  destruct (next_segment _); [destruct (next_segment _)|]; discriminate.
Qed.

Lemma path_fail s n rest (k : string -> option string) :
  path_rest s = Some (n, rest) -> k rest = None ->
  (forall c r, is_digit c = true -> k (String c r) = None) ->
  (forall r, k (String "."%char r) = None) ->
  rmatch path_body s k = None.
Proof.
  rewrite path_body_unfold. unfold path_rest.
  destruct s as [|c r]; [discriminate|].
  destruct (is_digit c); [|discriminate].
  intros H Hk Hdigit Hdot.
  assert (Hinner : forall d t, is_digit d = true ->
            orelse (rmatch V3.dotted (String d t) k) (k (String d t)) = None).
  { intros d t Hd.
    rewrite (dotted_none _ _ (next_segment_digit d t Hd)). simpl.
    apply Hdigit. exact Hd. }
  apply star_fail.
  - destruct (next_segment (skip is_digit r)) as [x2|] eqn:E1.
    + destruct (next_segment_dot _ _ E1) as [e [r2 [Hx1 _]]].
      replace (k (skip is_digit r)) with (@None string)
        by (rewrite Hx1; symmetry; apply Hdot).
      rewrite (dotted_fail _ _ _ E1); [reflexivity | | exact Hinner].
      destruct (next_segment x2) as [x3|] eqn:E2; injection H as <- <-.
      * destruct (next_segment_dot _ _ E2) as [e' [r3 [Hx2 _]]].
        replace (k x2) with (@None string)
          by (rewrite Hx2; symmetry; apply Hdot).
        rewrite (dotted_fail _ _ _ E2); [reflexivity | exact Hk | exact Hdigit].
      * rewrite (dotted_none _ _ E2). exact Hk.
    + injection H as <- <-. rewrite (dotted_none _ _ E1). exact Hk.
  - intros d t Hd.
    rewrite (dotted_none _ _ (next_segment_digit d t Hd)). simpl.
    apply Hdigit. exact Hd.
Qed.

(** *** The three analyzers, read off the greedy path *)

Lemma V1_numbering t :
  V1.find_numbering_level t =
  match path_rest (strip t) with
  | Some (n, _) => Some n
  | None => None
  end.
Proof.
  unfold V1.find_numbering_level.
  replace (re_match V1.numbering_re (strip t))
    with (rmatch path_body (strip t)
            (fun rest =>
               match star V1.is_sep rest always with
               | Some _ => Some (consumed (strip t) rest)
               | None => None
               end)) by reflexivity.
  destruct (path_rest (strip t)) as [[n rest]|] eqn:E.
  - erewrite path_first; [| exact E |].
    + f_equal. apply (path_rest_level _ _ _ E).
    + destruct (star V1.is_sep rest always) eqn:S; [reflexivity|].
      exfalso. revert S. apply star_total. discriminate.
  - rewrite (path_none _ _ E). reflexivity.
Qed.

Lemma V2_numbering t :
  V2.find_numbering_level t =
  match path_rest (strip t) with
  | Some (n, rest) => if sep_follows rest then Some n else None
  | None => None
  end.
Proof.
  unfold V2.find_numbering_level.
  set (k1 := fun rest : string =>
               match rest with
               | String c r =>
                   if V2.is_sep c then star V2.is_sep r always else None
               | EmptyString => None
               end).
  replace (re_match V2.numbering_re (strip t))
    with (rmatch path_body (strip t)
            (fun rest =>
               match k1 rest with
               | Some _ => Some (consumed (strip t) rest)
               | None => None
               end)) by reflexivity.
  destruct (path_rest (strip t)) as [[n rest]|] eqn:E.
  - destruct (sep_follows rest) eqn:S.
    + erewrite path_first; [| exact E |].
      * f_equal. apply (path_rest_level _ _ _ E).
      * destruct rest as [|c r]; [discriminate|]. simpl in S.
        unfold k1, V2.is_sep. rewrite S.
        destruct (star V1.is_sep r always) eqn:S'; [reflexivity|].
        exfalso. revert S'. apply star_total. discriminate.
    + rewrite (path_fail _ _ _ _ E); [reflexivity | | |].
      * destruct rest as [|c r]; [reflexivity|]. simpl in S.
        unfold k1, V2.is_sep. rewrite S. reflexivity.
      * intros c r Hc. unfold k1, V2.is_sep.
        rewrite (digit_not_sep _ Hc). reflexivity.
      * intros r. reflexivity.
  - rewrite (path_none _ _ E). reflexivity.
Qed.

(** *** The third analyzer *)

Lemma star_always p s : star p s always = Some "".
Proof. apply star_first. reflexivity. Qed.

Lemma tail_spec x :
  hit (rmatch V3.numbering_tail x always) = tail_follows x.
Proof.
  unfold V3.numbering_tail, V1.dot, Plus. cbn [rmatch].
  destruct x as [|c r]; [reflexivity|]. unfold tail_follows.
  destruct (is_char "."%char c) eqn:Ec.
  - destruct r as [|c2 r2].
    + cbn [orelse]. destruct (is_space c); [rewrite star_always|]; reflexivity.
    + destruct (is_space c2).
      * rewrite star_always. cbn [orelse hit].
        rewrite orb_true_r. reflexivity.
      * cbn [orelse]. rewrite orb_false_r.
        destruct (is_space c); [rewrite star_always|]; reflexivity.
  - cbn [orelse]. rewrite orb_false_r.
    destruct (is_space c); [rewrite star_always|]; reflexivity.
Qed.

Lemma tail_after_ok s t :
  tail_follows t = true -> tail_after s t = Some (consumed s t).
Proof.
  intros H. unfold tail_after. rewrite <- tail_spec in H.
  destruct (rmatch V3.numbering_tail t always); [reflexivity | discriminate].
Qed.

Lemma tail_after_no s t : tail_follows t = false -> tail_after s t = None.
Proof.
  intros H. unfold tail_after. rewrite <- tail_spec in H.
  destruct (rmatch V3.numbering_tail t always); [discriminate | reflexivity].
Qed.

Lemma tail_after_digit s c r : is_digit c = true -> tail_after s (String c r) = None.
Proof.
  intros H. apply tail_after_no. unfold tail_follows.
  rewrite (digit_not_space _ H), (digit_not_dot _ H). reflexivity.
Qed.

Lemma tail_after_segment s x x' : next_segment x = Some x' -> tail_after s x = None.
Proof.
  intros H. destruct (next_segment_dot _ _ H) as [e [r [-> He]]].
  apply tail_after_no. unfold tail_follows.
  rewrite (digit_not_space _ He). reflexivity.
Qed.

Lemma pattern1_unfold c r :
  re_match (nth 0 V3.patterns Eps) (String c r) =
  if is_digit c then star is_digit r (tail_after (String c r)) else None.
Proof.
  unfold re_match, V3.patterns, nth, Plus. cbn [rmatch].
  destruct (is_digit c); reflexivity.
Qed.

Lemma pattern2_unfold c r :
  re_match (nth 1 V3.patterns Eps) (String c r) =
  if is_digit c
  then star is_digit r
         (fun y => rmatch V3.dotted y (tail_after (String c r)))
  else None.
Proof.
  unfold re_match, V3.patterns, nth, Plus. cbn [rmatch].
  destruct (is_digit c); reflexivity.
Qed.

Lemma pattern3_unfold c r :
  re_match (nth 2 V3.patterns Eps) (String c r) =
  if is_digit c
  then star is_digit r
         (fun y => rmatch V3.dotted y
                     (fun z => rmatch V3.dotted z (tail_after (String c r))))
  else None.
Proof.
  unfold re_match, V3.patterns, nth, Plus. cbn [rmatch].
  destruct (is_digit c); reflexivity.
Qed.

Lemma V3_first_match_unfold s :
  V3.find_numbering_level s =
  if hit (re_match (nth 0 V3.patterns Eps) (strip s)) then Some 1%nat
  else if hit (re_match (nth 1 V3.patterns Eps) (strip s)) then Some 2%nat
  else if hit (re_match (nth 2 V3.patterns Eps) (strip s)) then Some 3%nat
  else None.
Proof. reflexivity. Qed.

Lemma dotted_digit c r (k : string -> option string) :
  is_digit c = true -> rmatch V3.dotted (String c r) k = None.
Proof. intros H. apply dotted_none, next_segment_digit, H. Qed.

Lemma V3_numbering t :
  V3.find_numbering_level t =
  match path_rest (strip t) with
  | Some (n, rest) => if tail_follows rest then Some n else None
  | None => None
  end.
Proof.
  rewrite V3_first_match_unfold.
  destruct (strip t) as [|c r]; [reflexivity|].
  rewrite pattern1_unfold, pattern2_unfold, pattern3_unfold.
  unfold path_rest. destruct (is_digit c) eqn:Ec; [|reflexivity].
  set (s := String c r). set (x1 := skip is_digit r).
  destruct (next_segment x1) as [x2|] eqn:E1.
  - rewrite (star_fail _ is_digit r (tail_after s));
      [| apply (tail_after_segment s x1 x2 E1)
       | intros d u Hd; apply tail_after_digit; exact Hd ].
    cbn [hit].
    destruct (next_segment x2) as [x3|] eqn:E2.
    + rewrite (star_fail _ is_digit r
                 (fun y => rmatch V3.dotted y (tail_after s)));
        [| apply (dotted_fail _ _ _ E1);
           [ apply (tail_after_segment s x2 x3 E2)
           | intros d u Hd; apply tail_after_digit; exact Hd ]
         | intros d u Hd; apply dotted_digit; exact Hd ].
      cbn [hit].
      destruct (tail_follows x3) eqn:T.
      * rewrite (star_first _ is_digit r _ (consumed s x3)); [reflexivity|].
        apply (dotted_some _ _ _ _ E1). apply (dotted_some _ _ _ _ E2).
        apply tail_after_ok. exact T.
      * rewrite (star_fail _ is_digit r); [reflexivity | |].
        -- apply (dotted_fail _ _ _ E1).
           ++ apply (dotted_fail _ _ _ E2).
              ** apply tail_after_no. exact T.
              ** intros d u Hd. apply tail_after_digit. exact Hd.
           ++ intros d u Hd. apply dotted_digit. exact Hd.
        -- intros d u Hd. apply dotted_digit. exact Hd.
    + destruct (tail_follows x2) eqn:T.
      * rewrite (star_first _ is_digit r _ (consumed s x2)); [reflexivity|].
        apply (dotted_some _ _ _ _ E1). apply tail_after_ok. exact T.
      * rewrite (star_fail _ is_digit r
                   (fun y => rmatch V3.dotted y (tail_after s)));
          [| apply (dotted_fail _ _ _ E1);
             [ apply tail_after_no; exact T
             | intros d u Hd; apply tail_after_digit; exact Hd ]
           | intros d u Hd; apply dotted_digit; exact Hd ].
        cbn [hit].
        rewrite (star_fail _ is_digit r); [reflexivity | |].
        -- apply (dotted_fail _ _ _ E1).
           ++ apply dotted_none. exact E2.
           ++ intros d u Hd. apply dotted_digit. exact Hd.
        -- intros d u Hd. apply dotted_digit. exact Hd.
  - destruct (tail_follows x1) eqn:T.
    + rewrite (star_first _ is_digit r _ (consumed s x1)); [reflexivity|].
      apply tail_after_ok. exact T.
    + rewrite (star_fail _ is_digit r (tail_after s));
        [| apply tail_after_no; exact T
         | intros d u Hd; apply tail_after_digit; exact Hd ].
      cbn [hit].
      rewrite (star_fail _ is_digit r
                 (fun y => rmatch V3.dotted y (tail_after s)));
        [| apply dotted_none; exact E1
         | intros d u Hd; apply dotted_digit; exact Hd ].
      cbn [hit].
      rewrite (star_fail _ is_digit r); [reflexivity | |].
      * apply dotted_none. exact E1.
      * intros d u Hd. apply dotted_digit. exact Hd.
Qed.

(** *** The form "2.1 Something" *)

Lemma two_segment_path s :
  two_segment_form s = true ->
  exists r, path_rest s = Some (2%nat, String " "%char r).
Proof.
  unfold two_segment_form, path_rest.
  destruct s as [|c r]; [discriminate|].
  destruct (is_digit c); [|discriminate]. cbn [andb].
  destruct (skip is_digit r) as [|d [|e r2]]; try discriminate.
  destruct (is_char "."%char d && is_digit e) eqn:Ed; [|discriminate].
  cbn [andb].
  destruct (skip is_digit r2) as [|sp r3] eqn:X2; [discriminate|].
  intros H. apply is_char_eq in H. subst sp.
  exists r3. unfold next_segment. rewrite Ed, X2.
  destruct r3; reflexivity.
Qed.

Lemma two_segment_levels t :
  two_segment_form (strip t) = true ->
  V1.find_numbering_level t = Some 2%nat /\
  V2.find_numbering_level t = Some 2%nat /\
  V3.find_numbering_level t = Some 2%nat.
Proof.
  intros H. destruct (two_segment_path _ H) as [r Hr].
  rewrite V1_numbering, V2_numbering, V3_numbering, Hr.
  repeat split; reflexivity.
Qed.

Lemma V1_step_two_segments font_clusters levels last el lv :
  two_segment_form (strip (V1.text el)) = true ->
  snd (V1.heading_step font_clusters levels last el) = Some lv -> lv = H2.
Proof.
  intros Hform. destruct (two_segment_levels _ Hform) as [H1 _].
  unfold V1.heading_step. rewrite H1.
  destruct (V1.page_num el =? 1)%Z; [discriminate|].
  destruct (len (V1.text el) <? 2)%nat; [discriminate|].
  destruct (argmin _ font_clusters); [|discriminate].
  destruct (dict_get levels q); [|discriminate].
  destruct (endswith "." (V1.text el)); [discriminate|].
  cbn. intros H. injection H as <-. reflexivity.
Qed.

Lemma V2_step_two_segments levels title_lines page_offset single last el lv :
  two_segment_form (strip (V2.text el)) = true ->
  snd (V2.heading_step levels title_lines page_offset single last el)
    = Some lv ->
  lv = H2.
Proof.
  intros Hform. destruct (two_segment_levels _ Hform) as [_ [H2' _]].
  unfold V2.heading_step. rewrite H2'.
  destruct (V2.logical_page page_offset single el <? 0)%Z; [discriminate|].
  destruct ((V2.page_num el =? 1)%Z && negb (List.length title_lines =? 0)%nat
            && mem_str (V2.text el) title_lines); [discriminate|].
  destruct (len (V2.text el) <? 2)%nat; [discriminate|].
  destruct (argmin _ _) as [[cluster_val delta]|]; [|discriminate].
  destruct (Qgtb delta (3 # 10)); [discriminate|].
  destruct (dict_get levels cluster_val); [|discriminate].
  destruct (endswith "." (rstrip (V2.text el))); [discriminate|].
  destruct (12 <? split_len (V2.text el))%nat; [discriminate|].
  cbn [V2.override Nat.eqb level_order].
  destruct (2 <? last)%nat; [discriminate|].
  cbn. intros H. injection H as <-. reflexivity.
Qed.

Lemma V3_step_two_segments hs levels el lv :
  two_segment_form (strip (V1.text el)) = true ->
  V3.heading_step hs levels el = Some lv -> lv = H2.
Proof.
  intros Hform. destruct (two_segment_levels _ Hform) as [_ [_ H3']].
  unfold V3.heading_step. rewrite H3'.
  destruct (V1.page_num el =? 1)%Z; [discriminate|].
  destruct (negb (V3.is_heading_like (V1.text el))); [discriminate|].
  destruct (argmin _ hs); [|discriminate].
  destruct (Qgtb _ 1); [discriminate|].
  cbn. intros H. injection H as <-. reflexivity.
Qed.

End Numbering.

(** * The claims *)

Module Claims.
Import Py Shared Spec Examples Facts Loops.

(** C1.  On [review] the first iteration takes the title from the
    20-point line of page 1, hands the 30-point cluster to
    [assign_headings] as the title size, and maps 20 points, the size of
    the title, to H1; the section line of that size is emitted as H1. *)
Theorem title_size_mapped_to_H1_in_first_iteration :
  exists font_clusters,
    first_page_max (V1.remove_header_footer review 50 750) = Ok 20 /\
    V1.cluster_font_sizes (V1.remove_header_footer review 50 750) (5 # 10)
      = Ok font_clusters /\
    Forall2 Qeq font_clusters [30; 20; 11] /\
    dict_get (V1.font_size_to_level font_clusters
                (V1.max_or_zero font_clusters)) 20
      = Some H1 /\
    V1.process_pdf_file review
      = Ok (mkOutcome "Quarterly Review"
              [mkEntry H1 "Summary" 2;
               mkEntry H2 "Sales rose in every region" 2]).
Proof.
  eexists. split; [reflexivity|]. split; [vm_compute; reflexivity|].
  split; [repeat constructor; vm_compute; reflexivity|].
  split; vm_compute; reflexivity.
Qed.

(** In every iteration the size handed to [assign_headings] as the
    title size is never a key of the level dictionary: the first
    iteration keeps only the clusters farther than 0.3 from it, the
    second drops every cluster closer than 0.3 to it, the third keeps
    only the clusters farther than 0.5 from it.  The later iterations
    hand over the largest size of page 1; the first hands over the
    largest cluster of the document. *)
Lemma handed_title_size_not_a_key :
  forall (font_clusters : list Q) (title_size : Q),
    dict_get (V1.font_size_to_level font_clusters title_size) title_size
      = None /\
    (V2.truthy title_size = true ->
     dict_get (V2.levels_of font_clusters (Some title_size)) title_size
       = None) /\
    dict_get (V3.font_size_to_level font_clusters title_size) title_size
      = None.
Proof.
  intros font_clusters t.
  assert (Hzero : forall k, k == t -> Qabs (k - t) == 0).
  { intros k Hk. rewrite Hk. setoid_replace (t - t) with 0 by ring.
    reflexivity. }
  split; [|split].
  - destruct (dict_get (V1.font_size_to_level font_clusters t) t) eqn:E;
      [|reflexivity].
    exfalso. apply dict_get_key in E. destruct E as [k [Hin Hk]].
    apply V1_level_keys in Hin.
    unfold V1.heading_font_sizes, sorted_desc in Hin.
    apply sorted_In in Hin. apply filter_In in Hin.
    destruct Hin as [_ Hin]. unfold Qgtb in Hin. apply Qltb_lt in Hin.
    rewrite (Hzero k Hk) in Hin.
    revert Hin. apply Qle_not_lt. discriminate.
  - intros Ht.
    destruct (dict_get (V2.levels_of font_clusters (Some t)) t) eqn:E;
      [|reflexivity].
    exfalso. apply dict_get_key in E. destruct E as [k [Hin Hk]].
    unfold V2.levels_of in Hin. apply assign_tags_keys in Hin.
    destruct Hin as [[]|Hin].
    unfold V2.heading_clusters in Hin. apply filter_In in Hin.
    destruct Hin as [_ Hin]. apply negb_true_iff in Hin.
    unfold V2.is_title_size in Hin. rewrite Ht in Hin. simpl in Hin.
    apply Qltb_ge in Hin. rewrite (Hzero k Hk) in Hin.
    revert Hin. apply Qlt_not_le. reflexivity.
  - destruct (dict_get (V3.font_size_to_level font_clusters t) t) eqn:E;
      [|reflexivity].
    exfalso. apply dict_get_key in E. destruct E as [k [Hin Hk]].
    unfold V3.font_size_to_level in Hin. apply assign_levels_keys in Hin.
    destruct Hin as [[]|Hin].
    unfold V3.heading_font_sizes, sorted_desc in Hin.
    apply sorted_In in Hin. apply filter_In in Hin.
    destruct Hin as [_ Hin]. unfold Qgtb in Hin. apply Qltb_lt in Hin.
    rewrite (Hzero k Hk) in Hin.
    revert Hin. apply Qle_not_lt. discriminate.
Qed.

(** C2 as stated fails: the second iteration, run on a one-page
    document, emits the section line and the body line of page 1. *)
Lemma page1_emitted_on_single_page :
  exists out,
    Spec.V2_emitted_for 1 Examples.one_page_report = Ok out /\
    ~ Spec.V2_page1_excluded out.
Proof.
  eexists. split.
  - vm_compute. reflexivity.
  - intros H.
    refine (H (Examples.report_line "Introduction" 16 300 1)
              (mkEntry H1 "Introduction" 1) _ _).
    + vm_compute. left. reflexivity.
    + reflexivity.
Qed.

(** C2, as the code has it.  In the first iteration no element of
    physical page 1 is ever emitted; in the second iteration none is
    when the document is not treated as a single page and the page
    offset is at least 1, which is what [process_pdf_file] passes for
    every document of more than one page. *)
Theorem page1_exclusion_multi_page :
  forall (els1 : list V1.TextElement) (clusters1 : list Q) (title_size1 : Q)
         (els2 : list V2.TextElement) (clusters2 : list Q)
         (title_size2 : option Q) (title_lines : list string)
         (page_offset : Z),
    (1 <= page_offset)%Z ->
    Spec.V1_page1_excluded (V1.emitted els1 clusters1 title_size1) /\
    Spec.V2_page1_excluded
      (V2.emitted els2 clusters2 title_size2 title_lines page_offset false).
Proof.
  intros els1 clusters1 title_size1 els2 clusters2 title_size2 title_lines
         page_offset Hoff.
  split.
  - intros el e Hin Hpage. unfold V1.emitted in Hin.
    apply V1_emitted_inv in Hin. destruct Hin as [_ [last0 [lv [Hs _]]]].
    rewrite PageOne.V1_step_page1 in Hs by assumption. discriminate.
  - intros el e Hin Hpage. unfold V2.emitted in Hin.
    apply V2_emitted_inv in Hin. destruct Hin as [_ [last0 [lv [Hs _]]]].
    rewrite PageOne.V2_step_page1 in Hs by assumption. discriminate.
Qed.

Lemma page1_exclusion_multi_page_witness :
  (1 <= 1)%Z /\
  Spec.V1_page1_excluded
    (V1.emitted
       [V1.TextElement_init "Project Plan" 28 "Helvetica" false false 72 100 1;
        V1.TextElement_init "Scope" 16 "Helvetica" false false 72 100 2]
       [28; 16] 28) /\
  Spec.V2_page1_excluded
    (V2.emitted
       [V2.TextElement_init "Project Plan" 28 "Helvetica" false false
          72 100 300 30 1 0 0;
        V2.TextElement_init "Scope" 16 "Helvetica" false false
          72 100 300 20 2 0 0]
       [28; 16] (Some 28) ["Project Plan"%string] 1 false).
Proof.
  split; [lia|].
  apply (@page1_exclusion_multi_page
           [V1.TextElement_init "Project Plan" 28 "Helvetica" false false
              72 100 1;
            V1.TextElement_init "Scope" 16 "Helvetica" false false 72 100 2]
           [28; 16] 28).
  lia.
Defined.

(** C3 as stated fails: "ACME Corp" lies in the top band of all three
    pages, yet the first iteration keeps its occurrence at y0 = 400. *)
Lemma body_occurrence_survives :
  ~ Spec.removed_everywhere three_pages
      (V1.remove_header_footer three_pages 50 750) 50 750 (7 # 10).
Proof.
  intros H.
  refine (H "ACME Corp"%string _ quoted_header _ _).
  - vm_compute. reflexivity.
  - vm_compute. left. reflexivity.
  - reflexivity.
Qed.

(** C3, as the code has it.  The first and the second iteration remove
    an element exactly when it lies in the top band and its text occurs
    in the top band more often than the float [0.7 * num_pages] says, or
    the same for the bottom band; an occurrence outside the bands is
    kept.  The product is rounded to binary64: for 90 pages it lies
    below 63, so 63 occurrences are enough.  The third iteration removes
    every occurrence of a text exactly when the text occurs, anywhere,
    at least [max(3, 0.5 * pages)] times and has the look of a header or
    footer. *)
Theorem header_footer_removal_scope :
  forall (doc : list V1.TextElement) (doc2 : list V2.TextElement)
         (y_top y_bottom : Q) (num_pages : Z),
    Zmax_seq (map V2.page_num doc2) = Ok num_pages ->
    (forall el,
        In el (V1.remove_header_footer doc y_top y_bottom) <->
        In el doc /\
        ~ (V1.y0 el < y_top /\
           fmul_int float_07 (Z.of_nat (Spec.pages_with_text doc))
             < Q_of_nat (Spec.top_count doc y_top (V1.text el))) /\
        ~ (y_bottom < V1.y0 el /\
           fmul_int float_07 (Z.of_nat (Spec.pages_with_text doc))
             < Q_of_nat (Spec.bottom_count doc y_bottom (V1.text el)))) /\
    (exists out,
        V2.remove_header_footer doc2 y_top y_bottom = Ok out /\
        forall el,
          In el out <->
          In el doc2 /\
          ~ (V2.y0 el < y_top /\
             fmul_int float_07 num_pages
               < Q_of_nat
                   (count_occ string_dec
                      (map V2.text
                         (filter (fun e => Qltb (V2.y0 e) y_top) doc2))
                      (V2.text el))) /\
          ~ (y_bottom < V2.y0 el /\
             fmul_int float_07 num_pages
               < Q_of_nat
                   (count_occ string_dec
                      (map V2.text
                         (filter (fun e => Qgtb (V2.y0 e) y_bottom) doc2))
                      (V2.text el)))) /\
    (forall el,
        In el (V3.remove_header_footer doc) <->
        In el doc /\
        ~ (V3.repeat_threshold (Spec.pages_with_text doc)
             <= Q_of_nat (count_occ string_dec (map V1.text doc) (V1.text el))
           /\ V3.looks_like_header_footer (V1.text el) = true)).
Proof.
  intros doc doc2 y_top y_bottom num_pages Hmax. split; [|split].
  - intros el. apply Filter.V1_filter_spec.
  - apply Filter.V2_filter_spec. exact Hmax.
  - intros el. apply Filter.V3_filter_spec.
Qed.

Lemma header_footer_removal_scope_witness :
  Zmax_seq (map V2.page_num [running_header2 1; running_header2 2]) = Ok 2%Z /\
  (In quoted_header (V1.remove_header_footer three_pages 50 750) /\
   ~ In (running_header 2) (V1.remove_header_footer three_pages 50 750)) /\
  (Spec.pages_with_text ninety_pages = 90%nat /\
   Spec.top_count ninety_pages 50 "ACME Corp" = 63%nat /\
   (7 # 10) * 90 == 63 /\
   fmul_int float_07 90 < 63 /\
   ~ In (running_header 1) (V1.remove_header_footer ninety_pages 50 750)) /\
  exists out,
    V2.remove_header_footer [running_header2 1; running_header2 2] 50 750
      = Ok out.
Proof.
  destruct (@header_footer_removal_scope three_pages
              [running_header2 1; running_header2 2] 50 750 2 eq_refl)
    as [H1 [[out [H2 _]] _]].
  destruct (@header_footer_removal_scope ninety_pages
              [running_header2 1; running_header2 2] 50 750 2 eq_refl)
    as [H90 _].
  split; [reflexivity|]. split; [split|split].
  - apply (proj2 (H1 quoted_header)).
    split; [right; right; left; reflexivity|].
    split; intros [Hy _]; vm_compute in Hy; discriminate.
  - intros Hin. apply (proj1 (H1 (running_header 2))) in Hin.
    destruct Hin as [_ [Htop _]].
    apply Htop. split; vm_compute; reflexivity.
  - split; [vm_compute; reflexivity|]. split; [vm_compute; reflexivity|].
    split; [reflexivity|]. split; [vm_compute; reflexivity|].
    intros Hin. apply (proj1 (H90 (running_header 1))) in Hin.
    destruct Hin as [_ [Htop _]].
    apply Htop. split; vm_compute; reflexivity.
  - exists out. exact H2.
Defined.

(** C4.  The second iteration raises on a document without text
    elements: [remove_header_footer] takes [max] of an empty sequence of
    page numbers. *)
Theorem empty_document_raises_in_second_iteration :
  forall page_count : Z, V2.process_pdf_file page_count [] = Raise ValueError.
Proof.
  intros page_count. reflexivity.
Qed.

(** The first and the third iteration answer the empty title and the
    empty outline on such a document. *)
Lemma empty_document_first_and_third_iteration :
  V1.process_pdf_file [] = Ok (mkOutcome EmptyString []) /\
  V3.process_pdf_file [] = Ok (mkOutcome EmptyString []).
Proof.
  split; reflexivity.
Qed.

(** C5 as stated fails in the second iteration: a line whose font size
    is zero is left out of the sizes before the loop starts, so its size
    lies in no cluster the loop builds. *)
Lemma zero_size_in_no_cluster :
  ~ Spec.clustered (5 # 10) (V2.observed_sizes Examples.with_hairline)
      (map (fun el => round (V2.font_size el) 2) Examples.with_hairline)
      (V2.cluster_font_sizes Examples.with_hairline (5 # 10)).
Proof.
  intros [rounds [Hloop [_ [[Hin _] _]]]].
  vm_compute in Hloop. injection Hloop as <-.
  destruct (Hin (round 0 2)) as [i [[c [s [Hi [Hs Heq]]]] _]];
    [right; left; reflexivity|].
  destruct i as [|[|i]]; try discriminate.
  cbn [map fst nth_error] in Hi. injection Hi as <-.
  destruct Hs as [<-|[]]. vm_compute in Heq. discriminate.
Qed.

(** C5, as the code has it.  For every list of elements and every
    tolerance that is not negative, in each of the three iterations:
    the clustering loop ends without raising; the clusters it absorbs
    partition the rounded sizes of the elements (in the second
    iteration: of the elements whose size is not zero): the rounded
    size of every such element lies in exactly one cluster, and every
    member of a cluster is the rounded size of such an element; the
    answer lists one value for every cluster, between two members of
    the cluster, and is strictly descending. *)
Theorem cluster_partition :
  forall (els1 : list V1.TextElement) (els2 : list V2.TextElement)
         (tolerance : Q),
    0 <= tolerance ->
    Spec.clustered tolerance (V1.observed_sizes 2 els1)
      (map (fun el => round (V1.font_size el) 2) els1)
      (V1.cluster_font_sizes els1 tolerance) /\
    Spec.clustered tolerance (V2.observed_sizes els2)
      (map (fun el => round (V2.font_size el) 2)
         (filter (fun el => V2.truthy (V2.font_size el)) els2))
      (V2.cluster_font_sizes els2 tolerance) /\
    Spec.clustered tolerance (V1.observed_sizes 1 els1)
      (map (fun el => round (V3.font_size el) 1) els1)
      (V3.cluster_font_sizes els1 tolerance).
Proof.
  intros els1 els2 tolerance Htol. split; [|split].
  - apply (Cluster.clustered_sizes tolerance
             (map (fun el => round (V1.font_size el) 2) els1) Htol).
  - apply (Cluster.clustered_sizes tolerance
             (map (fun el => round (V2.font_size el) 2)
                (filter (fun el => V2.truthy (V2.font_size el)) els2)) Htol).
  - apply (Cluster.clustered_sizes tolerance
             (map (fun el => round (V1.font_size el) 1) els1) Htol).
Qed.

Lemma cluster_partition_witness :
  0 <= 5 # 10 /\
  Spec.clustered (5 # 10) (V1.observed_sizes 2 review)
    (map (fun el => round (V1.font_size el) 2) review)
    (V1.cluster_font_sizes review (5 # 10)) /\
  Spec.clustered (5 # 10) (V2.observed_sizes Examples.with_hairline)
    (map (fun el => round (V2.font_size el) 2)
       (filter (fun el => V2.truthy (V2.font_size el))
          Examples.with_hairline))
    (V2.cluster_font_sizes Examples.with_hairline (5 # 10)) /\
  Spec.clustered (5 # 10) (V1.observed_sizes 1 review)
    (map (fun el => round (V3.font_size el) 1) review)
    (V3.cluster_font_sizes review (5 # 10)).
Proof.
  split; [discriminate|].
  apply (cluster_partition review Examples.with_hairline (5 # 10)).
  discriminate.
Defined.

(** C6 as stated fails in each iteration: the first answers depth 1 for
    a text that starts with a digit and has no separator at all; the
    second gives no signal for "1. Introduction"; the third gives none
    when a colon follows the number. *)
Lemma numbering_contract_violated :
  (V1.find_numbering_level "3rd Quarter Results" = Some 1%nat /\
   Spec.contract_level "3rd Quarter Results" = None) /\
  (V2.find_numbering_level "1. Introduction" = None /\
   Spec.contract_level "1. Introduction" = Some 1%nat) /\
  (V3.find_numbering_level "2.1: Scope" = None /\
   Spec.contract_level "2.1: Scope" = Some 2%nat).
Proof.
  repeat split; vm_compute; reflexivity.
Qed.

(** C6, as the code has it.  Read the trimmed text greedily as a path of
    dot-separated integers of at most three segments.  The first
    iteration answers the number of segments read whenever there is such
    a path, with or without a separator; the second answers it exactly
    when a space, tab, dash or colon follows the path; the third exactly
    when white space, or a dot and white space, follows it; each gives
    no signal for every other string. *)
Theorem numbering_analyzers_by_greedy_path :
  forall t : string,
    V1.find_numbering_level t =
      match Spec.path_rest (strip t) with
      | Some (n, _) => Some n
      | None => None
      end /\
    V2.find_numbering_level t =
      match Spec.path_rest (strip t) with
      | Some (n, rest) => if Spec.sep_follows rest then Some n else None
      | None => None
      end /\
    V3.find_numbering_level t =
      match Spec.path_rest (strip t) with
      | Some (n, rest) => if Spec.tail_follows rest then Some n else None
      | None => None
      end.
Proof.
  intros t. split; [|split].
  - apply Numbering.V1_numbering.
  - apply Numbering.V2_numbering.
  - apply Numbering.V3_numbering.
Qed.

(** C7.  In each of the three iterations, an entry emitted for an
    element whose trimmed text has the form "2.1 Something" (digits, a
    dot, digits, a space) has level H2, whatever the font size of the
    element and whatever the clusters are. *)
Theorem numbering_override_two_segments :
  forall (els1 : list V1.TextElement) (clusters1 : list Q) (title_size1 : Q)
         (els2 : list V2.TextElement) (clusters2 : list Q)
         (title_size2 : option Q) (title_lines : list string)
         (page_offset : Z) (is_single_page : bool)
         (els3 : list V3.TextElement) (clusters3 : list Q) (title_size3 : Q),
    (forall el e,
        In (el, e) (V1.emitted els1 clusters1 title_size1) ->
        Spec.two_segment_form (strip (V1.text el)) = true ->
        entry_level e = H2) /\
    (forall el e,
        In (el, e) (V2.emitted els2 clusters2 title_size2 title_lines
                      page_offset is_single_page) ->
        Spec.two_segment_form (strip (V2.text el)) = true ->
        entry_level e = H2) /\
    (forall el e,
        In (el, e) (V3.emitted els3 clusters3 title_size3) ->
        Spec.two_segment_form (strip (V1.text el)) = true ->
        entry_level e = H2).
Proof.
  intros. split; [|split]; intros el e Hin Hform.
  - apply V1_emitted_inv in Hin. destruct Hin as [_ [last0 [lv [Hs ->]]]].
    simpl. apply (Numbering.V1_step_two_segments _ _ _ _ _ Hform Hs).
  - apply V2_emitted_inv in Hin. destruct Hin as [_ [last0 [lv [Hs ->]]]].
    simpl. apply (Numbering.V2_step_two_segments _ _ _ _ _ _ _ Hform Hs).
  - apply V3_emitted_inv in Hin. destruct Hin as [_ [lv [Hs ->]]].
    simpl. apply (Numbering.V3_step_two_segments _ _ _ _ Hform Hs).
Qed.

Lemma numbering_override_two_segments_witness :
  (In (numbered_line, mkEntry H2 "2.1 Something" 2)
      (V1.emitted [numbered_line] five_clusters 24) /\
   In (numbered_line2, mkEntry H2 "2.1 Something" 1)
      (V2.emitted [numbered_line2] five_clusters (Some 24) [] 1 false) /\
   In (numbered_line, mkEntry H2 "2.1 Something" 2)
      (V3.emitted [numbered_line] five_clusters 24)) /\
  (two_segment_form (strip (V1.text numbered_line)) = true /\
   two_segment_form (strip (V2.text numbered_line2)) = true) /\
  dict_get (V1.font_size_to_level five_clusters 24) 18 = Some H1 /\
  (entry_level (mkEntry H2 "2.1 Something" 2) = H2 /\
   entry_level (mkEntry H2 "2.1 Something" 1) = H2).
Proof.
  assert (Hin1 : In (numbered_line, mkEntry H2 "2.1 Something" 2)
                    (V1.emitted [numbered_line] five_clusters 24))
    by (vm_compute; left; reflexivity).
  assert (Hin2 : In (numbered_line2, mkEntry H2 "2.1 Something" 1)
                    (V2.emitted [numbered_line2] five_clusters (Some 24) []
                       1 false))
    by (vm_compute; left; reflexivity).
  assert (Hin3 : In (numbered_line, mkEntry H2 "2.1 Something" 2)
                    (V3.emitted [numbered_line] five_clusters 24))
    by (vm_compute; left; reflexivity).
  destruct (numbering_override_two_segments
              [numbered_line] five_clusters 24
              [numbered_line2] five_clusters (Some 24) [] 1 false
              [numbered_line] five_clusters 24) as [T1 [T2 T3]].
  split; [split; [exact Hin1 | split; [exact Hin2 | exact Hin3]]|].
  split; [split; reflexivity|]. split; [reflexivity|]. split.
  - apply (T1 numbered_line _ Hin1). reflexivity.
  - apply (T2 numbered_line2 _ Hin2). reflexivity.
Defined.

(** C8 as stated fails: on [ten_pages] the third iteration detects the
    title before it filters, and its filter keeps a repeated text of 18
    characters without a keyword; the header is the title and is
    emitted as an entry of the outline. *)
Lemma header_reaches_third_iteration_result :
  Spec.header_on_8_of_10 Examples.ten_pages /\
  exists r,
    V3.process_pdf_file Examples.ten_pages = Ok r /\
    ~ Spec.absent_from Spec.confidential r.
Proof.
  split.
  - split; [|split].
    + intros el Hin. vm_compute in Hin.
      repeat (destruct Hin as [<-|Hin]; [vm_compute; split; discriminate|]).
      contradiction.
    + reflexivity.
    + intros el Hin. vm_compute in Hin.
      repeat (destruct Hin as [<-|Hin];
              [vm_compute; first [discriminate
                                 | intros _; split; reflexivity]|]).
      contradiction.
  - eexists. split; [vm_compute; reflexivity|].
    intros [Htitle _]. vm_compute in Htitle. discriminate.
Qed.

(** C8, as the code has it.  In the first iteration, for every document
    of ten pages in which "Confidential Draft" is the text of eight
    elements of the top band and part of no other text, the pipeline
    answers without raising, and the string is part of neither the
    title nor any entry of the outline. *)
Theorem header_absent_from_first_iteration_result :
  forall doc : list V1.TextElement,
    Spec.header_on_8_of_10 doc ->
    exists r,
      V1.process_pdf_file doc = Ok r /\
      Spec.absent_from Spec.confidential r.
Proof.
  intros doc Hdoc. unfold V1.process_pdf_file.
  set (text_els := V1.remove_header_footer doc 50 750).
  assert (Hclean : forall el, In el text_els ->
                     contains Spec.confidential (V1.text el) = false)
    by (intros el; apply EndToEnd.V1_header_removed; exact Hdoc).
  destruct (EndToEnd.V1_title_source text_els) as [t [Ht Hsrc]].
  assert (Hcl : Spec.clustering_ok (5 # 10) (V1.observed_sizes 2 text_els)
                  (V1.cluster_font_sizes text_els (5 # 10))).
  { apply Cluster.clustering_ok_descending; [discriminate|].
    apply Cluster.observed_descending. }
  destruct Hcl as [rounds [_ [Hfc _]]].
  rewrite Ht, Hfc. cbv beta iota delta [bind].
  eexists. split; [reflexivity|]. split; simpl.
  - destruct Hsrc as [->|[el [Hel <-]]]; [reflexivity|].
    apply Hclean. exact Hel.
  - intros e He. apply EndToEnd.V1_outline_source in He.
    destruct He as [el [Hel ->]]. apply Hclean. exact Hel.
Qed.

Lemma header_absent_from_first_iteration_result_witness :
  Spec.header_on_8_of_10 Examples.ten_pages /\
  exists r,
    V1.process_pdf_file Examples.ten_pages = Ok r /\
    Spec.absent_from Spec.confidential r.
Proof.
  assert (H : Spec.header_on_8_of_10 Examples.ten_pages).
  { split; [|split].
    - intros el Hin. vm_compute in Hin.
      repeat (destruct Hin as [<-|Hin]; [vm_compute; split; discriminate|]).
      contradiction.
    - reflexivity.
    - intros el Hin. vm_compute in Hin.
      repeat (destruct Hin as [<-|Hin];
              [vm_compute; first [discriminate
                                 | intros _; split; reflexivity]|]).
      contradiction. }
  split; [exact H|].
  apply (header_absent_from_first_iteration_result Examples.ten_pages H).
Defined.

(** C9.  Strict structural guard of the second iteration: a step whose
    level ranks above (is less deep than) the last emitted rank emits
    nothing and leaves the last rank as it was, whatever it would have
    emitted otherwise; and the ranks of the entries of the outline never
    decrease along the outline. *)
Theorem strict_guard_ranks_nondecreasing :
  forall text_elements font_clusters title_font_size title_lines
         page_offset is_single_page,
    (forall levels last el,
        V2.heading_step levels title_lines page_offset is_single_page last el =
        match snd (V2.heading_step levels title_lines page_offset
                     is_single_page 0 el) with
        | Some lv =>
            if (level_order lv <? last)%nat then (last, None)
            else (level_order lv, Some lv)
        | None => (last, None)
        end) /\
    Sorted le
      (Spec.entry_ranks
         (V2.assign_headings text_elements font_clusters title_font_size
            title_lines page_offset is_single_page)).
Proof.
  intros. split.
  - intros. apply Guard.heading_step_guard.
  - unfold V2.assign_headings, V2.emitted, Spec.entry_ranks.
    rewrite map_map.
    pose proof (Guard.heading_loop_sorted
                  (V2.levels_of font_clusters title_font_size) title_lines
                  page_offset is_single_page
                  (sorted V2.reading_order text_elements) 0) as H.
    inversion H; subst. assumption.
Qed.

(** C10.  Third iteration: a heading font size that is third or later
    in the descending list of non-title clusters is mapped to H3, and an
    element past page 1 that looks like a heading, carries no numbering
    and has such a size as its closest heading size, within the match
    tolerance of 1.0, is emitted as an H3 entry. *)
Theorem smaller_clusters_collapse_to_H3 :
  forall (font_clusters : list Q) (title_font_size : Q) (i : nat) (fs : Q),
    nth_error (V3.heading_font_sizes font_clusters title_font_size) i
      = Some fs ->
    (2 <= i)%nat ->
    dict_get (V3.font_size_to_level font_clusters title_font_size) fs
      = Some H3 /\
    forall (text_elements : list V3.TextElement) (el : V3.TextElement),
      In el text_elements ->
      V3.page_num el <> 1%Z ->
      V3.is_heading_like (V3.text el) = true ->
      V3.find_numbering_level (V3.text el) = None ->
      argmin (fun s => Qabs (V3.font_size el - s))
             (V3.heading_font_sizes font_clusters title_font_size) = Some fs ->
      Qabs (V3.font_size el - fs) <= 1 ->
      In (mkEntry H3 (V3.text el) (V3.page_num el))
         (V3.assign_headings text_elements font_clusters title_font_size).
Proof.
  intros font_clusters title_font_size i fs Hn Hi.
  assert (Hmap : dict_get (V3.font_size_to_level font_clusters title_font_size)
                   fs = Some H3).
  { unfold V3.font_size_to_level.
    destruct (V3.heading_font_sizes font_clusters title_font_size)
      as [|a [|b r]]; destruct i as [|[|i]]; try lia; try discriminate.
    simpl in Hn. simpl. eapply assign_levels_H3; [|exact Hn]. lia. }
  split; [exact Hmap|].
  intros text_elements el Hin Hpage Hlike Hnum Hmin Hdiff.
  unfold V3.assign_headings, V3.emitted.
  apply (in_map snd _ (el, mkEntry H3 (V3.text el) (V3.page_num el))).
  apply V3_emitted_intro.
  - apply sorted_In. exact Hin.
  - unfold V3.heading_step.
    destruct (V3.page_num el =? 1)%Z eqn:E; [apply Z.eqb_eq in E; contradiction|].
    rewrite Hlike, Hmin, Hnum, Hmap.
    replace (Qgtb (Qabs (V3.font_size el - fs)) 1) with false; [reflexivity|].
    symmetry. apply Qltb_ge. exact Hdiff.
Qed.

Lemma smaller_clusters_collapse_to_H3_witness :
  dict_get (V3.font_size_to_level five_clusters 24) 14 = Some H3 /\
  In (mkEntry H3 "Background notes" 2)
     (V3.assign_headings [background_line] five_clusters 24).
Proof.
  destruct (@smaller_clusters_collapse_to_H3 five_clusters 24 2%nat 14)
    as [Hmap Hemit].
  - reflexivity.
  - lia.
  - split; [exact Hmap|].
    apply (Hemit [background_line] background_line).
    + left. reflexivity.
    + discriminate.
    + vm_compute. reflexivity.
    + vm_compute. reflexivity.
    + vm_compute. reflexivity.
    + vm_compute. discriminate.
Defined.

End Claims.

(** * Further properties of the code *)

(** ** Stripping *)

Module Strings.
Import Py Shared Spec Facts.

Local Open Scope string_scope.

Lemma blank_lstrip s : blank (lstrip s) = blank s.
Proof.
  induction s as [|c r IH]; simpl; [reflexivity|].
  destruct (is_space c) eqn:E; simpl; [exact IH|].
  rewrite E. reflexivity.
Qed.

Lemma rstrip_empty s : rstrip s = "" <-> blank s = true.
Proof.
  induction s as [|c r IH]; simpl; [tauto|].
  destruct (is_space c); simpl.
  - destruct (rstrip r) eqn:E; simpl.
    + split; intros _; [apply IH|]; reflexivity.
    + split; [discriminate|]. intros H. apply IH in H. discriminate.
  - split; discriminate.
Qed.

Lemma strip_empty s : strip s = "" <-> blank s = true.
Proof. unfold strip. rewrite rstrip_empty, blank_lstrip. tauto. Qed.

Lemma is_empty_strip s : is_empty (strip s) = blank s.
Proof.
  destruct (blank s) eqn:E.
  - apply strip_empty in E. rewrite E. reflexivity.
  - destruct (strip s) eqn:S; [|reflexivity].
    apply strip_empty in S. congruence.
Qed.

Lemma rstrip_idem s : rstrip (rstrip s) = rstrip s.
Proof.
  induction s as [|c r IH]; simpl; [reflexivity|].
  destruct (is_space c && is_empty (rstrip r)) eqn:E; [reflexivity|].
  simpl. rewrite IH, E. reflexivity.
Qed.

(** What [lstrip] returns does not begin with white space, and neither
    does what [rstrip] makes of it. *)
Lemma lstrip_no_lead s : no_lead (lstrip s).
Proof.
  induction s as [|c r IH]; simpl; [exact I|].
  destruct (is_space c) eqn:E; [exact IH | exact E].
Qed.

Lemma rstrip_no_lead s : no_lead s -> no_lead (rstrip s).
Proof.
  destruct s as [|c r]; simpl; [tauto|]. intros H. rewrite H. exact H.
Qed.

Lemma lstrip_fixed s : no_lead s -> lstrip s = s.
Proof.
  destruct s as [|c r]; simpl; [reflexivity|]. intros H. rewrite H.
  reflexivity.
Qed.

Lemma strip_no_lead s : no_lead (strip s).
Proof. apply rstrip_no_lead, lstrip_no_lead. Qed.

Lemma strip_idem s : strip (strip s) = strip s.
Proof.
  unfold strip at 1. rewrite (lstrip_fixed _ (strip_no_lead s)).
  unfold strip. apply rstrip_idem.
Qed.

(** What [rstrip] returns does not end with white space. *)
Lemma rstrip_no_trail s c : endswith c (rstrip s) = true -> is_space c = false.
Proof.
  induction s as [|d r IH]; simpl; [discriminate|].
  destruct (is_space d && is_empty (rstrip r)) eqn:E; [discriminate|].
  simpl. destruct (rstrip r) as [|e r'] eqn:R.
  - intros H. apply Ascii.eqb_eq in H. subst d.
    rewrite andb_true_r in E. exact E.
  - exact IH.
Qed.

Lemma blank_app a b : blank (a ++ b) = blank a && blank b.
Proof.
  induction a as [|c r IH]; simpl; [reflexivity|].
  rewrite IH, andb_assoc. reflexivity.
Qed.

Lemma blank_join_head sep t r : blank t = false -> blank (join sep (t :: r)) = false.
Proof.
  intros H. destruct r as [|u r]; simpl; [exact H|].
  rewrite blank_app, H. reflexivity.
Qed.

Lemma strip_not_blank s : blank s = false -> blank (strip s) = false.
Proof.
  intros H. rewrite <- is_empty_strip, strip_idem, is_empty_strip. exact H.
Qed.

End Strings.

(** ** The line builders *)

Module Extracted.
Import Py Shared Spec Facts Layout Strings.

Lemma enumerate_from_In (A : Type) (l : list A) :
  forall k i x,
    In (i, x) (enumerate_from k l) ->
    (k <= i < k + Z.of_nat (List.length l))%Z /\ In x l.
Proof.
  induction l as [|y r IH]; intros k i x H; simpl in H; [contradiction|].
  destruct H as [H|H].
  - injection H as <- <-. split; [simpl List.length; lia | left; reflexivity].
  - apply IH in H. destruct H as [Hi Hx].
    split; [simpl List.length; lia | right; exact Hx].
Qed.

(** *** First iteration *)

Lemma V1_span_element page_num sp el :
  In el (LinesV1.span_elements page_num sp) ->
  V1.text el = strip (span_text sp) /\
  blank (span_text sp) = false /\
  V1.page_num el = (page_num + 1)%Z /\
  V1.font_size el = span_size sp /\
  V1.x0 el = bbox0 sp /\ V1.y0 el = bbox1 sp.
Proof.
  unfold LinesV1.span_elements. rewrite is_empty_strip.
  destruct (blank (span_text sp)) eqn:E; [contradiction|].
  intros [<-|[]]. repeat split; reflexivity.
Qed.

Lemma V1_extract_In doc el :
  In el (LinesV1.extract_text_elements doc) ->
  exists page_num sp,
    (0 <= page_num < Z.of_nat (List.length doc))%Z /\
    In el (LinesV1.span_elements page_num sp).
Proof.
  unfold LinesV1.extract_text_elements. intros H.
  apply in_flat_map in H. destruct H as [[i page] [Hp H]].
  apply enumerate_from_In in Hp. destruct Hp as [Hi _].
  apply in_flat_map in H. destruct H as [b [_ H]].
  unfold LinesV1.block_elements in H. simpl fst in *.
  destruct (negb (block_type b =? 0)%Z); [contradiction|].
  apply in_flat_map in H. destruct H as [line [_ H]].
  apply in_flat_map in H. destruct H as [sp [_ H]].
  exists i, sp. split; [lia | exact H].
Qed.

(** *** Second iteration *)

Lemma span_step_fold spans :
  forall acc st,
    fold_left LinesV2.span_step spans (acc, st) =
    (acc ++ visible_texts spans,
     match st with
     | Some f => Some f
     | None => first_visible spans
     end).
Proof.
  induction spans as [|sp r IH]; intros acc st; simpl.
  - unfold visible_texts. simpl. rewrite app_nil_r.
    destruct st; reflexivity.
  - unfold LinesV2.span_step at 2. unfold visible_texts, first_visible, visible.
    simpl. destruct (is_empty (strip (span_text sp))) eqn:E; simpl.
    + apply IH.
    + rewrite IH. unfold visible_texts. rewrite <- app_assoc. simpl.
      destruct st; reflexivity.
Qed.

Lemma first_visible_texts spans sp :
  first_visible spans = Some sp ->
  exists t r, visible_texts spans = t :: r /\ t = strip (span_text sp)
              /\ blank t = false.
Proof.
  unfold first_visible, visible_texts.
  induction spans as [|x r IH]; simpl; [discriminate|].
  destruct (visible x) eqn:E.
  - intros H. injection H as <-. simpl. eexists. eexists.
    split; [reflexivity|]. split; [reflexivity|].
    unfold visible in E. rewrite is_empty_strip in E.
    apply negb_true_iff in E. apply strip_not_blank. exact E.
  - exact IH.
Qed.

Lemma first_visible_none spans :
  first_visible spans = None -> visible_texts spans = [].
Proof.
  unfold first_visible, visible_texts.
  induction spans as [|x r IH]; simpl; [reflexivity|].
  destruct (visible x); [discriminate | exact IH].
Qed.

(** The loop over the spans of a line, read as a whole. *)
Lemma V2_line_elements pg block_no line_no line :
  LinesV2.line_elements pg block_no line_no line =
  match first_visible (line_spans line) with
  | None => []
  | Some sp =>
      [V2.TextElement_init (join " " (visible_texts (line_spans line)))
         (span_size sp) (span_font sp)
         (is_bold_font (span_font sp)) (is_italic_font (span_font sp))
         (bbox0 sp) (bbox1 sp)
         (bbox2 sp - bbox0 sp) (bbox3 sp - bbox1 sp)
         (pg + 1) block_no line_no]
  end.
Proof.
  unfold LinesV2.line_elements. rewrite span_step_fold. simpl app.
  destruct (first_visible (line_spans line)) as [sp|] eqn:E.
  - destruct (first_visible_texts _ _ E) as [t [r [Hv _]]].
    rewrite Hv. reflexivity.
  - rewrite (first_visible_none _ E). reflexivity.
Qed.

Lemma V2_extract_In doc el :
  In el (LinesV2.extract_text_elements doc) ->
  exists pg block_no line_no line,
    (0 <= pg < Z.of_nat (List.length doc))%Z /\
    In el (LinesV2.line_elements pg block_no line_no line).
Proof.
  unfold LinesV2.extract_text_elements. intros H.
  apply in_flat_map in H. destruct H as [[i page] [Hp H]].
  apply enumerate_from_In in Hp. destruct Hp as [Hi _].
  apply in_flat_map in H. destruct H as [[bn b] [_ H]].
  unfold LinesV2.block_elements in H. simpl fst in *. simpl snd in *.
  destruct (negb (block_type b =? 0)%Z); [contradiction|].
  apply in_flat_map in H. destruct H as [[ln line] [_ H]].
  exists i, bn, ln, line. split; [lia | exact H].
Qed.

(** *** Documents that show nothing *)

Lemma flat_map_nil (A B : Type) (f : A -> list B) l :
  (forall x, In x l -> f x = []) -> flat_map f l = [].
Proof.
  induction l as [|x r IH]; intros H; simpl; [reflexivity|].
  rewrite (H x) by (left; reflexivity). simpl.
  apply IH. intros y Hy. apply H. right. exact Hy.
Qed.

Lemma V1_nothing_extracted doc :
  no_visible_text doc -> LinesV1.extract_text_elements doc = [].
Proof.
  intros H. unfold LinesV1.extract_text_elements.
  apply flat_map_nil. intros [i page] Hp.
  apply enumerate_from_In in Hp. destruct Hp as [_ Hp]. simpl.
  apply flat_map_nil. intros b Hb. unfold LinesV1.block_elements.
  destruct (block_type b =? 0)%Z eqn:T; [|reflexivity]. simpl.
  apply Z.eqb_eq in T.
  apply flat_map_nil. intros line Hl.
  apply flat_map_nil. intros sp Hs. unfold LinesV1.span_elements.
  rewrite is_empty_strip, (H page b line sp); auto.
Qed.

Lemma V2_nothing_extracted doc :
  no_visible_text doc -> LinesV2.extract_text_elements doc = [].
Proof.
  intros H. unfold LinesV2.extract_text_elements.
  apply flat_map_nil. intros [i page] Hp.
  apply enumerate_from_In in Hp. destruct Hp as [_ Hp]. simpl.
  apply flat_map_nil. intros [bn b] Hb.
  apply enumerate_from_In in Hb. destruct Hb as [_ Hb]. simpl.
  unfold LinesV2.block_elements.
  destruct (block_type b =? 0)%Z eqn:T; [|reflexivity]. simpl.
  apply Z.eqb_eq in T.
  apply flat_map_nil. intros [ln line] Hl.
  apply enumerate_from_In in Hl. destruct Hl as [_ Hl]. simpl.
  rewrite V2_line_elements.
  destruct (first_visible (line_spans line)) as [sp|] eqn:E; [|reflexivity].
  exfalso. unfold first_visible in E. apply find_some in E.
  destruct E as [Hs Hv]. unfold visible in Hv.
  rewrite is_empty_strip, (H page b line sp) in Hv; auto. discriminate.
Qed.

(** [enumerate] pairs every member with its index. *)
Lemma enumerate_from_nth (A : Type) (l : list A) :
  forall k i x,
    In (i, x) (enumerate_from k l) <->
    exists n, i = (k + Z.of_nat n)%Z /\ nth_error l n = Some x.
Proof.
  induction l as [|a r IH]; intros k i x; cbn [enumerate_from In].
  - split; [intros [] | intros [[|n] [_ H]]; discriminate].
  - rewrite IH. split.
    + intros [H|[n [Hi Hn]]].
      * injection H as <- <-. exists 0%nat. split; [lia | reflexivity].
      * exists (S n). split; [lia | exact Hn].
    + intros [[|n] [Hi Hn]].
      * left. cbn in Hn. injection Hn as <-. f_equal. lia.
      * right. exists n. split; [lia | exact Hn].
Qed.

End Extracted.

(** ** Titles, and runs that never raise *)

Module Total.
Import Py Shared Spec Facts Loops.

Section Heads.
Variable A : Type.
Variable leb : A -> A -> bool.
Hypothesis leb_total : forall a b, leb a b = false -> leb b a = true.
Hypothesis leb_trans :
  forall a b c, leb a b = true -> leb b c = true -> leb a c = true.

Lemma leb_refl a : leb a a = true.
Proof.
  pose proof (leb_total a a) as H.
  destruct (leb a a); [reflexivity | apply H; reflexivity].
Qed.

(** The head of a sorted list is a least element of the list. *)
Lemma sorted_head_least l c rest :
  sorted leb l = c :: rest -> forall x, In x l -> leb c x = true.
Proof.
  revert c rest. induction l as [|y r IH]; intros c rest H x Hx;
    [contradiction|].
  simpl in H. destruct (sorted leb r) as [|z r'] eqn:S.
  - simpl in H. injection H as <- <-.
    destruct Hx as [<-|Hx]; [apply leb_refl|].
    apply (sorted_In _ leb) in Hx. rewrite S in Hx. contradiction.
  - simpl in H. destruct (leb y z) eqn:E.
    + injection H as <- <-. destruct Hx as [<-|Hx]; [apply leb_refl|].
      apply (leb_trans _ z); [exact E|]. apply (IH z r' eq_refl). exact Hx.
    + injection H as <- <-. destruct Hx as [<-|Hx].
      * apply leb_total. exact E.
      * apply (IH z r' eq_refl). exact Hx.
Qed.

(** A sorted list is sorted. *)
Lemma insert_Sorted x l :
  Sorted (fun a b => leb a b = true) l ->
  Sorted (fun a b => leb a b = true) (insert leb x l).
Proof.
  induction l as [|y r IH]; intros H; simpl.
  - repeat constructor.
  - destruct (leb x y) eqn:E.
    + constructor; [exact H | constructor; exact E].
    + inversion H as [|? ? Hr Hhd]; subst.
      constructor; [apply IH; exact Hr|].
      destruct r as [|z r']; simpl.
      * constructor. apply leb_total. exact E.
      * destruct (leb x z).
        -- constructor. apply leb_total. exact E.
        -- inversion Hhd; subst. constructor. assumption.
Qed.

Lemma sorted_Sorted l : Sorted (fun a b => leb a b = true) (sorted leb l).
Proof.
  induction l as [|x r IH]; simpl; [constructor|].
  apply insert_Sorted. exact IH.
Qed.
End Heads.

Lemma fold_Qmaxb_upper r :
  forall x, x <= fold_left Qmaxb r x /\
            forall y, In y r -> y <= fold_left Qmaxb r x.
Proof.
  induction r as [|z r IH]; intros x; simpl.
  - split; [apply Qle_refl | intros y []].
  - destruct (IH (Qmaxb x z)) as [H1 H2].
    assert (Hx : x <= Qmaxb x z /\ z <= Qmaxb x z).
    { unfold Qmaxb. destruct (Qltb x z) eqn:E.
      - apply Qltb_lt in E. split; lra.
      - apply Qltb_ge in E. split; lra. }
    split; [lra|]. intros y [<-|Hy]; [lra | apply H2, Hy].
Qed.

Lemma max_seq_upper l m : max_seq l = Ok m -> forall y, In y l -> y <= m.
Proof.
  destruct l as [|x r]; simpl; intros H; [discriminate|].
  injection H as <-. destruct (fold_Qmaxb_upper r x) as [H1 H2].
  intros y [<-|Hy]; [exact H1 | apply H2, Hy].
Qed.

Lemma by_score_total a b : by_score a b = false -> by_score b a = true.
Proof.
  unfold by_score. intros H. apply Qle_bool_iff.
  apply Qlt_le_weak. apply Qnot_le_lt. intros H'.
  apply Qle_bool_iff in H'. congruence.
Qed.

Lemma by_score_trans a b c :
  by_score a b = true -> by_score b c = true -> by_score a c = true.
Proof.
  unfold by_score. rewrite !Qle_bool_iff. intros. lra.
Qed.

(** The title of the first iteration, in full: none without a first
    page; otherwise the text of a first-page element whose size is
    within 0.2 of the largest size of that page and whose score is the
    least among such elements. *)
Lemma V1_title_choice els :
  let page1 := filter (fun el => (V1.page_num el =? 1)%Z) els in
  (page1 = [] /\ V1.detect_title els = Ok EmptyString) \/
  (exists m el,
      max_seq (map V1.font_size page1) = Ok m /\
      (forall x, In x page1 -> V1.font_size x <= m) /\
      In el page1 /\
      Qabs (V1.font_size el - m) < 2 # 10 /\
      (forall c, In c page1 -> Qabs (V1.font_size c - m) < 2 # 10 ->
                 V1.score el <= V1.score c) /\
      V1.detect_title els = Ok (V1.text el)).
Proof.
  intros page1. unfold V1.detect_title. fold page1.
  destruct page1 as [|e0 fp] eqn:F; [left; split; reflexivity|].
  right.
  destruct (EndToEnd.max_seq_Ok (V1.font_size e0) (map V1.font_size fp))
    as [m Hm].
  change (max_seq (map V1.font_size (e0 :: fp)) = Ok m) in Hm.
  rewrite Hm. cbv beta iota delta [bind].
  assert (Hup : forall x, In x (e0 :: fp) -> V1.font_size x <= m).
  { intros x Hx. apply (max_seq_upper _ _ Hm). apply in_map. exact Hx. }
  assert (Hmax : exists el, In el (e0 :: fp) /\ V1.font_size el = m).
  { apply EndToEnd.max_seq_In in Hm. apply in_map_iff in Hm.
    destruct Hm as [el [Hfs Hel]]. exists el. split; assumption. }
  destruct Hmax as [el0 [Hel0 Hfs0]].
  match goal with
  | |- context [filter ?p (e0 :: fp)] => set (cands := filter p (e0 :: fp))
  end.
  assert (Hc0 : In el0 cands).
  { apply filter_In. split; [exact Hel0|]. rewrite Hfs0.
    apply Qltb_lt. rewrite Qabs_pos; lra. }
  fold by_score.
  destruct (sorted by_score cands) as [|c rest] eqn:S.
  { exfalso. apply (sorted_In _ by_score) in Hc0. rewrite S in Hc0.
    exact Hc0. }
  assert (Hin : In c cands).
  { apply (sorted_In _ by_score). rewrite S. left. reflexivity. }
  apply filter_In in Hin. destruct Hin as [Hin Hclose].
  apply Qltb_lt in Hclose.
  exists m, c. repeat split; try assumption; try reflexivity.
  intros d Hd Hdclose.
  assert (Hdc : In d cands).
  { apply filter_In. split; [exact Hd|]. apply Qltb_lt. exact Hdclose. }
  pose proof (sorted_head_least _ by_score by_score_total by_score_trans
                cands c rest S d Hdc) as Hle.
  apply Qle_bool_iff in Hle. exact Hle.
Qed.

(** The third iteration's title never raises; with a first page it is
    the kept parts joined by two spaces, or else the text of the
    topmost candidate. *)
Lemma V3_title_choice els :
  let page1 := filter (fun el => (V1.page_num el =? 1)%Z) els in
  (page1 = [] /\ V3.detect_title els = Ok EmptyString) \/
  (exists m c rest,
      max_seq (map V1.font_size page1) = Ok m /\
      sorted (fun a b => Qle_bool (V1.y0 a) (V1.y0 b))
        (filter (fun el => Qltb (Qabs (V1.font_size el - m)) 1) page1)
        = c :: rest /\
      V3.detect_title els =
        Ok (match V3.title_parts (c :: rest) with
            | [] => V1.text c
            | parts => join "  " parts
            end)).
Proof.
  intros page1. unfold V3.detect_title. fold page1.
  destruct page1 as [|e0 fp] eqn:F; [left; split; reflexivity|].
  right.
  destruct (EndToEnd.max_seq_Ok (V1.font_size e0) (map V1.font_size fp))
    as [m Hm].
  change (max_seq (map V1.font_size (e0 :: fp)) = Ok m) in Hm.
  rewrite Hm. cbv beta iota delta [bind].
  assert (Hmax : exists el, In el (e0 :: fp) /\ V1.font_size el = m).
  { apply EndToEnd.max_seq_In in Hm. apply in_map_iff in Hm.
    destruct Hm as [el [Hfs Hel]]. exists el. split; assumption. }
  destruct Hmax as [el0 [Hel0 Hfs0]].
  match goal with
  | |- context [filter ?p (e0 :: fp)] => set (cands := filter p (e0 :: fp))
  end.
  assert (Hc0 : In el0 cands).
  { apply filter_In. split; [exact Hel0|]. rewrite Hfs0.
    apply Qltb_lt. rewrite Qabs_pos; lra. }
  destruct (sorted (fun a b => Qle_bool (V1.y0 a) (V1.y0 b)) cands)
    as [|c rest] eqn:S.
  { exfalso.
    apply (sorted_In _ (fun a b => Qle_bool (V1.y0 a) (V1.y0 b))) in Hc0.
    rewrite S in Hc0. exact Hc0. }
  exists m, c, rest. split; [reflexivity|]. split; [exact S|].
  destruct (V3.title_parts (c :: rest)); reflexivity.
Qed.

(** The second iteration's title never raises, and the size it answers
    is the largest size of page 1, or none without a first page. *)
Lemma V2_title_size els single :
  let page1 := filter (fun el => (V2.page_num el =? 1)%Z) els in
  exists t,
    V2.detect_title els single = Ok (t, match page1 with
                                        | [] => None
                                        | x :: r =>
                                            Some (fold_left Qmaxb
                                                    (map V2.font_size r)
                                                    (V2.font_size x))
                                        end)
    /\ strip t = t.
Proof.
  intros page1. unfold V2.detect_title. fold page1.
  destruct page1 as [|e0 fp] eqn:F;
    [eexists; split; reflexivity|].
  cbn [map max_seq]. cbv beta iota delta [bind].
  set (m := fold_left Qmaxb (map V2.font_size fp) (V2.font_size e0)).
  assert (Hmax : exists el, In el (e0 :: fp) /\ V2.font_size el = m).
  { pose proof (EndToEnd.fold_Qmaxb_In (map V2.font_size fp) (V2.font_size e0))
      as H. fold m in H.
    change (In m (map V2.font_size (e0 :: fp))) in H.
    apply in_map_iff in H. destruct H as [el [Hfs Hel]].
    exists el. split; assumption. }
  destruct Hmax as [el0 [Hel0 Hfs0]].
  match goal with
  | |- context [filter ?p (e0 :: fp)] => set (cands := filter p (e0 :: fp))
  end.
  assert (Hc0 : In el0 cands).
  { apply filter_In. split; [exact Hel0|]. rewrite Hfs0.
    apply Qltb_lt. rewrite Qabs_pos; lra. }
  destruct cands as [|c0 cr]; [contradiction|].
  match goal with
  | |- context [if ?b then _ else _] => destruct b
  end; eexists; (split; [reflexivity|]);
    [reflexivity | apply Strings.strip_idem].
Qed.

Lemma clusters_returned tolerance sizes :
  0 <= tolerance -> descending sizes ->
  exists clusters,
    (rounds <- cluster_loop tolerance sizes ;;
     Ok (sorted_desc (map snd rounds))) = Ok clusters /\
    descending clusters.
Proof.
  intros Htol Hd.
  destruct (Cluster.clustering_ok_descending tolerance sizes Htol Hd)
    as [rounds [_ [Heq [_ [_ [_ Hdesc]]]]]].
  exists (map snd rounds). split; assumption.
Qed.

Lemma V1_process_returns extracted :
  exists r, V1.process_pdf_file extracted = Ok r.
Proof.
  unfold V1.process_pdf_file.
  set (text_els := V1.remove_header_footer extracted 50 750).
  destruct (EndToEnd.V1_title_source text_els) as [t [Ht _]].
  destruct (clusters_returned (5 # 10) (V1.observed_sizes 2 text_els))
    as [fc [Hfc _]]; [discriminate | apply Cluster.observed_descending |].
  unfold V1.cluster_font_sizes. rewrite Ht, Hfc.
  cbv beta iota delta [bind]. eexists. reflexivity.
Qed.

Lemma V3_process_returns extracted :
  exists r, V3.process_pdf_file extracted = Ok r.
Proof.
  unfold V3.process_pdf_file.
  assert (Ht : exists t, V3.detect_title extracted = Ok t).
  { destruct (V3_title_choice extracted) as [[_ H]|[m [c [rest [_ [_ H]]]]]];
      eexists; exact H. }
  destruct Ht as [t Ht].
  set (text_els := V3.remove_header_footer extracted).
  destruct (clusters_returned (3 # 10) (V1.observed_sizes 1 text_els))
    as [fc [Hfc _]]; [discriminate | apply Cluster.observed_descending |].
  unfold V3.cluster_font_sizes. rewrite Ht, Hfc.
  cbv beta iota delta [bind]. eexists. reflexivity.
Qed.

Lemma V2_prepare_returns page_count raw :
  raw <> [] -> exists p, V2.prepare page_count raw = Ok p.
Proof.
  intros Hraw. unfold V2.prepare, V2.remove_header_footer.
  destruct raw as [|x r]; [contradiction|].
  cbn [map Zmax_seq]. cbv beta iota delta [bind].
  match goal with
  | |- context [V2.merge_multiline_blocks ?c] =>
      set (merged := V2.merge_multiline_blocks c)
  end.
  destruct (clusters_returned (5 # 10) (V2.observed_sizes merged))
    as [fc [Hfc _]]; [discriminate | apply Cluster.observed_descending |].
  unfold V2.cluster_font_sizes. rewrite Hfc.
  cbv beta iota delta [bind].
  destruct (V2_title_size merged (page_count =? 1)%Z) as [t [Ht _]].
  rewrite Ht. cbv beta iota delta [bind]. eexists. reflexivity.
Qed.

End Total.

(** ** The order of the outline *)

Module Order.
Import Py Shared Spec Facts Loops.

Lemma Qltb_false_cases a b :
  Qltb a b = false -> Qltb b a = true \/ Qeq_bool b a = true.
Proof.
  intros H. apply Qltb_ge in H.
  destruct (Qeq_bool b a) eqn:E; [right; reflexivity|].
  left. apply Qltb_lt. apply Qeq_bool_neq in E.
  destruct (Qlt_le_dec b a) as [Hlt|Hle]; [exact Hlt|].
  exfalso. apply E. apply Qle_antisym; assumption.
Qed.

Lemma Qle_bool_total a b : Qle_bool a b = false -> Qle_bool b a = true.
Proof.
  intros H. apply Qle_bool_iff. apply Qlt_le_weak. apply Qnot_le_lt.
  intros H'. apply Qle_bool_iff in H'. congruence.
Qed.

Lemma Qeq_bool_sym_true a b : Qeq_bool a b = true -> Qeq_bool b a = true.
Proof.
  intros H. apply Qeq_bool_iff. symmetry. apply Qeq_bool_iff. exact H.
Qed.

Lemma V1_reading_order_total a b :
  V1.reading_order a b = false -> V1.reading_order b a = true.
Proof.
  unfold V1.reading_order. intros H.
  apply orb_false_iff in H. destruct H as [Hlt H].
  apply Z.ltb_ge in Hlt.
  destruct (V1.page_num b <? V1.page_num a)%Z eqn:P; [reflexivity|].
  apply Z.ltb_ge in P.
  assert (Heq : V1.page_num a = V1.page_num b) by lia.
  rewrite Heq, Z.eqb_refl in *. simpl in *.
  apply orb_false_iff in H. destruct H as [Hy Hx].
  destruct (Qltb_false_cases _ _ Hy) as [Hy'|Hy']; rewrite Hy'; simpl;
    [reflexivity|].
  rewrite (Qeq_bool_sym_true _ _ Hy') in Hx. simpl in Hx.
  rewrite (Qle_bool_total _ _ Hx). apply orb_true_r.
Qed.

Lemma V2_reading_order_total a b :
  V2.reading_order a b = false -> V2.reading_order b a = true.
Proof.
  unfold V2.reading_order. intros H.
  apply orb_false_iff in H. destruct H as [Hlt H].
  apply Z.ltb_ge in Hlt.
  destruct (V2.page_num b <? V2.page_num a)%Z eqn:P; [reflexivity|].
  apply Z.ltb_ge in P.
  assert (Heq : V2.page_num a = V2.page_num b) by lia.
  rewrite Heq, Z.eqb_refl in *. simpl in *.
  apply orb_false_iff in H. destruct H as [Hy Hx].
  destruct (Qltb_false_cases _ _ Hy) as [Hy'|Hy']; rewrite Hy'; simpl;
    [reflexivity|].
  rewrite (Qeq_bool_sym_true _ _ Hy') in Hx. simpl in Hx.
  rewrite (Qle_bool_total _ _ Hx). apply orb_true_r.
Qed.

Lemma Sorted_weaken (A : Type) (R R' : A -> A -> Prop) l :
  (forall a b, R a b -> R' a b) -> Sorted R l -> Sorted R' l.
Proof.
  intros H. induction 1 as [|x l Hs IH Hhd]; constructor; [exact IH|].
  destruct Hhd; constructor. apply H. assumption.
Qed.

Lemma pages_strongly_sorted (A : Type) (leb : A -> A -> bool)
    (page : A -> Z) l :
  (forall a b, leb a b = false -> leb b a = true) ->
  (forall a b, leb a b = true -> (page a <= page b)%Z) ->
  StronglySorted (fun a b => (page a <= page b)%Z) (sorted leb l).
Proof.
  intros Htot Hpage. apply Sorted_StronglySorted.
  - intros a b c Hab Hbc. lia.
  - apply (Sorted_weaken _ (fun a b => leb a b = true)); [exact Hpage|].
    apply Total.sorted_Sorted. exact Htot.
Qed.

Lemma V1_reading_order_page a b :
  V1.reading_order a b = true -> (V1.page_num a <= V1.page_num b)%Z.
Proof.
  unfold V1.reading_order. intros H. apply orb_true_iff in H.
  destruct H as [H|H]; [apply Z.ltb_lt in H; lia|].
  apply andb_true_iff in H. destruct H as [H _]. apply Z.eqb_eq in H. lia.
Qed.

Lemma V2_reading_order_page a b :
  V2.reading_order a b = true -> (V2.page_num a <= V2.page_num b)%Z.
Proof.
  unfold V2.reading_order. intros H. apply orb_true_iff in H.
  destruct H as [H|H]; [apply Z.ltb_lt in H; lia|].
  apply andb_true_iff in H. destruct H as [H _]. apply Z.eqb_eq in H. lia.
Qed.

Lemma V1_loop_pages font_clusters levels els :
  forall last,
    StronglySorted (fun a b => (V1.page_num a <= V1.page_num b)%Z) els ->
    StronglySorted by_entry_page
      (map snd (V1.heading_loop font_clusters levels last els)).
Proof.
  induction els as [|el r IH]; intros last Hs; simpl; [constructor|].
  apply StronglySorted_inv in Hs. destruct Hs as [Hr Hall].
  destruct (V1.heading_step font_clusters levels last el) as [last' em].
  destruct em as [lv|]; [|apply IH; exact Hr].
  simpl. constructor; [apply IH; exact Hr|].
  apply Forall_forall. intros e He. apply in_map_iff in He.
  destruct He as [[el' e'] [Heq Hin]]. simpl in Heq. subst e'.
  apply V1_emitted_inv in Hin. destruct Hin as [Hel' [_ [lv' [_ ->]]]].
  unfold by_entry_page. simpl.
  rewrite Forall_forall in Hall. apply Hall. exact Hel'.
Qed.

Lemma V3_loop_pages hs levels els :
  StronglySorted (fun a b => (V1.page_num a <= V1.page_num b)%Z) els ->
  StronglySorted by_entry_page (map snd (V3.heading_loop hs levels els)).
Proof.
  induction els as [|el r IH]; intros Hs; simpl; [constructor|].
  apply StronglySorted_inv in Hs. destruct Hs as [Hr Hall].
  destruct (V3.heading_step hs levels el) as [lv|]; [|apply IH; exact Hr].
  simpl. constructor; [apply IH; exact Hr|].
  apply Forall_forall. intros e He. apply in_map_iff in He.
  destruct He as [[el' e'] [Heq Hin]]. simpl in Heq. subst e'.
  apply V3_emitted_inv in Hin. destruct Hin as [Hel' [lv' [_ ->]]].
  unfold by_entry_page. simpl.
  rewrite Forall_forall in Hall. apply Hall. exact Hel'.
Qed.

Lemma V2_logical_page_mono page_offset single a b :
  (V2.page_num a <= V2.page_num b)%Z ->
  (V2.logical_page page_offset single a
   <= V2.logical_page page_offset single b)%Z.
Proof.
  unfold V2.logical_page. destruct single; simpl; lia.
Qed.

Lemma V2_loop_pages levels title_lines page_offset single els :
  forall last,
    StronglySorted (fun a b => (V2.page_num a <= V2.page_num b)%Z) els ->
    StronglySorted by_entry_page
      (map snd (V2.heading_loop levels title_lines page_offset single
                  last els)).
Proof.
  induction els as [|el r IH]; intros last Hs; simpl; [constructor|].
  apply StronglySorted_inv in Hs. destruct Hs as [Hr Hall].
  destruct (V2.heading_step levels title_lines page_offset single last el)
    as [last' em].
  destruct em as [lv|]; [|apply IH; exact Hr].
  simpl. constructor; [apply IH; exact Hr|].
  apply Forall_forall. intros e He. apply in_map_iff in He.
  destruct He as [[el' e'] [Heq Hin]]. simpl in Heq. subst e'.
  apply V2_emitted_inv in Hin. destruct Hin as [Hel' [_ [lv' [_ ->]]]].
  unfold by_entry_page. simpl.
  rewrite Forall_forall in Hall.
  pose proof (V2_logical_page_mono page_offset single el el'
                (Hall el' Hel')). lia.
Qed.

End Order.

(** ** Merging lines *)

Module Merge.
Import Py Shared Spec Facts.

Lemma join_cons sep a l :
  l <> [] -> join sep (a :: l) = (a ++ sep ++ join sep l)%string.
Proof. destruct l; [contradiction | reflexivity]. Qed.

Lemma join_absorb sep a b r :
  join sep ((a ++ sep ++ b)%string :: r) = join sep (a :: b :: r).
Proof.
  destruct r as [|c r]; [reflexivity|].
  change (((a ++ sep ++ b) ++ sep ++ join sep (c :: r))%string =
          (a ++ sep ++ (b ++ sep ++ join sep (c :: r)))%string).
  rewrite !Numbering.app_assoc. reflexivity.
Qed.

Lemma merge_loop_nonempty els : forall buf, V2.merge_loop buf els <> [].
Proof.
  induction els as [|el r IH]; intros buf; simpl; [discriminate|].
  destruct (V2.close_same el buf); [apply IH | discriminate].
Qed.

Lemma merge_loop_text els :
  forall buf,
    join " " (map V2.text (V2.merge_loop buf els)) =
    join " " (V2.text buf :: map V2.text els).
Proof.
  induction els as [|el r IH]; intros buf; simpl V2.merge_loop;
    [reflexivity|].
  destruct (V2.close_same el buf).
  - rewrite IH. unfold V2.absorb. cbn [V2.text map].
    apply join_absorb.
  - cbn [map]. rewrite join_cons.
    + rewrite IH. reflexivity.
    + intros H. apply map_eq_nil in H. revert H. apply merge_loop_nonempty.
Qed.

Lemma merge_loop_height els :
  forall buf,
    sum (map V2.h (V2.merge_loop buf els)) ==
    V2.h buf + sum (map V2.h els).
Proof.
  induction els as [|el r IH]; intros buf; simpl V2.merge_loop.
  - reflexivity.
  - destruct (V2.close_same el buf).
    + rewrite IH. unfold V2.absorb. cbn [V2.h map sum fold_right].
      unfold sum. ring.
    + cbn [map sum fold_right]. fold (sum (map V2.h (V2.merge_loop el r))).
      rewrite IH. unfold sum. reflexivity.
Qed.

Lemma merge_loop_length els :
  forall buf, (List.length (V2.merge_loop buf els) <= S (List.length els))%nat.
Proof.
  induction els as [|el r IH]; intros buf; simpl; [lia|].
  destruct (V2.close_same el buf).
  - specialize (IH (V2.absorb buf el)). lia.
  - specialize (IH el). simpl. lia.
Qed.

Lemma same_start_refl el : same_start el el.
Proof. unfold same_start. repeat split; reflexivity. Qed.

Lemma same_start_absorb buf el src :
  same_start buf src -> same_start (V2.absorb buf el) src.
Proof. unfold same_start, V2.absorb. simpl. tauto. Qed.

Lemma merge_loop_source els :
  forall buf src o,
    same_start buf src ->
    In o (V2.merge_loop buf els) ->
    exists s, In s (src :: els) /\ same_start o s.
Proof.
  induction els as [|el r IH]; intros buf src o Hb Ho; simpl in Ho.
  - destruct Ho as [<-|[]]. exists src. split; [left; reflexivity | exact Hb].
  - destruct (V2.close_same el buf).
    + destruct (IH _ src o (same_start_absorb buf el src Hb) Ho)
        as [s [Hs Hss]].
      exists s. split; [|exact Hss].
      destruct Hs as [<-|Hs]; [left; reflexivity | right; right; exact Hs].
    + destruct Ho as [<-|Ho].
      * exists src. split; [left; reflexivity | exact Hb].
      * destruct (IH el el o (same_start_refl el) Ho) as [s [Hs Hss]].
        exists s. split; [right; exact Hs | exact Hss].
Qed.

Lemma sum_perm l l' : Permutation l l' -> sum l == sum l'.
Proof.
  induction 1; unfold sum in *; simpl.
  - reflexivity.
  - rewrite IHPermutation. reflexivity.
  - ring.
  - rewrite IHPermutation1. exact IHPermutation2.
Qed.

End Merge.

(** ** The level dictionaries *)

Module Levels.
Import Py Shared Spec Facts Loops.

Lemma argmin_from_In (A : Type) (f : A -> Q) l :
  forall best, In (argmin_from f best l) (best :: l).
Proof.
  induction l as [|x r IH]; intros best; simpl; [left; reflexivity|].
  destruct (IH (if Qltb (f x) (f best) then x else best)) as [H|H].
  - destruct (Qltb (f x) (f best)); [right; left | left]; exact H.
  - right. right. exact H.
Qed.

Lemma argmin_In (A : Type) (f : A -> Q) l x :
  argmin f l = Some x -> In x l.
Proof.
  destruct l as [|y r]; simpl; intros H; [discriminate|].
  injection H as <-. apply argmin_from_In.
Qed.

Lemma Qeq_bool_refl x : Qeq_bool x x = true.
Proof. apply Qeq_bool_iff. reflexivity. Qed.

Lemma Qeq_bool_false x y : ~ x == y -> Qeq_bool x y = false.
Proof.
  intros H. destruct (Qeq_bool x y) eqn:E; [|reflexivity].
  exfalso. apply H. apply Qeq_bool_iff. exact E.
Qed.

(** A key of a dictionary is found. *)
Lemma dict_get_present (V : Type) (d : dict V) k :
  In k (dict_keys d) -> exists v, dict_get d k = Some v.
Proof.
  induction d as [|[k0 v0] r IH]; simpl; [contradiction|].
  intros [->|H].
  - rewrite Qeq_bool_refl. eexists. reflexivity.
  - destruct (Qeq_bool k0 k); [eexists; reflexivity | apply IH, H].
Qed.

Lemma dict_set_present (V : Type) (d : dict V) k v k' :
  (exists w, dict_get d k' = Some w) ->
  exists w, dict_get (dict_set d k v) k' = Some w.
Proof.
  intros [w H]. rewrite dict_get_set.
  destruct (Qeq_bool k k'); eexists; [reflexivity | exact H].
Qed.

Lemma assign_levels_present hs :
  forall i d k,
    (In k hs \/ exists w, dict_get d k = Some w) ->
    exists w, dict_get (V3.assign_levels i hs d) k = Some w.
Proof.
  induction hs as [|fs r IH]; intros i d k H; simpl.
  - destruct H as [[]|H]. exact H.
  - apply IH. destruct H as [[->|H]|H].
    + right. rewrite dict_get_set, Qeq_bool_refl. eexists. reflexivity.
    + left. exact H.
    + right. apply dict_set_present. exact H.
Qed.

(** *** Strictly descending clusters *)

Lemma descending_filter (p : Q -> bool) l :
  descending l -> descending (filter p l).
Proof.
  induction l as [|x r IH]; intros H; simpl; [constructor|].
  pose proof (Cluster.descending_tail _ _ H) as Hr.
  destruct (p x); [|apply IH; exact Hr].
  apply Cluster.descending_cons; [apply IH; exact Hr|].
  intros y Hy. apply filter_In in Hy. destruct Hy as [Hy _].
  apply (Cluster.descending_head _ _ _ H). exact Hy.
Qed.

Lemma V1_heading_sizes_descending font_clusters title_font_size :
  descending font_clusters ->
  descending (V1.heading_font_sizes font_clusters title_font_size).
Proof.
  intros H. unfold V1.heading_font_sizes.
  rewrite Cluster.sorted_desc_id; apply descending_filter; exact H.
Qed.

Lemma V2_heading_clusters_descending font_clusters title_font_size :
  descending font_clusters ->
  descending (V2.heading_clusters font_clusters title_font_size).
Proof. intros H. apply descending_filter. exact H. Qed.

(** The first three keys get H1, H2 and H3, and nothing else is a key. *)
Ltac decide_keys :=
  repeat match goal with
         | |- context [Qeq_bool ?x ?x] => rewrite (Qeq_bool_refl x)
         | |- context [Qeq_bool ?x ?y] =>
             rewrite (Qeq_bool_false x y) by (intros ?Heq; lra)
         end.

Lemma three_keys hs i fs :
  descending hs ->
  nth_error hs i = Some fs ->
  dict_get
    (match nth_error hs 2 with
     | Some c =>
         dict_set
           (match nth_error hs 1 with
            | Some b =>
                dict_set
                  (match nth_error hs 0 with
                   | Some a => dict_set [] a H1
                   | None => []
                   end) b H2
            | None =>
                match nth_error hs 0 with
                | Some a => dict_set [] a H1
                | None => []
                end
            end) c H3
     | None =>
         match nth_error hs 1 with
         | Some b =>
             dict_set
               (match nth_error hs 0 with
                | Some a => dict_set [] a H1
                | None => []
                end) b H2
         | None =>
             match nth_error hs 0 with
             | Some a => dict_set [] a H1
             | None => []
             end
         end
     end) fs
  = first_three i.
Proof.
  intros Hd Hn.
  destruct hs as [|a [|b [|c r]]]; cbn [nth_error].
  - destruct i; discriminate.
  - destruct i as [|[|i]]; try discriminate. injection Hn as <-.
    simpl. decide_keys. reflexivity.
  - assert (b < a) by (apply (Cluster.descending_head _ _ _ Hd); left;
                       reflexivity).
    destruct i as [|[|[|i]]]; try discriminate; injection Hn as <-;
      simpl; decide_keys; simpl; decide_keys; reflexivity.
  - assert (b < a) by (apply (Cluster.descending_head _ _ _ Hd); left;
                       reflexivity).
    assert (c < b).
    { apply Cluster.descending_tail in Hd.
      apply (Cluster.descending_head _ _ _ Hd). left. reflexivity. }
    destruct i as [|[|[|i]]]; cbn [nth_error] in Hn.
    + injection Hn as <-. simpl. decide_keys. simpl. decide_keys.
      simpl. decide_keys. reflexivity.
    + injection Hn as <-. simpl. decide_keys. simpl. decide_keys.
      simpl. decide_keys. reflexivity.
    + injection Hn as <-. simpl. decide_keys. simpl. decide_keys.
      simpl. decide_keys. reflexivity.
    + assert (fs < c).
      { do 2 apply Cluster.descending_tail in Hd.
        apply (Cluster.descending_head _ _ _ Hd).
        apply (nth_error_In _ _ Hn). }
      simpl. decide_keys. simpl. decide_keys. simpl. decide_keys.
      reflexivity.
Qed.

Lemma V1_levels_first_three font_clusters title_font_size i fs :
  descending font_clusters ->
  nth_error (V1.heading_font_sizes font_clusters title_font_size) i
    = Some fs ->
  dict_get (V1.font_size_to_level font_clusters title_font_size) fs
    = first_three i.
Proof.
  intros Hd Hn. unfold V1.font_size_to_level.
  apply (three_keys _ i fs
           (V1_heading_sizes_descending font_clusters title_font_size Hd) Hn).
Qed.

Lemma V2_levels_first_three font_clusters title_font_size i fs :
  descending font_clusters ->
  nth_error (V2.heading_clusters font_clusters title_font_size) i = Some fs ->
  dict_get (V2.levels_of font_clusters title_font_size) fs = first_three i.
Proof.
  intros Hd Hn.
  pose proof (three_keys _ i fs
                (V2_heading_clusters_descending font_clusters title_font_size
                   Hd) Hn) as H.
  unfold V2.levels_of.
  destruct (V2.heading_clusters font_clusters title_font_size)
    as [|a [|b [|c r]]]; exact H.
Qed.

End Levels.

(** ** One page, title lines, cluster values, flags *)

Module Further.
Import Py Shared Spec Facts Loops.

(** *** Documents of one page *)

Lemma one_page_bound (doc : list V1.TextElement) p :
  (forall el, In el doc -> V1.page_num el = p) ->
  (pages_with_text doc <= 1)%nat.
Proof.
  intros H. unfold pages_with_text, setZ.
  change 1%nat with (List.length [p]).
  apply NoDup_incl_length; [apply NoDup_nodup|].
  intros z Hz. apply nodup_In in Hz. apply in_map_iff in Hz.
  destruct Hz as [el [<- Hel]]. left. symmetry. apply H. exact Hel.
Qed.

Lemma frequent_on_one_page texts n t :
  (n <= 1)%nat -> In t texts -> mem_str t (V1.frequent texts n) = true.
Proof.
  intros Hn Ht. apply Filter.mem_str_In. apply Filter.V1_frequent_In.
  split; [exact Ht|].
  apply (count_occ_In string_dec) in Ht.
  assert (H1 : 1 <= Q_of_nat (count_occ string_dec texts t)).
  { unfold Q_of_nat. change 1 with (inject_Z 1). rewrite <- Zle_Qle. lia. }
  assert (H2 : fmul_int float_07 (Z.of_nat n) < 1).
  { do 2 (destruct n as [|n]; [vm_compute; reflexivity|]). lia. }
  lra.
Qed.

Lemma V1_one_page_filter doc p y_top y_bottom :
  (forall el, In el doc -> V1.page_num el = p) ->
  V1.remove_header_footer doc y_top y_bottom =
  filter (fun el => negb (Qltb (V1.y0 el) y_top)
                    && negb (Qgtb (V1.y0 el) y_bottom)) doc.
Proof.
  intros H. unfold V1.remove_header_footer.
  pose proof (one_page_bound doc p H) as Hn. unfold pages_with_text in Hn.
  apply filter_ext_in. intros el Hel.
  destruct (Qltb (V1.y0 el) y_top) eqn:T.
  - rewrite frequent_on_one_page; [reflexivity | exact Hn |].
    apply in_map. apply filter_In. split; assumption.
  - cbn [andb negb].
    destruct (Qgtb (V1.y0 el) y_bottom) eqn:B; [|reflexivity].
    rewrite frequent_on_one_page; [reflexivity | exact Hn |].
    apply in_map. apply filter_In. split; assumption.
Qed.

Lemma V3_step_page1 hs levels el :
  V1.page_num el = 1%Z -> V3.heading_step hs levels el = None.
Proof. intros H. unfold V3.heading_step. rewrite H. reflexivity. Qed.

Lemma no_pairs (A B : Type) (l : list (A * B)) :
  (forall a b, ~ In (a, b) l) -> l = [].
Proof.
  destruct l as [|[a b] r]; [reflexivity|]. intros H.
  exfalso. apply (H a b). left. reflexivity.
Qed.

Lemma V1_first_page_only els font_clusters title_font_size :
  (forall el, In el els -> V1.page_num el = 1%Z) ->
  V1.assign_headings els font_clusters title_font_size = [].
Proof.
  intros H. unfold V1.assign_headings.
  rewrite (no_pairs _ _ (V1.emitted els font_clusters title_font_size));
    [reflexivity|].
  intros el e Hin. unfold V1.emitted in Hin.
  apply V1_emitted_inv in Hin. destruct Hin as [Hel [last0 [lv [Hs _]]]].
  apply sorted_In in Hel.
  rewrite PageOne.V1_step_page1 in Hs by (apply H; exact Hel). discriminate.
Qed.

Lemma V3_first_page_only els font_clusters title_font_size :
  (forall el, In el els -> V1.page_num el = 1%Z) ->
  V3.assign_headings els font_clusters title_font_size = [].
Proof.
  intros H. unfold V3.assign_headings.
  rewrite (no_pairs _ _ (V3.emitted els font_clusters title_font_size));
    [reflexivity|].
  intros el e Hin. unfold V3.emitted in Hin.
  apply V3_emitted_inv in Hin. destruct Hin as [Hel [lv [Hs _]]].
  apply sorted_In in Hel.
  rewrite V3_step_page1 in Hs by (apply H; exact Hel). discriminate.
Qed.

(** *** Title lines of the second iteration *)

Lemma V2_step_title_line levels title_lines page_offset single last el :
  V2.page_num el = 1%Z ->
  In (V2.text el) title_lines ->
  snd (V2.heading_step levels title_lines page_offset single last el) = None.
Proof.
  intros Hp Hin. unfold V2.heading_step. rewrite Hp.
  destruct (V2.logical_page page_offset single el <? 0)%Z; [reflexivity|].
  replace (mem_str (V2.text el) title_lines) with true
    by (symmetry; apply Filter.mem_str_In; exact Hin).
  destruct title_lines; [contradiction|]. reflexivity.
Qed.

(** *** Cluster values and the sizes they stand for *)

Lemma mean_le_upper l m b :
  mean l = Ok m -> (forall c, In c l -> c <= b) -> m <= b.
Proof.
  destruct l as [|x r]; [discriminate|]. rewrite Cluster.mean_nonempty.
  intros Hm H. injection Hm as <-.
  apply Qle_shift_div_r; [apply (Cluster.length_pos (List.length r))|].
  pose proof (Cluster.sum_le_upper (x :: r) b H) as Hs.
  rewrite Qmult_comm. exact Hs.
Qed.

Lemma mean_ge_lower l m b :
  mean l = Ok m -> (forall c, In c l -> b <= c) -> b <= m.
Proof.
  destruct l as [|x r]; [discriminate|]. rewrite Cluster.mean_nonempty.
  intros Hm H. injection Hm as <-.
  apply Qle_shift_div_l; [apply (Cluster.length_pos (List.length r))|].
  pose proof (Cluster.sum_ge_lower (x :: r) b H) as Hs.
  rewrite Qmult_comm. exact Hs.
Qed.

Lemma cluster_round_members tolerance base rest cl m rest' :
  cluster_round tolerance (base :: rest) = Ok (cl, m, rest') ->
  mean cl = Ok m /\
  forall s, In s cl -> In s (base :: rest) /\ within tolerance base s = true.
Proof.
  unfold cluster_round. change (hd 0 (base :: rest)) with base.
  set (cl0 := filter (within tolerance base) (base :: rest)).
  destruct (mean cl0) as [m0|] eqn:M; [|discriminate].
  unfold bind.
  destruct (remove_all cl0 (base :: rest)) as [r0|]; [|discriminate].
  intros H. injection H as <- <- <-.
  split; [exact M|]. intros s Hs. unfold cl0 in Hs.
  apply filter_In in Hs. exact Hs.
Qed.

Lemma cluster_loop_close tolerance :
  0 <= tolerance ->
  forall n sizes,
    (List.length sizes <= n)%nat ->
    descending sizes ->
    forall rounds,
      cluster_loop tolerance sizes = Ok rounds ->
      forall s, In s sizes ->
        exists m, In m (map snd rounds) /\ Qabs (m - s) <= tolerance.
Proof.
  intros Htol. induction n as [|n IH]; intros sizes Hlen Hd rounds Hloop s Hs.
  - destruct sizes; [contradiction | simpl in Hlen; lia].
  - destruct sizes as [|base rest]; [contradiction|].
    destruct (Cluster.cluster_round_descending tolerance base rest Htol Hd)
      as [c [m [rest' [Hround [Hmean Hsplit]]]]].
    rewrite Cluster.cluster_loop_eq, Hround in Hloop.
    destruct (cluster_loop tolerance rest') as [later|] eqn:L;
      [|discriminate].
    cbv beta iota delta [bind] in Hloop. injection Hloop as <-.
    destruct (cluster_round_members _ _ _ _ _ _ Hround) as [_ Hmem].
    assert (Hin : forall x, In x (base :: c) ->
                    base - tolerance <= x /\ x <= base).
    { intros x Hx. destruct (Hmem x Hx) as [Hx' Hw].
      assert (x <= base).
      { destruct Hx' as [<-|Hx']; [lra|].
        apply Qlt_le_weak, (Cluster.descending_head _ _ _ Hd), Hx'. }
      apply Cluster.within_below in Hw; [|assumption]. split; lra. }
    rewrite Hsplit in Hs. apply in_app_or in Hs. destruct Hs as [Hs|Hs].
    + exists m. split; [left; reflexivity|].
      assert (m <= base)
        by (apply (mean_le_upper _ _ _ Hmean); intros x Hx; apply Hin, Hx).
      assert (base - tolerance <= m)
        by (apply (mean_ge_lower _ _ _ Hmean); intros x Hx; apply Hin, Hx).
      destruct (Hin s Hs). apply Qabs_Qle_condition. split; lra.
    + assert (Hd' : descending rest').
      { apply (Cluster.descending_app_r (base :: c)). rewrite <- Hsplit.
        exact Hd. }
      assert (Hlen' : (List.length rest' <= n)%nat).
      { apply (f_equal (@List.length Q)) in Hsplit.
        rewrite length_app in Hsplit. simpl in Hsplit, Hlen. lia. }
      destruct (IH rest' Hlen' Hd' later L s Hs) as [m' [Hm' Hclose]].
      exists m'. split; [right; exact Hm' | exact Hclose].
Qed.

Lemma setQ_covers l x : In x l -> exists y, In y (setQ l) /\ y == x.
Proof.
  induction l as [|a r IH]; intros H; [contradiction|]. simpl.
  destruct (Qeq_bool a x) eqn:E.
  - exists a. split; [left; reflexivity|]. apply Qeq_bool_iff. exact E.
  - destruct H as [->|H].
    + rewrite Levels.Qeq_bool_refl in E. discriminate.
    + destruct (IH H) as [y [Hy Heq]]. exists y. split; [|exact Heq].
      right. apply filter_In. split; [exact Hy|].
      apply negb_true_iff. apply Levels.Qeq_bool_false. intros Hay.
      apply Qeq_bool_neq in E. apply E. rewrite Hay. exact Heq.
Qed.

(** The values the loop returns for rounded sizes [raw]: each size is
    within the tolerance of one of them. *)
Lemma clusters_close tolerance raw :
  0 <= tolerance ->
  exists clusters,
    (rounds <- cluster_loop tolerance (sorted_desc (setQ raw)) ;;
     Ok (sorted_desc (map snd rounds))) = Ok clusters /\
    descending clusters /\
    (List.length clusters <= List.length raw)%nat /\
    forall x, In x raw ->
      exists m, In m clusters /\ Qabs (m - x) <= tolerance.
Proof.
  intros Htol.
  pose proof (Cluster.observed_descending raw) as Hd.
  destruct (Cluster.clustering_ok_descending tolerance _ Htol Hd)
    as [rounds [Hloop [Heq [Hcat [_ [Hmeans Hdesc]]]]]].
  exists (map snd rounds). split; [exact Heq|]. split; [exact Hdesc|]. split.
  - rewrite length_map.
    assert (Hlen : (List.length rounds
                    <= List.length (List.concat (map fst rounds)))%nat).
    { clear -Hmeans. induction Hmeans as [|[c m] r Hm _ IH]; simpl; [lia|].
      rewrite length_app. destruct c as [|x c]; [discriminate|].
      simpl. lia. }
    rewrite Hcat in Hlen. unfold sorted_desc in Hlen.
    rewrite sorted_length in Hlen.
    assert (Hset : forall l, (List.length (setQ l) <= List.length l)%nat).
    { induction l as [|a r IHr]; simpl; [lia|].
      pose proof (filter_length_le (fun y => negb (Qeq_bool a y)) (setQ r)).
      lia. }
    specialize (Hset raw). lia.
  - intros x Hx. destruct (setQ_covers raw x Hx) as [y [Hy Heqy]].
    assert (Hy' : In y (sorted_desc (setQ raw)))
      by (unfold sorted_desc; apply sorted_In; exact Hy).
    destruct (cluster_loop_close tolerance Htol _ _ (le_n _) Hd rounds Hloop
                y Hy') as [m [Hm Hclose]].
    exists m. split; [exact Hm|]. rewrite <- Heqy. exact Hclose.
Qed.

(** *** Font flags *)

Lemma prefix_lower a s :
  String.prefix a s = true -> String.prefix (lower a) (lower s) = true.
Proof.
  revert s. induction a as [|c a IH]; intros s.
  - intros _. destruct s; reflexivity.
  - destruct s as [|d s]; [discriminate|]. simpl.
    destruct (Ascii.ascii_dec c d) as [->|Hne]; [|discriminate].
    intros H. destruct (Ascii.ascii_dec (lower_char d) (lower_char d));
      [apply IH; exact H | contradiction].
Qed.

Lemma contains_lower a s :
  contains a s = true -> contains (lower a) (lower s) = true.
Proof.
  induction s as [|d s IH]; intros H.
  - change (String.prefix a "" || false = true) in H.
    rewrite orb_false_r in H. apply prefix_lower in H.
    change (String.prefix (lower a) (lower "") || false = true).
    rewrite H. reflexivity.
  - change (String.prefix a (String d s) || contains a s = true) in H.
    change (String.prefix (lower a) (lower (String d s))
            || contains (lower a) (lower s) = true).
    apply orb_true_iff in H. destruct H as [H|H].
    + apply prefix_lower in H. rewrite H. reflexivity.
    + rewrite (IH H). apply orb_true_r.
Qed.

Lemma is_bold_font_spec f :
  Layout.is_bold_font f = contains "bold" (lower f).
Proof.
  unfold Layout.is_bold_font.
  destruct (contains "Bold" f) eqn:E; [|reflexivity].
  apply contains_lower in E. symmetry. exact E.
Qed.

Lemma is_italic_font_spec f :
  Layout.is_italic_font f =
  contains "italic" (lower f) || contains "Oblique" f.
Proof.
  unfold Layout.is_italic_font.
  destruct (contains "Italic" f) eqn:E.
  - apply contains_lower in E. change (lower "Italic") with "italic"%string in E.
    rewrite E. reflexivity.
  - simpl. apply orb_comm.
Qed.

End Further.

(** ** What a step that emits has checked *)

Module Steps.
Import Py Shared Spec Facts Loops.

Lemma V1_step_some font_clusters levels last el lv :
  snd (V1.heading_step font_clusters levels last el) = Some lv ->
  V1.page_num el <> 1%Z /\
  (2 <= len (V1.text el))%nat /\
  endswith "."%char (V1.text el) = false /\
  exists c, In c font_clusters /\
            argmin (fun fs => Qabs (V1.font_size el - fs)) font_clusters
              = Some c /\
            exists lv0, dict_get levels c = Some lv0.
Proof.
  unfold V1.heading_step.
  destruct (V1.page_num el =? 1)%Z eqn:P; [discriminate|].
  destruct (len (V1.text el) <? 2)%nat eqn:L; [discriminate|].
  destruct (argmin _ font_clusters) as [c|] eqn:A; [|discriminate].
  destruct (dict_get levels c) as [lv0|] eqn:D; [|discriminate].
  destruct (endswith "."%char (V1.text el)) eqn:E; [discriminate|].
  intros _. apply Z.eqb_neq in P. apply Nat.ltb_ge in L.
  split; [exact P|]. split; [exact L|]. split; [reflexivity|].
  exists c. split; [eapply Levels.argmin_In; exact A|].
  split; [reflexivity|]. exists lv0. exact D.
Qed.

Lemma V2_step_some levels title_lines page_offset single last el lv :
  snd (V2.heading_step levels title_lines page_offset single last el)
    = Some lv ->
  (0 <= V2.logical_page page_offset single el)%Z /\
  (2 <= len (V2.text el))%nat /\
  endswith "."%char (rstrip (V2.text el)) = false /\
  (split_len (V2.text el) <= 12)%nat /\
  (last <= level_order lv)%nat /\
  exists c, In c (dict_keys levels) /\ Qabs (V2.font_size el - c) <= 3 # 10.
Proof.
  unfold V2.heading_step.
  destruct (V2.logical_page page_offset single el <? 0)%Z eqn:P;
    [discriminate|].
  destruct ((V2.page_num el =? 1)%Z && negb (List.length title_lines =? 0)%nat
            && mem_str (V2.text el) title_lines); [discriminate|].
  destruct (len (V2.text el) <? 2)%nat eqn:L; [discriminate|].
  destruct (argmin snd _) as [[c delta]|] eqn:A; [|discriminate].
  destruct (Qgtb delta (3 # 10)) eqn:G; [discriminate|].
  destruct (dict_get levels c) as [lv0|] eqn:D; [|discriminate].
  destruct (endswith "."%char (rstrip (V2.text el))) eqn:E; [discriminate|].
  destruct (12 <? split_len (V2.text el))%nat eqn:W; [discriminate|].
  destruct (level_order _ <? last)%nat eqn:O; [discriminate|].
  cbn [snd]. intros H. injection H as <-.
  apply Z.ltb_ge in P. apply Nat.ltb_ge in L. apply Nat.ltb_ge in W.
  apply Nat.ltb_ge in O.
  split; [exact P|]. split; [exact L|]. split; [reflexivity|].
  split; [exact W|]. split; [exact O|].
  apply Levels.argmin_In in A. apply in_map_iff in A.
  destruct A as [fs [Heq Hfs]]. injection Heq as -> <-.
  exists c. split; [exact Hfs|].
  unfold Qgtb in G. apply Qltb_ge in G. exact G.
Qed.

Lemma V3_step_some hs levels el lv :
  V3.heading_step hs levels el = Some lv ->
  V1.page_num el <> 1%Z /\
  V3.is_heading_like (V1.text el) = true /\
  exists c, In c hs /\ Qabs (V1.font_size el - c) <= 1.
Proof.
  unfold V3.heading_step.
  destruct (V1.page_num el =? 1)%Z eqn:P; [discriminate|].
  destruct (V3.is_heading_like (V1.text el)) eqn:K; [|discriminate].
  cbn [negb].
  destruct (argmin _ hs) as [c|] eqn:A; [|discriminate].
  destruct (Qgtb (Qabs (V1.font_size el - c)) 1) eqn:G; [discriminate|].
  intros _. apply Z.eqb_neq in P.
  split; [exact P|]. split; [reflexivity|].
  exists c. split; [eapply Levels.argmin_In; exact A|].
  unfold Qgtb in G. apply Qltb_ge in G. exact G.
Qed.

Lemma V1_step_level font_clusters levels last el lv :
  snd (V1.heading_step font_clusters levels last el) = Some lv ->
  exists lv0, lv = V1.override (V1.find_numbering_level (V1.text el)) lv0.
Proof.
  unfold V1.heading_step.
  destruct (V1.page_num el =? 1)%Z; [discriminate|].
  destruct (len (V1.text el) <? 2)%nat; [discriminate|].
  destruct (argmin _ font_clusters) as [c|]; [|discriminate].
  destruct (dict_get levels c) as [lv0|]; [|discriminate].
  destruct (endswith "."%char (V1.text el)); [discriminate|].
  cbn [snd]. intros H. injection H as <-. exists lv0. reflexivity.
Qed.

Lemma V2_step_level levels title_lines page_offset single last el lv :
  snd (V2.heading_step levels title_lines page_offset single last el)
    = Some lv ->
  exists lv0, lv = V2.override (V2.find_numbering_level (V2.text el)) lv0.
Proof.
  unfold V2.heading_step.
  destruct (V2.logical_page page_offset single el <? 0)%Z; [discriminate|].
  destruct ((V2.page_num el =? 1)%Z && negb (List.length title_lines =? 0)%nat
            && mem_str (V2.text el) title_lines); [discriminate|].
  destruct (len (V2.text el) <? 2)%nat; [discriminate|].
  destruct (argmin snd _) as [[c delta]|]; [|discriminate].
  destruct (Qgtb delta (3 # 10)); [discriminate|].
  destruct (dict_get levels c) as [lv0|]; [|discriminate].
  destruct (endswith "."%char (rstrip (V2.text el))); [discriminate|].
  destruct (12 <? split_len (V2.text el))%nat; [discriminate|].
  destruct (level_order _ <? last)%nat; [discriminate|].
  cbn [snd]. intros H. injection H as <-. exists lv0. reflexivity.
Qed.

Lemma V3_step_level hs levels el lv :
  V3.heading_step hs levels el = Some lv ->
  exists lv0, lv = V1.override (V3.find_numbering_level (V1.text el)) lv0.
Proof.
  unfold V3.heading_step.
  destruct (V1.page_num el =? 1)%Z; [discriminate|].
  destruct (negb (V3.is_heading_like (V1.text el))); [discriminate|].
  destruct (argmin _ hs) as [c|]; [|discriminate].
  destruct (Qgtb _ 1); [discriminate|].
  intros H. injection H as <-. eexists. reflexivity.
Qed.

Lemma V1_numbering_range t n :
  V1.find_numbering_level t = Some n -> (1 <= n <= 3)%nat.
Proof.
  rewrite Numbering.V1_numbering.
  destruct (path_rest (strip t)) as [[m rest]|] eqn:P; [|discriminate].
  intros H. injection H as <-.
  apply (Numbering.path_rest_level _ _ _ P).
Qed.

Lemma V2_numbering_V1 t n :
  V2.find_numbering_level t = Some n -> V1.find_numbering_level t = Some n.
Proof.
  rewrite Numbering.V2_numbering, Numbering.V1_numbering.
  destruct (path_rest (strip t)) as [[m rest]|]; [|discriminate].
  destruct (sep_follows rest); [tauto | discriminate].
Qed.

Lemma V3_numbering_V1 t n :
  V3.find_numbering_level t = Some n -> V1.find_numbering_level t = Some n.
Proof.
  rewrite Numbering.V3_numbering, Numbering.V1_numbering.
  destruct (path_rest (strip t)) as [[m rest]|]; [|discriminate].
  destruct (tail_follows rest); [tauto | discriminate].
Qed.

Lemma override_numbered n lv0 :
  (1 <= n <= 3)%nat ->
  V1.override (Some n) lv0 = numbered n /\
  V2.override (Some n) lv0 = numbered n.
Proof.
  intros H. destruct n as [|[|[|[|n]]]]; try lia; split; reflexivity.
Qed.


End Steps.

(** ** Merging what was merged *)

Module Settled.
Import Py Shared Spec Facts.

Lemma close_same_start el el' buf :
  same_start el el' -> V2.close_same el buf = V2.close_same el' buf.
Proof.
  unfold same_start, V2.close_same.
  intros [H1 [H2 [_ [H4 [H5 [H6 [H7 [H8 [H9 _]]]]]]]]].
  rewrite H1, H2, H4, H5, H6, H7, H8, H9. reflexivity.
Qed.

Lemma block_order_start buf o s :
  same_start o s -> V2.block_order buf o = V2.block_order buf s.
Proof.
  unfold same_start, V2.block_order. intros [H1 [H2 [H3 _]]].
  rewrite H1, H2, H3. reflexivity.
Qed.

Lemma same_start_trans a b c :
  same_start a b -> same_start b c -> same_start a c.
Proof.
  unfold same_start. intros H1 H2.
  repeat match goal with
         | H : _ /\ _ |- _ => destruct H
         end.
  repeat split; etransitivity; eassumption.
Qed.

Lemma merge_loop_fixed l :
  forall buf, unmergeable buf l -> V2.merge_loop buf l = buf :: l.
Proof.
  induction l as [|el r IH]; intros buf H; [reflexivity|].
  destruct H as [Hc Hr]. cbn [V2.merge_loop]. rewrite Hc.
  rewrite (IH el Hr). reflexivity.
Qed.

Lemma merge_loop_unmergeable els :
  forall buf,
  exists o r,
    V2.merge_loop buf els = o :: r /\ same_start o buf /\ unmergeable o r.
Proof.
  induction els as [|el r IH]; intros buf.
  - exists buf, []. split; [reflexivity|].
    split; [apply Merge.same_start_refl | exact I].
  - cbn [V2.merge_loop]. destruct (V2.close_same el buf) eqn:C.
    + destruct (IH (V2.absorb buf el)) as [o [r' [E [S U]]]].
      exists o, r'. split; [exact E|]. split; [|exact U].
      apply (same_start_trans _ _ _ S).
      apply Merge.same_start_absorb, Merge.same_start_refl.
    + destruct (IH el) as [o [r' [E [S U]]]].
      exists buf, (o :: r'). rewrite E. split; [reflexivity|].
      split; [apply Merge.same_start_refl|].
      split; [|exact U]. rewrite (close_same_start _ _ _ S). exact C.
Qed.

Lemma block_order_total a b :
  V2.block_order a b = false -> V2.block_order b a = true.
Proof.
  unfold V2.block_order. intros H.
  apply orb_false_iff in H. destruct H as [H1 H2].
  apply Z.ltb_ge in H1.
  destruct (V2.page_num b <? V2.page_num a)%Z eqn:P; [reflexivity|].
  apply Z.ltb_ge in P. cbn [orb].
  assert (E : V2.page_num a = V2.page_num b) by lia.
  rewrite E in *. rewrite Z.eqb_refl in *. cbn [andb] in *.
  apply orb_false_iff in H2. destruct H2 as [H2 H3].
  apply Z.ltb_ge in H2.
  destruct (V2.block_no b <? V2.block_no a)%Z eqn:B; [reflexivity|].
  apply Z.ltb_ge in B. cbn [orb].
  assert (E' : V2.block_no a = V2.block_no b) by lia.
  rewrite E' in *. rewrite Z.eqb_refl in *. cbn [andb] in *.
  apply Z.leb_gt in H3. apply Z.leb_le. lia.
Qed.

Lemma block_order_trans a b c :
  V2.block_order a b = true -> V2.block_order b c = true ->
  V2.block_order a c = true.
Proof.
  unfold V2.block_order. intros H1 H2.
  repeat match goal with
         | H : (_ || _) = true |- _ =>
             apply orb_true_iff in H; destruct H as [H|H]
         | H : (_ && _) = true |- _ =>
             apply andb_true_iff in H; destruct H as [? H]
         | H : (_ <? _)%Z = true |- _ => apply Z.ltb_lt in H
         | H : (_ =? _)%Z = true |- _ => apply Z.eqb_eq in H
         | H : (_ <=? _)%Z = true |- _ => apply Z.leb_le in H
         end;
    apply orb_true_iff;
    try (left; apply Z.ltb_lt; lia);
    right; apply andb_true_iff; (split; [apply Z.eqb_eq; lia|]);
    apply orb_true_iff;
    try (left; apply Z.ltb_lt; lia);
    right; apply andb_true_iff; (split; [apply Z.eqb_eq; lia|]);
    apply Z.leb_le; lia.
Qed.

Lemma sorted_fixed (A : Type) (leb : A -> A -> bool) l :
  Sorted (fun a b => leb a b = true) l -> sorted leb l = l.
Proof.
  induction 1 as [|x l Hl IH Hx]; [reflexivity|].
  cbn [sorted fold_right]. fold (sorted leb l). rewrite IH.
  destruct Hx as [|y r Hxy]; [reflexivity|].
  cbn [insert]. rewrite Hxy. reflexivity.
Qed.

Lemma merge_loop_sorted els :
  forall buf,
    StronglySorted (fun a b => V2.block_order a b = true) (buf :: els) ->
    StronglySorted (fun a b => V2.block_order a b = true)
      (V2.merge_loop buf els).
Proof.
  induction els as [|el r IH]; intros buf H; [exact H|].
  cbn [V2.merge_loop].
  apply StronglySorted_inv in H. destruct H as [Hr Hb].
  pose proof Hr as Hr'. apply StronglySorted_inv in Hr'.
  destruct Hr' as [Hrr Hel].
  apply Forall_cons_iff in Hb. destruct Hb as [Hbel Hbr].
  destruct (V2.close_same el buf).
  - apply IH. constructor; [exact Hrr|]. exact Hbr.
  - constructor; [apply IH; exact Hr|].
    apply Forall_forall. intros o Ho.
    destruct (Merge.merge_loop_source r el el o (Merge.same_start_refl el) Ho)
      as [s [Hs Hss]].
    rewrite (block_order_start _ _ _ Hss).
    destruct Hs as [<-|Hs]; [exact Hbel|].
    rewrite Forall_forall in Hbr. apply Hbr, Hs.
Qed.

Lemma block_sorted els :
  StronglySorted (fun a b => V2.block_order a b = true)
    (sorted V2.block_order els).
Proof.
  apply Sorted_StronglySorted.
  - intros a b c. apply block_order_trans.
  - apply Total.sorted_Sorted. exact block_order_total.
Qed.

End Settled.


(** ** The nearest cluster and the keys of the levels *)

Module Nearest.
Import Py Shared Spec Facts Loops.

Lemma argmin_from_least (A : Type) (f : A -> Q) l :
  forall best,
    f (argmin_from f best l) <= f best /\
    forall y, In y l -> f (argmin_from f best l) <= f y.
Proof.
  induction l as [|x r IH]; intros best; cbn [argmin_from].
  - split; [apply Qle_refl | intros y []].
  - destruct (Qltb (f x) (f best)) eqn:C.
    + apply Qltb_lt in C. destruct (IH x) as [H1 H2].
      split; [lra|]. intros y [<-|Hy]; [exact H1 | apply H2, Hy].
    + apply Qltb_ge in C. destruct (IH best) as [H1 H2].
      split; [exact H1|]. intros y [<-|Hy]; [lra | apply H2, Hy].
Qed.

Lemma argmin_least (A : Type) (f : A -> Q) l x :
  argmin f l = Some x -> forall y, In y l -> f x <= f y.
Proof.
  destruct l as [|a r]; [discriminate|]. cbn [argmin].
  intros H. injection H as <-.
  destruct (argmin_from_least A f r a) as [H1 H2].
  intros y [<-|Hy]; [exact H1 | apply H2, Hy].
Qed.

Lemma assign_tags_firstn tags :
  forall hs d k,
    In k (dict_keys (V2.assign_tags tags hs d)) ->
    In k (dict_keys d) \/ In k (firstn (List.length tags) hs).
Proof.
  induction tags as [|tag tags IH]; intros hs d k H; simpl in H;
    [left; exact H|].
  destruct hs as [|fs hs]; [left; exact H|].
  destruct (IH _ _ _ H) as [H'|H'].
  - apply dict_set_keys in H'. destruct H' as [H'| ->];
      [left; exact H' | right; left; reflexivity].
  - right. right. exact H'.
Qed.

Lemma descending_five : descending Examples.five_clusters.
Proof.
  unfold descending, Examples.five_clusters.
  repeat (constructor; [|repeat constructor; reflexivity]). constructor.
Qed.

End Nearest.


(** ** Documents of one page, and what [process_pdf_file] prepares *)

Module Prepared.
Import Py Shared Spec Facts Loops Layout.

Lemma V1_one_page_elements (doc : Doc) el :
  List.length doc = 1%nat ->
  In el (LinesV1.extract_text_elements doc) -> V1.page_num el = 1%Z.
Proof.
  intros Hlen H. apply Extracted.V1_extract_In in H.
  destruct H as [pg [sp [Hpg H]]].
  apply Extracted.V1_span_element in H.
  destruct H as [_ [_ [Hp _]]]. rewrite Hp, Hlen in *. lia.
Qed.

Lemma V2_prepare_fields page_count raw p :
  V2.prepare page_count raw = Ok p ->
  exists cleaned,
    V2.remove_header_footer raw 50 750 = Ok cleaned /\
    V2.prep_elements p = V2.merge_multiline_blocks cleaned /\
    V2.cluster_font_sizes (V2.prep_elements p) (5 # 10)
      = Ok (V2.prep_clusters p) /\
    V2.detect_title (V2.prep_elements p) (page_count =? 1)%Z
      = Ok (V2.prep_title p, V2.prep_title_size p) /\
    V2.prep_title_lines p
      = map V2.text
          (V2.title_lines_of (V2.prep_elements p) (V2.prep_title_size p)) /\
    V2.prep_page_offset p = (if (page_count =? 1)%Z then 0 else 1)%Z /\
    V2.prep_single_page p = (page_count =? 1)%Z.
Proof.
  unfold V2.prepare.
  destruct (V2.remove_header_footer raw 50 750) as [cleaned|] eqn:R;
    [|discriminate].
  cbv beta iota delta [bind].
  destruct (V2.cluster_font_sizes (V2.merge_multiline_blocks cleaned) (5 # 10))
    as [fc|] eqn:C; [|discriminate].
  destruct (V2.detect_title (V2.merge_multiline_blocks cleaned)
              (page_count =? 1)%Z) as [[t sz]|] eqn:T; [|discriminate].
  intros H. injection H as <-. cbn [V2.prep_elements V2.prep_clusters
    V2.prep_title V2.prep_title_size V2.prep_title_lines V2.prep_page_offset
    V2.prep_single_page fst snd].
  exists cleaned. split; [reflexivity|]. split; [reflexivity|].
  split; [exact C|]. split; [exact T|]. split; [reflexivity|].
  split; [|reflexivity]. destruct (page_count =? 1)%Z; reflexivity.
Qed.

End Prepared.


(** * The three pipelines, from the elements to the result *)

Module Behaviour.
Import Py Shared Spec Facts Loops.
Local Open Scope string_scope.

(** X1.  [process_pdf_file] of the first iteration never raises,
    whatever was extracted: [max] is taken of a list that is not empty,
    the sorted candidates of the title hold the largest line, and [mean]
    is taken of clusters that hold their base.  The title is empty or
    the text of an element of page 1; every entry of the outline carries
    the text and the page of an extracted element that is past page 1,
    has at least two characters and does not end with a full stop. *)
Theorem first_iteration_returns (extracted : list V1.TextElement) :
  exists title outline,
    V1.process_pdf_file extracted = Ok (mkOutcome title outline) /\
    (title = "" \/
     exists el, In el extracted /\ V1.page_num el = 1%Z
                /\ V1.text el = title) /\
    forall e, In e outline ->
      exists el,
        In el extracted /\ V1.page_num el <> 1%Z /\
        (2 <= len (V1.text el))%nat /\
        endswith "."%char (V1.text el) = false /\
        entry_text e = V1.text el /\ entry_page e = V1.page_num el.
Proof.
  unfold V1.process_pdf_file.
  set (text_els := V1.remove_header_footer extracted 50 750).
  assert (Hsub : forall el, In el text_els -> In el extracted).
  { intros el H. unfold text_els, V1.remove_header_footer in H.
    apply filter_In in H. tauto. }
  destruct (Total.clusters_returned (5 # 10) (V1.observed_sizes 2 text_els))
    as [fc [Hfc _]]; [discriminate | apply Cluster.observed_descending |].
  assert (Ht : exists t, V1.detect_title text_els = Ok t /\
                 (t = "" \/ exists el, In el extracted /\
                              V1.page_num el = 1%Z /\ V1.text el = t)).
  { destruct (Total.V1_title_choice text_els)
      as [[_ H]|[m [el [_ [_ [Hel [_ [_ H]]]]]]]].
    - exists "". split; [exact H | left; reflexivity].
    - exists (V1.text el). split; [exact H|]. right. exists el.
      apply filter_In in Hel. destruct Hel as [Hel Hp].
      apply Z.eqb_eq in Hp. split; [apply Hsub, Hel|]. split; [exact Hp|].
      reflexivity. }
  destruct Ht as [t [Ht Hsrc]].
  unfold V1.cluster_font_sizes. rewrite Ht, Hfc.
  cbv beta iota delta [bind].
  eexists. eexists. split; [reflexivity|]. split; [exact Hsrc|].
  intros e He. unfold V1.assign_headings, V1.emitted in He.
  apply in_map_iff in He. destruct He as [[el e'] [Heq Hin]].
  cbn [snd] in Heq. subst e'.
  apply V1_emitted_inv in Hin. destruct Hin as [Hel [last0 [lv [Hs He]]]].
  apply sorted_In in Hel.
  destruct (Steps.V1_step_some _ _ _ _ _ Hs) as [Hp [Hl [Hd _]]].
  exists el. split; [apply Hsub, Hel|]. split; [exact Hp|].
  split; [exact Hl|]. split; [exact Hd|]. rewrite He. split; reflexivity.
Qed.

(** X2.  [process_pdf_file] of the third iteration never raises either.
    The title is taken before the filter runs; every entry of the
    outline carries the text and the page of an extracted element that
    is past page 1 and whose text [is_heading_like] accepts. *)
Theorem third_iteration_returns (extracted : list V3.TextElement) :
  exists title outline,
    V3.process_pdf_file extracted = Ok (mkOutcome title outline) /\
    V3.detect_title extracted = Ok title /\
    forall e, In e outline ->
      exists el,
        In el extracted /\ V3.page_num el <> 1%Z /\
        V3.is_heading_like (V3.text el) = true /\
        entry_text e = V3.text el /\ entry_page e = V3.page_num el.
Proof.
  unfold V3.process_pdf_file.
  assert (Ht : exists t, V3.detect_title extracted = Ok t).
  { destruct (Total.V3_title_choice extracted)
      as [[_ H]|[m [c [rest [_ [_ H]]]]]]; eexists; exact H. }
  destruct Ht as [t Ht].
  set (text_els := V3.remove_header_footer extracted).
  assert (Hsub : forall el, In el text_els -> In el extracted).
  { intros el H. unfold text_els, V3.remove_header_footer in H.
    apply filter_In in H. tauto. }
  destruct (Total.clusters_returned (3 # 10) (V1.observed_sizes 1 text_els))
    as [fc [Hfc _]]; [discriminate | apply Cluster.observed_descending |].
  unfold V3.cluster_font_sizes. rewrite Ht, Hfc.
  cbv beta iota delta [bind].
  eexists. eexists. split; [reflexivity|]. split; [reflexivity|].
  intros e He. unfold V3.assign_headings, V3.emitted in He.
  apply in_map_iff in He. destruct He as [[el e'] [Heq Hin]].
  cbn [snd] in Heq. subst e'.
  apply V3_emitted_inv in Hin. destruct Hin as [Hel [lv [Hs He]]].
  apply sorted_In in Hel.
  destruct (Steps.V3_step_some _ _ _ _ Hs) as [Hp [Hk _]].
  exists el. split; [apply Hsub, Hel|]. split; [exact Hp|].
  split; [exact Hk|]. rewrite He. split; reflexivity.
Qed.

(** X3.  [process_pdf_file] of the second iteration returns whenever at
    least one line was extracted.  Every entry of its outline has a page
    number of at least 1 and a text of at least two characters and at
    most twelve words that does not end, trailing white space apart,
    with a full stop. *)
Theorem second_iteration_returns (page_count : Z)
    (raw_elements : list V2.TextElement) :
  raw_elements <> [] ->
  exists title outline,
    V2.process_pdf_file page_count raw_elements
      = Ok (mkOutcome title outline) /\
    forall e, In e outline ->
      (1 <= entry_page e)%Z /\
      (2 <= len (entry_text e))%nat /\
      (split_len (entry_text e) <= 12)%nat /\
      endswith "."%char (rstrip (entry_text e)) = false.
Proof.
  intros Hraw. unfold V2.process_pdf_file.
  destruct (Total.V2_prepare_returns page_count raw_elements Hraw) as [p Hp].
  rewrite Hp. cbv beta iota delta [bind].
  eexists. eexists. split; [reflexivity|].
  intros e He. unfold V2.assign_headings, V2.emitted in He.
  apply in_map_iff in He. destruct He as [[el e'] [Heq Hin]].
  cbn [snd] in Heq. subst e'.
  apply V2_emitted_inv in Hin. destruct Hin as [_ [last0 [lv [Hs He]]]].
  destruct (Steps.V2_step_some _ _ _ _ _ _ _ Hs) as [Hlp [Hl [Hd [Hw _]]]].
  rewrite He. cbn [entry_page entry_text].
  split; [lia|]. split; [exact Hl|]. split; [exact Hw|]. exact Hd.
Qed.

Lemma second_iteration_returns_witness :
  Examples.one_page_report <> [] /\
  exists title outline,
    V2.process_pdf_file 1 Examples.one_page_report
      = Ok (mkOutcome title outline).
Proof.
  assert (H : Examples.one_page_report <> []) by discriminate.
  split; [exact H|].
  destruct (second_iteration_returns 1 Examples.one_page_report H)
    as [title [outline [Hr _]]].
  exists title, outline. exact Hr.
Defined.

(** X4.  The title of the first iteration.  Without an element on page
    1 it is empty.  Otherwise it is the text of an element of page 1
    whose size is within 0.2 of the largest size of the page, and no
    element of the page that close to the largest size has a smaller
    score (height on the page plus half the distance from the middle of
    an A4 page). *)
Theorem first_iteration_title (els : list V1.TextElement) :
  (first_page_max els = Raise ValueError /\
   V1.detect_title els = Ok "") \/
  (exists m el,
      first_page_max els = Ok m /\
      (forall x, In x els -> V1.page_num x = 1%Z -> V1.font_size x <= m) /\
      In el els /\ V1.page_num el = 1%Z /\
      Qabs (V1.font_size el - m) < 2 # 10 /\
      (forall c, In c els -> V1.page_num c = 1%Z ->
                 Qabs (V1.font_size c - m) < 2 # 10 ->
                 V1.score el <= V1.score c) /\
      V1.detect_title els = Ok (V1.text el)).
Proof.
  unfold first_page_max.
  destruct (Total.V1_title_choice els)
    as [[E H]|[m [el [Hm [Hup [Hel [Hclose [Hleast H]]]]]]]].
  - left. rewrite E. split; [reflexivity | exact H].
  - right. exists m, el.
    assert (Hp : forall x, In x els -> V1.page_num x = 1%Z ->
                   In x (filter (fun el => (V1.page_num el =? 1)%Z) els)).
    { intros x Hx Hpx. apply filter_In. split; [exact Hx|].
      apply Z.eqb_eq. exact Hpx. }
    apply filter_In in Hel. destruct Hel as [Hel Hpel].
    apply Z.eqb_eq in Hpel.
    split; [exact Hm|].
    split; [intros x Hx Hpx; apply Hup, Hp; assumption|].
    split; [exact Hel|]. split; [exact Hpel|]. split; [exact Hclose|].
    split; [|exact H].
    intros c Hc Hpc Hcc. apply Hleast; [apply Hp; assumption | exact Hcc].
Qed.

(** X5.  The title of the third iteration.  Without an element on page
    1 it is empty.  Otherwise the candidates, the elements of page 1
    within 1.0 of the largest size [m] of the page, sorted by height,
    are a list [c :: rest] that is not empty; the title is the kept
    parts of the first five of them joined by two spaces, and when no
    part is kept it is the text of the topmost candidate [c]: the empty
    fallback of the last line is never taken. *)
Theorem third_iteration_title (els : list V3.TextElement) :
  (first_page_max els = Raise ValueError /\
   V3.detect_title els = Ok "") \/
  (exists m c rest,
      first_page_max els = Ok m /\
      sorted (fun a b => Qle_bool (V3.y0 a) (V3.y0 b))
        (filter (fun el => Qltb (Qabs (V3.font_size el - m)) 1)
           (filter (fun el => (V3.page_num el =? 1)%Z) els))
        = c :: rest /\
      In c els /\ V3.page_num c = 1%Z /\
      Qabs (V3.font_size c - m) < 1 /\
      (forall x, In x els -> V3.page_num x = 1%Z ->
                 Qabs (V3.font_size x - m) < 1 -> V3.y0 c <= V3.y0 x) /\
      V3.detect_title els =
        Ok (match V3.title_parts (c :: rest) with
            | [] => V3.text c
            | parts => join "  " parts
            end)).
Proof.
  unfold first_page_max.
  destruct (Total.V3_title_choice els) as [[E H]|[m [c [rest [Hm [S H]]]]]].
  - left. rewrite E. split; [reflexivity | exact H].
  - right. exists m, c, rest.
    split; [exact Hm|]. split; [exact S|].
    set (by_y := fun a b : V1.TextElement => Qle_bool (V1.y0 a) (V1.y0 b))
      in *.
    match type of S with
    | sorted _ ?l = _ => set (cands := l) in *
    end.
    assert (Hc : In c cands).
    { apply (sorted_In _ by_y). rewrite S. left. reflexivity. }
    apply filter_In in Hc. destruct Hc as [Hc Hclose].
    apply filter_In in Hc. destruct Hc as [Hc Hpc].
    apply Z.eqb_eq in Hpc. apply Qltb_lt in Hclose.
    split; [exact Hc|]. split; [exact Hpc|].
    split; [exact Hclose|]. split; [|exact H].
    intros x Hx Hpx Hxc.
    assert (Hxin : In x cands).
    { apply filter_In. split; [|apply Qltb_lt; exact Hxc].
      apply filter_In. split; [exact Hx | apply Z.eqb_eq; exact Hpx]. }
    assert (Htot : forall a b, by_y a b = false -> by_y b a = true).
    { intros a b. apply Order.Qle_bool_total. }
    assert (Htr : forall a b d,
               by_y a b = true -> by_y b d = true -> by_y a d = true).
    { intros a b d Hab Hbd. unfold by_y in *.
      apply Qle_bool_iff in Hab. apply Qle_bool_iff in Hbd.
      apply Qle_bool_iff. lra. }
    pose proof (Total.sorted_head_least _ by_y Htot Htr cands c rest S x Hxin)
      as Hle.
    apply Qle_bool_iff in Hle. exact Hle.
Qed.

(** X6.  [detect_title] of the second iteration never raises.  The
    title carries no white space at either end.  The size answered is
    [None] exactly when page 1 holds no element, and otherwise the size
    of an element of page 1 that no element of the page exceeds. *)
Theorem second_iteration_title (els : list V2.TextElement)
    (single_page : bool) :
  exists title size,
    V2.detect_title els single_page = Ok (title, size) /\
    strip title = title /\
    (size = None <-> forall x, In x els -> V2.page_num x <> 1%Z) /\
    forall m, size = Some m ->
      (exists el, In el els /\ V2.page_num el = 1%Z /\ V2.font_size el = m)
      /\ forall x, In x els -> V2.page_num x = 1%Z -> V2.font_size x <= m.
Proof.
  destruct (Total.V2_title_size els single_page) as [t [Ht Hs]].
  cbv zeta in Ht.
  destruct (filter (fun el => (V2.page_num el =? 1)%Z) els) as [|e0 fp] eqn:F.
  - exists t, None. split; [exact Ht|]. split; [exact Hs|].
    split; [|discriminate].
    split; [|reflexivity]. intros _ x Hx Hp.
    assert (Hin : In x (filter (fun el => (V2.page_num el =? 1)%Z) els)).
    { apply filter_In. split; [exact Hx | apply Z.eqb_eq; exact Hp]. }
    rewrite F in Hin. exact Hin.
  - set (m := fold_left Qmaxb (map V2.font_size fp) (V2.font_size e0)) in *.
    assert (Hp : forall x, In x els -> V2.page_num x = 1%Z -> In x (e0 :: fp)).
    { intros x Hx Hpx. rewrite <- F. apply filter_In.
      split; [exact Hx | apply Z.eqb_eq; exact Hpx]. }
    assert (He0 : In e0 els /\ V2.page_num e0 = 1%Z).
    { assert (H : In e0 (e0 :: fp)) by (left; reflexivity).
      rewrite <- F in H. apply filter_In in H. destruct H as [H1 H2].
      apply Z.eqb_eq in H2. split; assumption. }
    exists t, (Some m). split; [exact Ht|]. split; [exact Hs|]. split.
    + split; [discriminate|]. intros H. exfalso.
      destruct He0 as [H1 H2]. exact (H e0 H1 H2).
    + intros m' Hm'. injection Hm' as <-. split.
      * pose proof (EndToEnd.fold_Qmaxb_In (map V2.font_size fp)
                      (V2.font_size e0)) as H.
        fold m in H. change (In m (map V2.font_size (e0 :: fp))) in H.
        apply in_map_iff in H. destruct H as [el [Hfs Hel]].
        rewrite <- F in Hel. apply filter_In in Hel.
        destruct Hel as [Hel Hpel]. apply Z.eqb_eq in Hpel.
        exists el. split; [exact Hel|]. split; [exact Hpel | exact Hfs].
      * intros x Hx Hpx. apply Hp in Hx; [|exact Hpx].
        destruct (Total.fold_Qmaxb_upper (map V2.font_size fp)
                    (V2.font_size e0)) as [H1 H2].
        fold m in H1, H2. destruct Hx as [<-|Hx]; [exact H1|].
        apply H2. apply in_map. exact Hx.
Qed.

(** X7.  In each iteration the outline lists its entries by page: the
    elements are sorted by page, height and indent before the loop, and
    the loop appends in that order.  In the second iteration the page
    is the logical page, which grows with the physical page. *)
Theorem outline_in_page_order :
  forall (els1 : list V1.TextElement) (clusters1 : list Q) (title_size1 : Q)
         (els2 : list V2.TextElement) (clusters2 : list Q)
         (title_size2 : option Q) (title_lines : list string)
         (page_offset : Z) (is_single_page : bool)
         (els3 : list V3.TextElement) (clusters3 : list Q) (title_size3 : Q),
    StronglySorted by_entry_page
      (V1.assign_headings els1 clusters1 title_size1) /\
    StronglySorted by_entry_page
      (V2.assign_headings els2 clusters2 title_size2 title_lines
         page_offset is_single_page) /\
    StronglySorted by_entry_page
      (V3.assign_headings els3 clusters3 title_size3).
Proof.
  intros. split; [|split].
  - unfold V1.assign_headings, V1.emitted. apply Order.V1_loop_pages.
    apply Order.pages_strongly_sorted;
      [apply Order.V1_reading_order_total | apply Order.V1_reading_order_page].
  - unfold V2.assign_headings, V2.emitted. apply Order.V2_loop_pages.
    apply Order.pages_strongly_sorted;
      [apply Order.V2_reading_order_total | apply Order.V2_reading_order_page].
  - unfold V3.assign_headings, V3.emitted. apply Order.V3_loop_pages.
    apply Order.pages_strongly_sorted;
      [apply Order.V1_reading_order_total | apply Order.V1_reading_order_page].
Qed.

(** X8.  [merge_multiline_blocks] loses no text and no height: the
    texts of the merged lines, joined by single spaces, are the texts of
    the lines in block order joined by single spaces; the heights add up
    to the same; the merged lines are no more than the lines, and there
    is none only when there was none. *)
Theorem merge_keeps_text_and_height (els : list V2.TextElement) :
  join " " (map V2.text (V2.merge_multiline_blocks els))
    = join " " (map V2.text (sorted V2.block_order els)) /\
  sum (map V2.h (V2.merge_multiline_blocks els)) == sum (map V2.h els) /\
  (List.length (V2.merge_multiline_blocks els) <= List.length els)%nat /\
  (V2.merge_multiline_blocks els = [] <-> els = []).
Proof.
  unfold V2.merge_multiline_blocks.
  pose proof (sorted_perm _ V2.block_order els) as Hperm.
  pose proof (sorted_length _ V2.block_order els) as Hlen.
  destruct (sorted V2.block_order els) as [|first r] eqn:S.
  - apply Permutation_nil in Hperm. subst els.
    split; [reflexivity|]. split; [reflexivity|]. split; [apply Nat.le_refl|].
    split; reflexivity.
  - split; [apply Merge.merge_loop_text|]. split.
    + rewrite Merge.merge_loop_height.
      rewrite <- (Merge.sum_perm _ _ (Permutation_map V2.h Hperm)).
      reflexivity.
    + split.
      * rewrite <- Hlen. apply Merge.merge_loop_length.
      * split; intros H.
        -- exfalso. exact (Merge.merge_loop_nonempty r first H).
        -- subst els. apply Permutation_sym, Permutation_nil in Hperm.
           discriminate.
Qed.

(** X9.  Every merged line starts where one of the lines started: it
    has the page, block and line number, the font size and name, the
    bold and italic flags, the origin and the width of one of the lines
    handed in.  Only the text and the height of a line grow. *)
Theorem merged_line_keeps_start (els : list V2.TextElement)
    (o : V2.TextElement) :
  In o (V2.merge_multiline_blocks els) ->
  exists s, In s els /\ same_start o s.
Proof.
  unfold V2.merge_multiline_blocks. intros H.
  destruct (sorted V2.block_order els) as [|first r] eqn:S; [contradiction|].
  destruct (Merge.merge_loop_source r first first o
              (Merge.same_start_refl first) H) as [s [Hs Hss]].
  exists s. split; [|exact Hss].
  apply (sorted_In _ V2.block_order). rewrite S. exact Hs.
Qed.

Lemma merged_line_keeps_start_witness :
  In (V2.absorb (Examples.stacked_line "Annual" 100 0)
        (Examples.stacked_line "Report" 130 1))
     (V2.merge_multiline_blocks Examples.stacked_title) /\
  exists s,
    In s Examples.stacked_title /\
    same_start (V2.absorb (Examples.stacked_line "Annual" 100 0)
                  (Examples.stacked_line "Report" 130 1)) s.
Proof.
  assert (H : In (V2.absorb (Examples.stacked_line "Annual" 100 0)
                    (Examples.stacked_line "Report" 130 1))
                 (V2.merge_multiline_blocks Examples.stacked_title)).
  { vm_compute. left. reflexivity. }
  split; [exact H|].
  exact (merged_line_keeps_start Examples.stacked_title _ H).
Defined.

(** X10.  Merging is settled after one pass: in the result no line
    would be merged into the line before it, the result is in block
    order, and [merge_multiline_blocks] applied to it changes nothing. *)
Theorem merge_twice_is_merge_once (els : list V2.TextElement) :
  V2.merge_multiline_blocks (V2.merge_multiline_blocks els)
    = V2.merge_multiline_blocks els /\
  sorted V2.block_order (V2.merge_multiline_blocks els)
    = V2.merge_multiline_blocks els /\
  match V2.merge_multiline_blocks els with
  | [] => True
  | o :: r => unmergeable o r
  end.
Proof.
  assert (Hs : sorted V2.block_order (V2.merge_multiline_blocks els)
               = V2.merge_multiline_blocks els).
  { apply Settled.sorted_fixed. apply StronglySorted_Sorted.
    unfold V2.merge_multiline_blocks.
    pose proof (Settled.block_sorted els) as H.
    destruct (sorted V2.block_order els) as [|first r]; [constructor|].
    apply Settled.merge_loop_sorted. exact H. }
  assert (Hu : match V2.merge_multiline_blocks els with
               | [] => True
               | o :: r => unmergeable o r
               end).
  { unfold V2.merge_multiline_blocks.
    destruct (sorted V2.block_order els) as [|first r]; [exact I|].
    destruct (Settled.merge_loop_unmergeable r first) as [o [r' [E [_ U]]]].
    rewrite E. exact U. }
  split; [|split; [exact Hs | exact Hu]].
  unfold V2.merge_multiline_blocks at 1. rewrite Hs.
  destruct (V2.merge_multiline_blocks els) as [|o r]; [reflexivity|].
  apply Settled.merge_loop_fixed. exact Hu.
Qed.

(** X11.  The levels of the first iteration.  With the clusters in
    descending order, the cluster at index 0, 1, 2 among those farther
    than 0.3 from the title size is mapped to H1, H2, H3, and a cluster
    at a later index has no level: an element whose closest cluster is
    such a cluster appends nothing and leaves the last level as it
    was. *)
Theorem first_iteration_levels (font_clusters : list Q) (title_font_size : Q)
    (i : nat) (fs : Q) :
  descending font_clusters ->
  nth_error (V1.heading_font_sizes font_clusters title_font_size) i
    = Some fs ->
  dict_get (V1.font_size_to_level font_clusters title_font_size) fs
    = first_three i /\
  ((3 <= i)%nat ->
   forall last el,
     argmin (fun s => Qabs (V1.font_size el - s)) font_clusters = Some fs ->
     V1.heading_step font_clusters
       (V1.font_size_to_level font_clusters title_font_size) last el
     = (last, None)).
Proof.
  intros Hd Hn.
  pose proof (Levels.V1_levels_first_three _ _ _ _ Hd Hn) as H.
  split; [exact H|]. intros Hi last el Ha.
  unfold V1.heading_step. rewrite Ha, H.
  destruct i as [|[|[|i]]]; try lia. cbn [first_three].
  destruct (V1.page_num el =? 1)%Z; [reflexivity|].
  destruct (len (V1.text el) <? 2)%nat; reflexivity.
Qed.

Lemma first_iteration_levels_witness :
  dict_get (V1.font_size_to_level Examples.five_clusters 24) 12 = None /\
  V1.heading_step Examples.five_clusters
    (V1.font_size_to_level Examples.five_clusters 24) 1
    (V1.TextElement_init "Footnotes" 12 "Helvetica" false false 72 500 2)
  = (1%nat, None).
Proof.
  destruct (first_iteration_levels Examples.five_clusters 24 3 12
              Nearest.descending_five eq_refl) as [H1 H2].
  split; [exact H1|]. apply H2; [apply Nat.le_refl | reflexivity].
Defined.

(** X12.  The levels of the second iteration.  With the clusters in
    descending order, the cluster at index 0, 1, 2 among those not
    within 0.3 of the title size is mapped to H1, H2, H3 and a later one
    is no key; the keys are among the first three such clusters, so an
    element farther than 0.3 from each of them appends nothing. *)
Theorem second_iteration_levels (font_clusters : list Q)
    (title_font_size : option Q) (i : nat) (fs : Q) :
  descending font_clusters ->
  nth_error (V2.heading_clusters font_clusters title_font_size) i = Some fs ->
  dict_get (V2.levels_of font_clusters title_font_size) fs = first_three i /\
  forall title_lines page_offset single last el,
    (forall c,
        In c (firstn 3 (V2.heading_clusters font_clusters title_font_size)) ->
        3 # 10 < Qabs (V2.font_size el - c)) ->
    snd (V2.heading_step (V2.levels_of font_clusters title_font_size)
           title_lines page_offset single last el) = None.
Proof.
  intros Hd Hn.
  split; [exact (Levels.V2_levels_first_three _ _ _ _ Hd Hn)|].
  intros title_lines page_offset single last el Hfar.
  destruct (snd (V2.heading_step _ title_lines page_offset single last el))
    as [lv|] eqn:Hs; [|reflexivity].
  exfalso.
  destruct (Steps.V2_step_some _ _ _ _ _ _ _ Hs)
    as [_ [_ [_ [_ [_ [c [Hc Hclose]]]]]]].
  unfold V2.levels_of in Hc. apply Nearest.assign_tags_firstn in Hc.
  destruct Hc as [[]|Hc]. specialize (Hfar c Hc). lra.
Qed.

Lemma second_iteration_levels_witness :
  dict_get (V2.levels_of Examples.five_clusters (Some 24)) 12 = None /\
  snd (V2.heading_step (V2.levels_of Examples.five_clusters (Some 24))
         [] 1 false 0
         (V2.TextElement_init "Footnotes" 12 "Helvetica" false false
            72 500 200 12 2 0 0)) = None.
Proof.
  destruct (second_iteration_levels Examples.five_clusters (Some 24) 3 12
              Nearest.descending_five eq_refl) as [H1 H2].
  split; [exact H1|]. apply H2.
  intros c Hc. vm_compute in Hc.
  destruct Hc as [<-|[<-|[<-|[]]]]; reflexivity.
Defined.

(** X13.  The level of an entry comes from a nearest cluster.  In each
    iteration, when a step appends an entry, the cluster the element was
    matched with is one at which the distance to the size of the element
    is least (among all clusters in the first iteration, among the keys
    of the levels in the second, among the heading sizes in the third),
    that cluster has a level, and the level of the entry is that level
    unless the numbering of the text overrides it.  In the second
    iteration the distance is at most 0.3, in the third at most 1. *)
Theorem entry_level_from_nearest_cluster :
  (forall font_clusters levels last (el : V1.TextElement) lv,
      snd (V1.heading_step font_clusters levels last el) = Some lv ->
      exists c lv0,
        In c font_clusters /\
        (forall s, In s font_clusters ->
           Qabs (V1.font_size el - c) <= Qabs (V1.font_size el - s)) /\
        dict_get levels c = Some lv0 /\
        lv = V1.override (V1.find_numbering_level (V1.text el)) lv0) /\
  (forall levels title_lines page_offset single last (el : V2.TextElement) lv,
      snd (V2.heading_step levels title_lines page_offset single last el)
        = Some lv ->
      exists c lv0,
        In c (dict_keys levels) /\
        (forall s, In s (dict_keys levels) ->
           Qabs (V2.font_size el - c) <= Qabs (V2.font_size el - s)) /\
        Qabs (V2.font_size el - c) <= 3 # 10 /\
        dict_get levels c = Some lv0 /\
        lv = V2.override (V2.find_numbering_level (V2.text el)) lv0) /\
  (forall hs levels (el : V3.TextElement) lv,
      V3.heading_step hs levels el = Some lv ->
      exists c,
        In c hs /\
        (forall s, In s hs ->
           Qabs (V3.font_size el - c) <= Qabs (V3.font_size el - s)) /\
        Qabs (V3.font_size el - c) <= 1 /\
        lv = V3.override (V3.find_numbering_level (V3.text el))
               (match dict_get levels c with
                | Some lv0 => lv0
                | None => H3
                end)).
Proof.
  split; [|split].
  - intros fc levels last el lv. unfold V1.heading_step.
    destruct (V1.page_num el =? 1)%Z; [discriminate|].
    destruct (len (V1.text el) <? 2)%nat; [discriminate|].
    destruct (argmin _ fc) as [c|] eqn:A; [|discriminate].
    destruct (dict_get levels c) as [lv0|] eqn:D; [|discriminate].
    destruct (endswith "."%char (V1.text el)); [discriminate|].
    cbn [snd]. intros H. injection H as <-. exists c, lv0.
    split; [exact (Levels.argmin_In _ _ _ _ A)|].
    split; [exact (Nearest.argmin_least _ _ _ _ A)|].
    split; [exact D | reflexivity].
  - intros levels title_lines page_offset single last el lv.
    unfold V2.heading_step.
    destruct (V2.logical_page page_offset single el <? 0)%Z; [discriminate|].
    destruct ((V2.page_num el =? 1)%Z
              && negb (List.length title_lines =? 0)%nat
              && mem_str (V2.text el) title_lines); [discriminate|].
    destruct (len (V2.text el) <? 2)%nat; [discriminate|].
    destruct (argmin snd _) as [[c delta]|] eqn:A; [|discriminate].
    destruct (Qgtb delta (3 # 10)) eqn:G; [discriminate|].
    destruct (dict_get levels c) as [lv0|] eqn:D; [|discriminate].
    destruct (endswith "."%char (rstrip (V2.text el))); [discriminate|].
    destruct (12 <? split_len (V2.text el))%nat; [discriminate|].
    destruct (level_order _ <? last)%nat; [discriminate|].
    cbn [snd]. intros H. injection H as <-. exists c, lv0.
    pose proof (Levels.argmin_In _ _ _ _ A) as Hin.
    apply in_map_iff in Hin. destruct Hin as [fs [Heq Hfs]].
    injection Heq as -> <-.
    split; [exact Hfs|]. split.
    + intros s Hs.
      apply (Nearest.argmin_least _ _ _ _ A
               (s, Qabs (V2.font_size el - s))).
      apply (in_map (fun fs => (fs, Qabs (V2.font_size el - fs)))).
      exact Hs.
    + split; [unfold Qgtb in G; apply Qltb_ge in G; exact G|].
      split; [exact D | reflexivity].
  - intros hs levels el lv. unfold V3.heading_step.
    destruct (V1.page_num el =? 1)%Z; [discriminate|].
    destruct (negb (V3.is_heading_like (V1.text el))); [discriminate|].
    destruct (argmin _ hs) as [c|] eqn:A; [|discriminate].
    destruct (Qgtb (Qabs (V1.font_size el - c)) 1) eqn:G; [discriminate|].
    intros H. injection H as <-. exists c.
    split; [exact (Levels.argmin_In _ _ _ _ A)|].
    split; [exact (Nearest.argmin_least _ _ _ _ A)|].
    split; [unfold Qgtb in G; apply Qltb_ge in G; exact G | reflexivity].
Qed.

(** X14.  The lookups of the levels never miss.  In the second
    iteration the cluster chosen among the keys of [levels] is a key of
    [levels], so [levels[cluster_val]] raises no [KeyError]; in the
    third iteration every heading size is a key of the dictionary, so
    the default of [get] is never answered. *)
Theorem level_lookups_never_miss :
  (forall (levels : dict level) (el : V2.TextElement) (cluster_val delta : Q),
      argmin snd
        (map (fun fs => (fs, Qabs (V2.font_size el - fs))) (dict_keys levels))
        = Some (cluster_val, delta) ->
      exists lv, dict_get levels cluster_val = Some lv) /\
  (forall (font_clusters : list Q) (title_font_size : Q)
          (el : V3.TextElement) (closest : Q),
      argmin (fun fs => Qabs (V3.font_size el - fs))
        (V3.heading_font_sizes font_clusters title_font_size) = Some closest ->
      exists lv,
        dict_get (V3.font_size_to_level font_clusters title_font_size) closest
          = Some lv).
Proof.
  split.
  - intros levels el cv delta H. apply Levels.argmin_In in H.
    apply in_map_iff in H. destruct H as [fs [Heq Hfs]].
    injection Heq as -> _. apply Levels.dict_get_present. exact Hfs.
  - intros fc t el c H. apply Levels.argmin_In in H.
    unfold V3.font_size_to_level. apply Levels.assign_levels_present.
    left. exact H.
Qed.

(** X15.  On a document of one page the filter of the first iteration
    keeps exactly the lines between the two thresholds: every text of a
    margin occurs once or more, which is more than 0.7 times one page,
    so every line above 50 or below 750 counts as a running header or
    footer. *)
Theorem first_iteration_one_page_margins (doc : Layout.Doc)
    (el : V1.TextElement) :
  List.length doc = 1%nat ->
  (In el (V1.remove_header_footer (LinesV1.extract_text_elements doc) 50 750)
   <->
   In el (LinesV1.extract_text_elements doc) /\
   50 <= V1.y0 el /\ V1.y0 el <= 750).
Proof.
  intros Hlen.
  rewrite (Further.V1_one_page_filter _ 1%Z 50 750)
    by (intros x Hx; apply (Prepared.V1_one_page_elements doc x Hlen Hx)).
  rewrite filter_In, andb_true_iff, !negb_true_iff.
  unfold Qgtb. rewrite !Qltb_ge. tauto.
Qed.

Lemma first_iteration_one_page_margins_witness :
  List.length Examples.leaflet = 1%nat /\
  In (V1.TextElement_init "1. Birds" 16 "Helvetica-Bold" true false 72 200 1)
     (V1.remove_header_footer
        (LinesV1.extract_text_elements Examples.leaflet) 50 750).
Proof.
  split; [reflexivity|].
  apply (first_iteration_one_page_margins Examples.leaflet _ eq_refl).
  split; [vm_compute; right; right; left; reflexivity|].
  split; vm_compute; discriminate.
Defined.

(** X16.  For a document of one page the first and the third iteration
    answer an empty outline: every extracted element is on page 1, and
    both loops skip page 1. *)
Theorem one_page_outline_is_empty (doc : Layout.Doc) :
  List.length doc = 1%nat ->
  (exists title, run1 doc = Ok (mkOutcome title [])) /\
  (exists title, run3 doc = Ok (mkOutcome title [])).
Proof.
  intros Hlen. unfold run1, run3.
  set (extracted := LinesV1.extract_text_elements doc).
  assert (Hp : forall el, In el extracted -> V1.page_num el = 1%Z).
  { intros el. apply Prepared.V1_one_page_elements. exact Hlen. }
  split.
  - unfold V1.process_pdf_file.
    set (text_els := V1.remove_header_footer extracted 50 750).
    assert (Hsub : forall el, In el text_els -> V1.page_num el = 1%Z).
    { intros el H. unfold text_els, V1.remove_header_footer in H.
      apply filter_In in H. apply Hp. tauto. }
    destruct (EndToEnd.V1_title_source text_els) as [t [Ht _]].
    destruct (Total.clusters_returned (5 # 10)
                (V1.observed_sizes 2 text_els))
      as [fc [Hfc _]]; [discriminate | apply Cluster.observed_descending |].
    unfold V1.cluster_font_sizes. rewrite Ht, Hfc.
    cbv beta iota delta [bind].
    rewrite (Further.V1_first_page_only _ _ _ Hsub). exists t. reflexivity.
  - unfold V3.process_pdf_file.
    set (text_els := V3.remove_header_footer extracted).
    assert (Hsub : forall el, In el text_els -> V1.page_num el = 1%Z).
    { intros el H. unfold text_els, V3.remove_header_footer in H.
      apply filter_In in H. apply Hp. tauto. }
    assert (Ht : exists t, V3.detect_title extracted = Ok t).
    { destruct (Total.V3_title_choice extracted)
        as [[_ H]|[m [c [rest [_ [_ H]]]]]]; eexists; exact H. }
    destruct Ht as [t Ht].
    destruct (Total.clusters_returned (3 # 10)
                (V1.observed_sizes 1 text_els))
      as [fc [Hfc _]]; [discriminate | apply Cluster.observed_descending |].
    unfold V3.cluster_font_sizes. rewrite Ht, Hfc.
    cbv beta iota delta [bind].
    rewrite (Further.V3_first_page_only _ _ _ Hsub). exists t. reflexivity.
Qed.

Lemma one_page_outline_is_empty_witness :
  List.length Examples.leaflet = 1%nat /\
  (exists title, run1 Examples.leaflet = Ok (mkOutcome title [])) /\
  (exists title, run3 Examples.leaflet = Ok (mkOutcome title [])).
Proof.
  split; [reflexivity|].
  exact (one_page_outline_is_empty Examples.leaflet eq_refl).
Defined.

(** X17.  The second iteration never emits a line of page 1 that is
    set within 0.2 of the title size: with a title size that is not
    zero, the texts of those lines are the [title_lines] handed to
    [assign_headings], which skips them.  (On documents of more than
    one page nothing of page 1 is emitted at all; this is what protects
    the title on a document of one page.) *)
Theorem second_iteration_skips_title_lines (page_count : Z)
    (raw_elements : list V2.TextElement) (p : V2.Prepared) (t : Q)
    (el : V2.TextElement) (e : OutlineEntry) :
  V2.prepare page_count raw_elements = Ok p ->
  V2.prep_title_size p = Some t ->
  V2.truthy t = true ->
  In (el, e)
     (V2.emitted (V2.prep_elements p) (V2.prep_clusters p)
        (V2.prep_title_size p) (V2.prep_title_lines p)
        (V2.prep_page_offset p) (V2.prep_single_page p)) ->
  V2.page_num el = 1%Z ->
  2 # 10 <= Qabs (V2.font_size el - t).
Proof.
  intros Hp Ht Htr Hin Hpage.
  destruct (Prepared.V2_prepare_fields _ _ _ Hp)
    as [cleaned [_ [_ [_ [_ [Hlines _]]]]]].
  unfold V2.emitted in Hin. apply V2_emitted_inv in Hin.
  destruct Hin as [Hel [last0 [lv [Hs _]]]]. apply sorted_In in Hel.
  apply Qltb_ge. destruct (Qltb (Qabs (V2.font_size el - t)) (2 # 10)) eqn:C;
    [|reflexivity].
  exfalso.
  rewrite Further.V2_step_title_line in Hs; [discriminate | exact Hpage |].
  rewrite Hlines, Ht. unfold V2.title_lines_of. rewrite Htr.
  apply in_map. apply filter_In. split; [exact Hel|].
  rewrite C. apply Z.eqb_eq in Hpage. rewrite Hpage. reflexivity.
Qed.

Lemma second_iteration_skips_title_lines_witness :
  exists p,
    V2.prepare 1 Examples.one_page_report = Ok p /\
    V2.prep_title_size p = Some 24 /\
    In (Examples.report_line "Introduction" 16 300 1,
        mkEntry H1 "Introduction" 1)
       (V2.emitted (V2.prep_elements p) (V2.prep_clusters p)
          (V2.prep_title_size p) (V2.prep_title_lines p)
          (V2.prep_page_offset p) (V2.prep_single_page p)) /\
    2 # 10 <= Qabs (16 - 24).
Proof.
  destruct (V2.prepare 1 Examples.one_page_report) as [p|] eqn:Hp;
    [|vm_compute in Hp; discriminate].
  exists p.
  assert (Hp' := Hp). vm_compute in Hp'. injection Hp' as Hp'.
  assert (Hsize : V2.prep_title_size p = Some 24)
    by (rewrite <- Hp'; reflexivity).
  assert (Hin : In (Examples.report_line "Introduction" 16 300 1,
                    mkEntry H1 "Introduction" 1)
                   (V2.emitted (V2.prep_elements p) (V2.prep_clusters p)
                      (V2.prep_title_size p) (V2.prep_title_lines p)
                      (V2.prep_page_offset p) (V2.prep_single_page p))).
  { rewrite <- Hp'. vm_compute. left. reflexivity. }
  split; [reflexivity|]. split; [exact Hsize|]. split; [exact Hin|].
  exact (second_iteration_skips_title_lines 1 Examples.one_page_report p 24
           _ _ Hp Hsize eq_refl Hin eq_refl).
Defined.

(** X18.  The clusters cover the sizes.  For a tolerance that is not
    negative, [cluster_font_sizes] of each iteration answers a strictly
    descending list of no more values than there are elements, and the
    rounded size of every element (in the second iteration: of every
    element whose size is not zero) is within the tolerance of one of
    the values. *)
Theorem clusters_cover_sizes (els1 : list V1.TextElement)
    (els2 : list V2.TextElement) (tolerance : Q) :
  0 <= tolerance ->
  (exists clusters,
      V1.cluster_font_sizes els1 tolerance = Ok clusters /\
      descending clusters /\
      (List.length clusters <= List.length els1)%nat /\
      forall el, In el els1 ->
        exists m, In m clusters
                  /\ Qabs (m - round (V1.font_size el) 2) <= tolerance) /\
  (exists clusters,
      V2.cluster_font_sizes els2 tolerance = Ok clusters /\
      descending clusters /\
      (List.length clusters <= List.length els2)%nat /\
      forall el, In el els2 -> V2.truthy (V2.font_size el) = true ->
        exists m, In m clusters
                  /\ Qabs (m - round (V2.font_size el) 2) <= tolerance) /\
  (exists clusters,
      V3.cluster_font_sizes els1 tolerance = Ok clusters /\
      descending clusters /\
      (List.length clusters <= List.length els1)%nat /\
      forall el, In el els1 ->
        exists m, In m clusters
                  /\ Qabs (m - round (V3.font_size el) 1) <= tolerance).
Proof.
  intros Htol. split; [|split].
  - destruct (Further.clusters_close tolerance
                (map (fun el => round (V1.font_size el) 2) els1) Htol)
      as [cl [H [Hd [Hl Hc]]]].
    exists cl. split; [exact H|]. split; [exact Hd|].
    rewrite length_map in Hl. split; [exact Hl|].
    intros el Hel. apply Hc.
    apply (in_map (fun el => round (V1.font_size el) 2)). exact Hel.
  - destruct (Further.clusters_close tolerance
                (map (fun el => round (V2.font_size el) 2)
                   (filter (fun el => V2.truthy (V2.font_size el)) els2))
                Htol)
      as [cl [H [Hd [Hl Hc]]]].
    exists cl. split; [exact H|]. split; [exact Hd|].
    rewrite length_map in Hl.
    pose proof (filter_length_le (fun el => V2.truthy (V2.font_size el)) els2).
    split; [lia|].
    intros el Hel Htr. apply Hc.
    apply (in_map (fun el => round (V2.font_size el) 2)).
    apply filter_In. split; assumption.
  - destruct (Further.clusters_close tolerance
                (map (fun el => round (V1.font_size el) 1) els1) Htol)
      as [cl [H [Hd [Hl Hc]]]].
    exists cl. split; [exact H|]. split; [exact Hd|].
    rewrite length_map in Hl. split; [exact Hl|].
    intros el Hel. apply Hc.
    apply (in_map (fun el => round (V1.font_size el) 1)). exact Hel.
Qed.

Lemma clusters_cover_sizes_witness :
  0 <= 5 # 10 /\
  exists clusters,
    V1.cluster_font_sizes Examples.review (5 # 10) = Ok clusters /\
    (List.length clusters <= List.length Examples.review)%nat.
Proof.
  assert (H : 0 <= 5 # 10) by discriminate.
  split; [exact H|].
  destruct (clusters_cover_sizes Examples.review Examples.one_page_report
              (5 # 10) H) as [[cl [Hc [_ [Hl _]]]] _].
  exists cl. split; [exact Hc | exact Hl].
Defined.

(** X19.  The three numbering analyzers.  Each answers a depth between
    1 and 3 or nothing; whenever the second or the third answers a
    depth, the first answers the same depth; and each answers for a
    text what it answers for the trimmed text. *)
Theorem numbering_analyzers_agree (t : string) :
  (forall n, V1.find_numbering_level t = Some n -> (1 <= n <= 3)%nat) /\
  (forall n, V2.find_numbering_level t = Some n ->
             V1.find_numbering_level t = Some n) /\
  (forall n, V3.find_numbering_level t = Some n ->
             V1.find_numbering_level t = Some n) /\
  V1.find_numbering_level (strip t) = V1.find_numbering_level t /\
  V2.find_numbering_level (strip t) = V2.find_numbering_level t /\
  V3.find_numbering_level (strip t) = V3.find_numbering_level t.
Proof.
  split; [intros n; apply Steps.V1_numbering_range|].
  split; [intros n; apply Steps.V2_numbering_V1|].
  split; [intros n; apply Steps.V3_numbering_V1|].
  unfold V1.find_numbering_level, V2.find_numbering_level,
    V3.find_numbering_level.
  rewrite Strings.strip_idem. repeat split; reflexivity.
Qed.

(** X20.  A numbering decides the level.  In each iteration, an entry
    emitted for an element whose text carries a numbering of depth 1,
    2 or 3, as the analyzer of that iteration reads it, has level H1,
    H2 or H3, whatever the font size says; the branch that keeps the
    level of the font is taken only when there is no numbering. *)
Theorem numbering_decides_level :
  forall (els1 : list V1.TextElement) (clusters1 : list Q) (title_size1 : Q)
         (els2 : list V2.TextElement) (clusters2 : list Q)
         (title_size2 : option Q) (title_lines : list string)
         (page_offset : Z) (is_single_page : bool)
         (els3 : list V3.TextElement) (clusters3 : list Q) (title_size3 : Q),
    (forall el e n,
        In (el, e) (V1.emitted els1 clusters1 title_size1) ->
        V1.find_numbering_level (V1.text el) = Some n ->
        entry_level e = numbered n) /\
    (forall el e n,
        In (el, e) (V2.emitted els2 clusters2 title_size2 title_lines
                      page_offset is_single_page) ->
        V2.find_numbering_level (V2.text el) = Some n ->
        entry_level e = numbered n) /\
    (forall el e n,
        In (el, e) (V3.emitted els3 clusters3 title_size3) ->
        V3.find_numbering_level (V3.text el) = Some n ->
        entry_level e = numbered n).
Proof.
  intros. split; [|split]; intros el e n Hin Hn.
  - unfold V1.emitted in Hin. apply V1_emitted_inv in Hin.
    destruct Hin as [_ [last0 [lv [Hs He]]]].
    destruct (Steps.V1_step_level _ _ _ _ _ Hs) as [lv0 Hlv].
    rewrite He, Hlv, Hn. cbn [entry_level].
    apply Steps.override_numbered. apply (Steps.V1_numbering_range _ _ Hn).
  - unfold V2.emitted in Hin. apply V2_emitted_inv in Hin.
    destruct Hin as [_ [last0 [lv [Hs He]]]].
    destruct (Steps.V2_step_level _ _ _ _ _ _ _ Hs) as [lv0 Hlv].
    rewrite He, Hlv, Hn. cbn [entry_level].
    apply Steps.override_numbered.
    apply (Steps.V1_numbering_range (V2.text el)).
    apply Steps.V2_numbering_V1. exact Hn.
  - unfold V3.emitted in Hin. apply V3_emitted_inv in Hin.
    destruct Hin as [_ [lv [Hs He]]].
    destruct (Steps.V3_step_level _ _ _ _ Hs) as [lv0 Hlv].
    rewrite He, Hlv, Hn. cbn [entry_level].
    apply Steps.override_numbered.
    apply (Steps.V1_numbering_range (V1.text el)).
    apply Steps.V3_numbering_V1. exact Hn.
Qed.

(** X21.  The style flags of [extract_text_elements].  A font is bold
    exactly when its name in lower case contains "bold": the first test,
    for "Bold", adds nothing.  A font is italic exactly when its name in
    lower case contains "italic" or its name contains "Oblique" as
    written: the test for "Italic" adds nothing, the one for "Oblique"
    does. *)
Theorem style_flags_by_lower_case (font_name : string) :
  Layout.is_bold_font font_name = contains "bold" (lower font_name) /\
  Layout.is_italic_font font_name
    = contains "italic" (lower font_name) || contains "Oblique" font_name.
Proof.
  split; [apply Further.is_bold_font_spec | apply Further.is_italic_font_spec].
Qed.

(** X22.  What the first and the third iteration extract.  The
    elements are exactly what the runs of the text blocks that are not
    blank give: an element is extracted if and only if some page of the
    document, at index [pg], has a block of type 0 with a line with a
    run whose text is not blank, and the element is built from the
    text, the size, the font and the origin of that run, the flags of
    its font and the page number [pg + 1].  So the text of every
    element is not blank and is left unchanged by trimming, and its
    page number lies between 1 and the number of pages. *)
Theorem extracted_elements_are_visible_runs (doc : Layout.Doc)
    (el : V1.TextElement) :
  (In el (LinesV1.extract_text_elements doc) <->
   exists pg page b line sp,
     nth_error doc pg = Some page /\ In b page /\
     Layout.block_type b = 0%Z /\
     In line (Layout.block_lines b) /\ In sp (Layout.line_spans line) /\
     blank (Layout.span_text sp) = false /\
     el = V1.TextElement_init (Layout.span_text sp) (Layout.span_size sp)
            (Layout.span_font sp)
            (Layout.is_bold_font (Layout.span_font sp))
            (Layout.is_italic_font (Layout.span_font sp))
            (Layout.bbox0 sp) (Layout.bbox1 sp) (Z.of_nat pg + 1)) /\
  (In el (LinesV1.extract_text_elements doc) ->
   blank (V1.text el) = false /\
   strip (V1.text el) = V1.text el /\
   (1 <= V1.page_num el <= Z.of_nat (List.length doc))%Z).
Proof.
  assert (Hiff :
    In el (LinesV1.extract_text_elements doc) <->
    exists pg page b line sp,
      nth_error doc pg = Some page /\ In b page /\
      Layout.block_type b = 0%Z /\
      In line (Layout.block_lines b) /\ In sp (Layout.line_spans line) /\
      blank (Layout.span_text sp) = false /\
      el = V1.TextElement_init (Layout.span_text sp) (Layout.span_size sp)
             (Layout.span_font sp)
             (Layout.is_bold_font (Layout.span_font sp))
             (Layout.is_italic_font (Layout.span_font sp))
             (Layout.bbox0 sp) (Layout.bbox1 sp) (Z.of_nat pg + 1)).
  { unfold LinesV1.extract_text_elements, Layout.enumerate. split.
    - intros H. apply in_flat_map in H. destruct H as [[i page] [Hp H]].
      apply Extracted.enumerate_from_nth in Hp. destruct Hp as [pg [Hi Hpg]].
      cbn [fst snd] in H.
      apply in_flat_map in H. destruct H as [b [Hb H]].
      unfold LinesV1.block_elements in H.
      destruct (Layout.block_type b =? 0)%Z eqn:T; [|contradiction].
      cbn [negb] in H. apply Z.eqb_eq in T.
      apply in_flat_map in H. destruct H as [line [Hl H]].
      apply in_flat_map in H. destruct H as [sp [Hs H]].
      unfold LinesV1.span_elements in H.
      rewrite Strings.is_empty_strip in H.
      destruct (blank (Layout.span_text sp)) eqn:B; [contradiction|].
      destruct H as [<-|[]].
      exists pg, page, b, line, sp. subst i.
      repeat split; try assumption.
    - intros [pg [page [b [line [sp [Hpg [Hb [T [Hl [Hs [B ->]]]]]]]]]]].
      apply in_flat_map. exists (Z.of_nat pg, page). split.
      + apply Extracted.enumerate_from_nth. exists pg.
        split; [reflexivity | exact Hpg].
      + cbn [fst snd]. apply in_flat_map. exists b. split; [exact Hb|].
        unfold LinesV1.block_elements. rewrite T. cbn [Z.eqb negb].
        apply in_flat_map. exists line. split; [exact Hl|].
        apply in_flat_map. exists sp. split; [exact Hs|].
        unfold LinesV1.span_elements.
        rewrite Strings.is_empty_strip, B. left. reflexivity. }
  split; [exact Hiff|].
  intros H. apply Hiff in H.
  destruct H as [pg [page [b [line [sp [Hpg [_ [_ [_ [_ [B ->]]]]]]]]]]].
  unfold V1.TextElement_init. cbn [V1.text V1.page_num].
  split; [apply Strings.strip_not_blank; exact B|].
  split; [apply Strings.strip_idem|].
  assert (pg < List.length doc)%nat
    by (apply nth_error_Some; rewrite Hpg; discriminate).
  lia.
Qed.

Lemma extracted_elements_are_visible_runs_witness :
  In (V1.TextElement_init "Field " 24 "Helvetica-Bold" true false 72 100 1)
     (LinesV1.extract_text_elements Examples.leaflet) /\
  blank "Field" = false /\
  strip "Field" = "Field".
Proof.
  assert (H : In (V1.TextElement_init "Field " 24 "Helvetica-Bold" true false
                    72 100 1)
                 (LinesV1.extract_text_elements Examples.leaflet))
    by (vm_compute; left; reflexivity).
  split; [exact H|].
  destruct (proj2 (extracted_elements_are_visible_runs Examples.leaflet _) H)
    as [H1 [H2 _]].
  split; [exact H1 | exact H2].
Defined.

(** X23.  What the second iteration extracts.  The elements are exactly
    what the lines of the text blocks that hold a run that is not blank
    give: an element is extracted if and only if some page of the
    document, at index [pg], has at index [bn] a block of type 0 that
    has at index [ln] a line with a first run [sp] that is not blank,
    and the element is built from the trimmed texts of all the runs of
    that line that are not blank, joined by single spaces, from the
    size, the font, the flags, the origin, the width and the height of
    [sp], whatever the later runs are, and from [pg + 1], [bn] and
    [ln].  So the text of every element is not blank and its page
    number lies between 1 and the number of pages. *)
Theorem extracted_lines_follow_first_run (doc : Layout.Doc)
    (el : V2.TextElement) :
  (In el (LinesV2.extract_text_elements doc) <->
   exists pg page bn b ln line sp,
     nth_error doc pg = Some page /\ nth_error page bn = Some b /\
     Layout.block_type b = 0%Z /\
     nth_error (Layout.block_lines b) ln = Some line /\
     first_visible (Layout.line_spans line) = Some sp /\
     el = V2.TextElement_init
            (join " " (visible_texts (Layout.line_spans line)))
            (Layout.span_size sp) (Layout.span_font sp)
            (Layout.is_bold_font (Layout.span_font sp))
            (Layout.is_italic_font (Layout.span_font sp))
            (Layout.bbox0 sp) (Layout.bbox1 sp)
            (Layout.bbox2 sp - Layout.bbox0 sp)
            (Layout.bbox3 sp - Layout.bbox1 sp)
            (Z.of_nat pg + 1) (Z.of_nat bn) (Z.of_nat ln)) /\
  (In el (LinesV2.extract_text_elements doc) ->
   blank (V2.text el) = false /\
   (1 <= V2.page_num el <= Z.of_nat (List.length doc))%Z).
Proof.
  assert (Hiff :
    In el (LinesV2.extract_text_elements doc) <->
    exists pg page bn b ln line sp,
      nth_error doc pg = Some page /\ nth_error page bn = Some b /\
      Layout.block_type b = 0%Z /\
      nth_error (Layout.block_lines b) ln = Some line /\
      first_visible (Layout.line_spans line) = Some sp /\
      el = V2.TextElement_init
             (join " " (visible_texts (Layout.line_spans line)))
             (Layout.span_size sp) (Layout.span_font sp)
             (Layout.is_bold_font (Layout.span_font sp))
             (Layout.is_italic_font (Layout.span_font sp))
             (Layout.bbox0 sp) (Layout.bbox1 sp)
             (Layout.bbox2 sp - Layout.bbox0 sp)
             (Layout.bbox3 sp - Layout.bbox1 sp)
             (Z.of_nat pg + 1) (Z.of_nat bn) (Z.of_nat ln)).
  { unfold LinesV2.extract_text_elements, Layout.enumerate. split.
    - intros H. apply in_flat_map in H. destruct H as [[i page] [Hp H]].
      apply Extracted.enumerate_from_nth in Hp. destruct Hp as [pg [Hi Hpg]].
      cbn [fst snd] in H.
      apply in_flat_map in H. destruct H as [[j b] [Hb H]].
      apply Extracted.enumerate_from_nth in Hb. destruct Hb as [bn [Hj Hbn]].
      cbn [fst snd] in H. unfold LinesV2.block_elements in H.
      destruct (Layout.block_type b =? 0)%Z eqn:T; [|contradiction].
      cbn [negb] in H. apply Z.eqb_eq in T.
      unfold Layout.enumerate in H.
      apply in_flat_map in H. destruct H as [[k line] [Hl H]].
      apply Extracted.enumerate_from_nth in Hl. destruct Hl as [ln [Hk Hln]].
      cbn [fst snd] in H. rewrite Extracted.V2_line_elements in H.
      destruct (first_visible (Layout.line_spans line)) as [sp|] eqn:F;
        [|contradiction].
      destruct H as [<-|[]].
      exists pg, page, bn, b, ln, line, sp. subst i j k.
      repeat split; try assumption.
    - intros [pg [page [bn [b [ln [line [sp
               [Hpg [Hbn [T [Hln [F ->]]]]]]]]]]]].
      apply in_flat_map. exists (Z.of_nat pg, page). split.
      + apply Extracted.enumerate_from_nth. exists pg.
        split; [reflexivity | exact Hpg].
      + cbn [fst snd]. apply in_flat_map. exists (Z.of_nat bn, b). split.
        * apply Extracted.enumerate_from_nth. exists bn.
          split; [reflexivity | exact Hbn].
        * cbn [fst snd]. unfold LinesV2.block_elements.
          rewrite T. cbn [Z.eqb negb]. unfold Layout.enumerate.
          apply in_flat_map. exists (Z.of_nat ln, line). split.
          -- apply Extracted.enumerate_from_nth. exists ln.
             split; [reflexivity | exact Hln].
          -- cbn [fst snd]. rewrite Extracted.V2_line_elements, F.
             left. reflexivity. }
  split; [exact Hiff|].
  intros H. apply Hiff in H.
  destruct H as [pg [page [bn [b [ln [line [sp
                   [Hpg [_ [_ [_ [F ->]]]]]]]]]]]].
  unfold V2.TextElement_init. cbn [V2.text V2.page_num].
  destruct (Extracted.first_visible_texts _ _ F) as [t [r [Hv [_ Hb]]]].
  split.
  - rewrite Hv. apply Strings.strip_not_blank.
    apply Strings.blank_join_head. exact Hb.
  - assert (pg < List.length doc)%nat
      by (apply nth_error_Some; rewrite Hpg; discriminate).
    lia.
Qed.

Lemma extracted_lines_follow_first_run_witness :
  In (V2.TextElement_init "Field Guide" 24 "Helvetica-Bold" true false
        72 100 200 24 1 0 0)
     (LinesV2.extract_text_elements Examples.leaflet) /\
  blank "Field Guide" = false.
Proof.
  assert (H : In (V2.TextElement_init "Field Guide" 24 "Helvetica-Bold"
                    true false 72 100 200 24 1 0 0)
                 (LinesV2.extract_text_elements Examples.leaflet))
    by (vm_compute; left; reflexivity).
  split; [exact H|].
  destruct (proj2 (extracted_lines_follow_first_run Examples.leaflet _) H)
    as [H1 _].
  exact H1.
Defined.

(** X24.  A document that shows no text, from the opened document on:
    when every run of every text block is blank, nothing is extracted;
    the first and the third iteration answer the empty title and the
    empty outline, and the second raises [ValueError]. *)
Theorem document_without_text (doc : Layout.Doc) :
  no_visible_text doc ->
  LinesV1.extract_text_elements doc = [] /\
  LinesV2.extract_text_elements doc = [] /\
  run1 doc = Ok (mkOutcome "" []) /\
  run2 doc = Raise ValueError /\
  run3 doc = Ok (mkOutcome "" []).
Proof.
  intros H. unfold run1, run2, run3.
  rewrite (Extracted.V1_nothing_extracted doc H).
  rewrite (Extracted.V2_nothing_extracted doc H).
  repeat split; reflexivity.
Qed.

Lemma document_without_text_witness :
  no_visible_text [Examples.blank_page] /\
  run1 [Examples.blank_page] = Ok (mkOutcome "" []) /\
  run2 [Examples.blank_page] = Raise ValueError.
Proof.
  assert (H : no_visible_text [Examples.blank_page]).
  { intros page b line sp [<-|[]] Hb _ Hl Hs.
    destruct Hb as [<-|[<-|[]]]; [destruct Hl|].
    destruct Hl as [<-|[]]. destruct Hs as [<-|[<-|[]]]; reflexivity. }
  split; [exact H|].
  destruct (document_without_text [Examples.blank_page] H)
    as [_ [_ [H1 [H2 _]]]].
  split; [exact H1 | exact H2].
Defined.

(** X25.  The page numbers of the second iteration.  Every entry
    carries the text of the merged line it was made from.  On a
    document of one page its page is 1; on any other document its page
    is the physical page of the line less one, the cover counting as
    page 0, and the line is past the cover. *)
Theorem second_iteration_pages_after_cover (page_count : Z)
    (raw_elements : list V2.TextElement) (p : V2.Prepared)
    (el : V2.TextElement) (e : OutlineEntry) :
  V2.prepare page_count raw_elements = Ok p ->
  In (el, e)
     (V2.emitted (V2.prep_elements p) (V2.prep_clusters p)
        (V2.prep_title_size p) (V2.prep_title_lines p)
        (V2.prep_page_offset p) (V2.prep_single_page p)) ->
  In el (V2.prep_elements p) /\
  entry_text e = V2.text el /\
  (if (page_count =? 1)%Z
   then entry_page e = 1%Z
   else entry_page e = (V2.page_num el - 1)%Z /\ (2 <= V2.page_num el)%Z).
Proof.
  intros Hp Hin.
  destruct (Prepared.V2_prepare_fields _ _ _ Hp)
    as [cleaned [_ [_ [_ [_ [_ [Hoff Hsingle]]]]]]].
  unfold V2.emitted in Hin. apply V2_emitted_inv in Hin.
  destruct Hin as [Hel [last0 [lv [Hs He]]]]. apply sorted_In in Hel.
  destruct (Steps.V2_step_some _ _ _ _ _ _ _ Hs) as [Hlp _].
  split; [exact Hel|]. rewrite He. cbn [entry_text entry_page].
  split; [reflexivity|].
  rewrite Hoff, Hsingle in *. unfold V2.logical_page in *.
  destruct (page_count =? 1)%Z; cbn [negb] in *; [reflexivity | lia].
Qed.

Lemma second_iteration_pages_after_cover_witness :
  exists p,
    V2.prepare 1 Examples.one_page_report = Ok p /\
    In (Examples.report_line "Introduction" 16 300 1,
        mkEntry H1 "Introduction" 1)
       (V2.emitted (V2.prep_elements p) (V2.prep_clusters p)
          (V2.prep_title_size p) (V2.prep_title_lines p)
          (V2.prep_page_offset p) (V2.prep_single_page p)) /\
    entry_page (mkEntry H1 "Introduction" 1) = 1%Z.
Proof.
  destruct (V2.prepare 1 Examples.one_page_report) as [p|] eqn:Hp;
    [|vm_compute in Hp; discriminate].
  exists p.
  assert (Hp' := Hp). vm_compute in Hp'. injection Hp' as Hp'.
  assert (Hin : In (Examples.report_line "Introduction" 16 300 1,
                    mkEntry H1 "Introduction" 1)
                   (V2.emitted (V2.prep_elements p) (V2.prep_clusters p)
                      (V2.prep_title_size p) (V2.prep_title_lines p)
                      (V2.prep_page_offset p) (V2.prep_single_page p))).
  { rewrite <- Hp'. vm_compute. left. reflexivity. }
  split; [reflexivity|]. split; [exact Hin|].
  destruct (second_iteration_pages_after_cover 1 Examples.one_page_report p
              _ _ Hp Hin) as [_ [_ H]].
  exact H.
Defined.

End Behaviour.
